(** * Spot / perpetual arbitrage script: model and properties

    A shallow embedding of [scripts/spot_perp_arb.py] (class [SpotPerpArb]):
    the Python numbers it computes with ([decimal.Decimal] under the default
    context, binary64 [float]), the strategy object and its methods written
    in a small state-and-exception monad, the event handlers, and the
    properties of the lifecycle state machine, the opportunity detector and
    the capital checks. *)

From Stdlib Require Import ZArith QArith Qround Qabs Qpower Lia Lqa Bool List String.
Import ListNotations.
Open Scope Z_scope.

(* ================================================================== *)
(** * Python numbers *)
(* ================================================================== *)

Module PyNum.

(** Exceptions that the modelled code can raise.  [ConnectorError] stands
    for whatever a venue connector raises when a read fails;
    [AttributeError] carries the name of the attribute that was read and
    does not exist. *)
Inductive exn : Type :=
| AssertionError
| KeyError
| ConnectorError
| DivisionByZero
| InvalidOperation
| ZeroDivisionError
| OverflowError
| AttributeError (attribute : String.string).

Inductive result (A : Type) : Type :=
| Ok (a : A)
| Raise (e : exn).
Arguments Ok {A} a.
Arguments Raise {A} e.

(** [b ^ e] as a rational, for any integer exponent. *)
Definition Qpow (b e : Z) : Q := Qpower (inject_Z b) e.

(** [ilog b n] is the integer logarithm of [n >= 1] in base [b >= 2]. *)
Fixpoint ilog_fuel (fuel : nat) (b n : Z) : Z :=
  match fuel with
  | O => 0
  | S f => if n <? b then 0 else 1 + ilog_fuel f b (n / b)
  end.

Definition ilog (b n : Z) : Z := ilog_fuel (S (Z.to_nat (Z.log2 n))) b n.

(** The exponent [e] with [b^e <= |x| < b^(e+1)], for [x <> 0]. *)
Definition magnitude (b : Z) (x : Q) : Z :=
  let e0 := ilog b (Z.abs (Qnum x)) - ilog b (Zpos (Qden x)) in
  if Qle_bool (Qpow b e0) (Qabs x) then e0 else e0 - 1.

(** Nearest integer, ties to the even one. *)
Definition round_half_even (x : Q) : Z :=
  let f := Qfloor x in
  match Qcompare (x - inject_Z f) (1 # 2) with
  | Lt => f
  | Gt => f + 1
  | Eq => if Z.even f then f else f + 1
  end.

(** Nearest multiple of [b^q], ties to even. *)
Definition round_to (b q : Z) (x : Q) : Q :=
  Qred (inject_Z (round_half_even (x / Qpow b q)) * Qpow b q).

(** ** decimal.Decimal

    The default context: 28 significant digits, ROUND_HALF_EVEN, with
    InvalidOperation and DivisionByZero trapped.  The exponent limits
    (exponents beyond 999999 in size) are out of reach of prices and balances and are not
    modelled; a negative zero is identified with zero; signalling NaNs do
    not occur. *)
Inductive Decimal : Type :=
| Dfinite (q : Q)
| Dinf (neg : bool)
| DNaN.

Definition prec : Z := 28.

(** Context rounding of an exact result to [prec] significant digits. *)
Definition ctx_round (x : Q) : Q :=
  if Qeq_bool x 0 then 0%Q
  else round_to 10 (magnitude 10 x - (prec - 1)) x.

Definition Qneg_bool (x : Q) : bool := negb (Qle_bool 0 x).

Definition Decimal_sub (a b : Decimal) : result Decimal :=
  match a, b with
  | DNaN, _ | _, DNaN => Ok DNaN
  | Dinf s, Dinf t => if Bool.eqb s t then Raise InvalidOperation else Ok (Dinf s)
  | Dinf s, Dfinite _ => Ok (Dinf s)
  | Dfinite _, Dinf t => Ok (Dinf (negb t))
  | Dfinite x, Dfinite y => Ok (Dfinite (ctx_round (x - y)))
  end.

Definition Decimal_mul (a b : Decimal) : result Decimal :=
  match a, b with
  | DNaN, _ | _, DNaN => Ok DNaN
  | Dinf s, Dinf t => Ok (Dinf (xorb s t))
  | Dinf s, Dfinite y =>
      if Qeq_bool y 0 then Raise InvalidOperation else Ok (Dinf (xorb s (Qneg_bool y)))
  | Dfinite x, Dinf t =>
      if Qeq_bool x 0 then Raise InvalidOperation else Ok (Dinf (xorb (Qneg_bool x) t))
  | Dfinite x, Dfinite y => Ok (Dfinite (ctx_round (x * y)))
  end.

Definition Decimal_div (a b : Decimal) : result Decimal :=
  match a, b with
  | DNaN, _ | _, DNaN => Ok DNaN
  | Dinf _, Dinf _ => Raise InvalidOperation
  | Dinf s, Dfinite y => Ok (Dinf (xorb s (Qneg_bool y)))
  | Dfinite _, Dinf _ => Ok (Dfinite 0)
  | Dfinite x, Dfinite y =>
      if Qeq_bool y 0 then
        if Qeq_bool x 0 then Raise InvalidOperation else Raise DivisionByZero
      else Ok (Dfinite (ctx_round (x / y)))
  end.

(** [a >= b]: an ordering comparison with a NaN operand is trapped. *)
Definition Decimal_ge (a b : Decimal) : result bool :=
  match a, b with
  | DNaN, _ | _, DNaN => Raise InvalidOperation
  | Dinf s, Dinf t => Ok (negb s || t)
  | Dinf s, Dfinite _ => Ok (negb s)
  | Dfinite _, Dinf t => Ok t
  | Dfinite x, Dfinite y => Ok (Qle_bool y x)
  end.

(** ** float (IEEE 754 binary64, round to nearest, ties to even) *)
Inductive float : Type :=
| Ffinite (q : Q)
| Finf (neg : bool)
| Fnan.

(** Rounding of an exact value: 53 significant bits, gradual underflow
    below [2^-1022], infinity from [2^1024] on. *)
Definition float_round (x : Q) : float :=
  if Qeq_bool x 0 then Ffinite 0
  else
    let r := round_to 2 (Z.max (magnitude 2 x - 52) (-1074)) x in
    if Qle_bool (Qpow 2 1024) (Qabs r) then Finf (Qneg_bool x) else Ffinite r.

(** [float(d)] for a Decimal [d]: correctly rounded. *)
Definition float_of_Decimal (d : Decimal) : float :=
  match d with
  | Dfinite x => float_round x
  | Dinf s => Finf s
  | DNaN => Fnan
  end.

(** [Decimal(f)] for a float [f]: exact. *)
Definition Decimal_of_float (f : float) : Decimal :=
  match f with
  | Ffinite x => Dfinite x
  | Finf s => Dinf s
  | Fnan => DNaN
  end.

(** An int literal used as a float operand ([1], [10000]). *)
Definition float_of_int (n : Z) : float := float_round (inject_Z n).

Definition float_neg (a : float) : float :=
  match a with
  | Ffinite x => Ffinite (Qred (- x))
  | Finf s => Finf (negb s)
  | Fnan => Fnan
  end.

Definition float_add (a b : float) : float :=
  match a, b with
  | Fnan, _ | _, Fnan => Fnan
  | Finf s, Finf t => if Bool.eqb s t then Finf s else Fnan
  | Finf s, Ffinite _ => Finf s
  | Ffinite _, Finf t => Finf t
  | Ffinite x, Ffinite y => float_round (x + y)
  end.

Definition float_sub (a b : float) : float := float_add a (float_neg b).

Definition float_mul (a b : float) : float :=
  match a, b with
  | Fnan, _ | _, Fnan => Fnan
  | Finf s, Finf t => Finf (xorb s t)
  | Finf s, Ffinite y => if Qeq_bool y 0 then Fnan else Finf (xorb s (Qneg_bool y))
  | Ffinite x, Finf t => if Qeq_bool x 0 then Fnan else Finf (xorb (Qneg_bool x) t)
  | Ffinite x, Ffinite y => float_round (x * y)
  end.

(** [a / b] on two ints: the correctly rounded quotient. *)
Definition int_truediv (a b : Z) : result float :=
  if b =? 0 then Raise ZeroDivisionError
  else
    match float_round (inject_Z a / inject_Z b) with
    | Ffinite x => Ok (Ffinite x)
    | _ => Raise OverflowError
    end.

(** [f >= n] for a float and an int: compared exactly. *)
Definition float_ge_int (f : float) (n : Z) : bool :=
  match f with
  | Ffinite x => Qle_bool (inject_Z n) x
  | Finf s => negb s
  | Fnan => false
  end.

End PyNum.
Export PyNum.

Open Scope string_scope.
Open Scope list_scope.
Open Scope Z_scope.

(* ================================================================== *)
(** * Data model *)
(* ================================================================== *)

Inductive StrategyState : Type :=
| Closed   (* static state *)
| Opening  (* in flight state *)
| Opened   (* static state *)
| Closing. (* in flight state *)

Definition StrategyState_eqb (a b : StrategyState) : bool :=
  match a, b with
  | Closed, Closed | Opening, Opening | Opened, Opened | Closing, Closing => true
  | _, _ => false
  end.

Inductive OrderType : Type := LIMIT.
Inductive PositionAction : Type := OPEN | CLOSE.
Inductive TradeType : Type := BUY | SELL.

(** One call of [self.buy] or [self.sell], as the order gateway receives
    it.  The spot legs pass no [position_action]. *)
Record Order : Type := mkOrder {
  trade_type : TradeType;
  connector_name : string;
  order_pair : string;
  amount : Decimal;
  order_type : OrderType;
  price : Decimal;
  position_action : option PositionAction
}.

(** The class attributes that configure the script. *)
Record Config : Type := mkConfig {
  spot_connector : string;
  perp_connector : string;
  trading_pair : string;
  leverage : Z;
  base_order_amount : Decimal;
  buy_spot_short_perp_profit_margin_bps : Z;
  sell_spot_long_perp_profit_margin_bps : Z;
  slippage_buffer_bps : Z;
  next_arbitrage_opening_delay : Z;
  in_flight_state_tolerance : Z;
  opened_state_tolerance : Z
}.

Definition shipped : Config := {|
  spot_connector := "kucoin";
  perp_connector := "kucoin_perpetual";
  trading_pair := "LINA-USDT";
  leverage := 2;
  base_order_amount := Dfinite 100;
  buy_spot_short_perp_profit_margin_bps := 20;
  sell_spot_long_perp_profit_margin_bps := 20;
  slippage_buffer_bps := 5;
  next_arbitrage_opening_delay := 5;
  in_flight_state_tolerance := 60;
  opened_state_tolerance := 60 * 60 * 2
|}.

(** What the script reads from a venue connector.  Both reads may raise.
    [get_price_for_volume pair is_buy volume] is the [result_price] of the
    query. *)
Record Connector : Type := mkConnector {
  get_price_for_volume : string -> bool -> Decimal -> result Decimal;
  get_available_balance : string -> result Decimal
}.

(** What one tick reads from outside the class: the [connectors] dict, the
    clock (whole seconds) and [split_hb_trading_pair], which is imported
    from the connector utilities and taken here as a parameter. *)
Record Env : Type := mkEnv {
  connectors : string -> option Connector;
  current_timestamp : Z;
  split_hb_trading_pair : string -> string * string
}.

(** The attributes of the strategy object.  [_position_mode_ready] does
    not exist until [did_change_position_mode_succeed] creates it, and
    [last_submit_order_ts] not until an order method assigns it.
    [is_perp_in_long] and [is_perp_in_short] are read by the order methods
    and created nowhere: not in the class body, not in [__init__], not in
    any method.  They are [None] on the object as built and hold a value
    only if something outside the class has assigned one. *)
Record SpotPerpArb : Type := mkSpotPerpArb {
  is_position_mode_ready : bool;
  _position_mode_ready : option bool;
  strategy_state : StrategyState;
  completed_order_ids : list string;
  next_arbitrage_opening_ts : Z;
  in_flight_state_start_ts : Z;
  opened_state_start_ts : Z;
  last_submit_order_ts : option Z;
  is_perp_in_long : option bool;
  is_perp_in_short : option bool
}.

(** The strategy object together with the orders handed to the gateway so
    far (oldest first). *)
Record World : Type := mkWorld {
  self : SpotPerpArb;
  gateway : list Order
}.

Definition set_strategy_state (v : StrategyState) (s : SpotPerpArb) : SpotPerpArb :=
  mkSpotPerpArb (is_position_mode_ready s) (_position_mode_ready s) v
    (completed_order_ids s) (next_arbitrage_opening_ts s)
    (in_flight_state_start_ts s) (opened_state_start_ts s)
    (last_submit_order_ts s) (is_perp_in_long s) (is_perp_in_short s).

Definition set_completed_order_ids (v : list string) (s : SpotPerpArb) : SpotPerpArb :=
  mkSpotPerpArb (is_position_mode_ready s) (_position_mode_ready s) (strategy_state s)
    v (next_arbitrage_opening_ts s)
    (in_flight_state_start_ts s) (opened_state_start_ts s)
    (last_submit_order_ts s) (is_perp_in_long s) (is_perp_in_short s).

Definition set_next_arbitrage_opening_ts (v : Z) (s : SpotPerpArb) : SpotPerpArb :=
  mkSpotPerpArb (is_position_mode_ready s) (_position_mode_ready s) (strategy_state s)
    (completed_order_ids s) v
    (in_flight_state_start_ts s) (opened_state_start_ts s)
    (last_submit_order_ts s) (is_perp_in_long s) (is_perp_in_short s).

Definition set_in_flight_state_start_ts (v : Z) (s : SpotPerpArb) : SpotPerpArb :=
  mkSpotPerpArb (is_position_mode_ready s) (_position_mode_ready s) (strategy_state s)
    (completed_order_ids s) (next_arbitrage_opening_ts s)
    v (opened_state_start_ts s)
    (last_submit_order_ts s) (is_perp_in_long s) (is_perp_in_short s).

Definition set_opened_state_start_ts (v : Z) (s : SpotPerpArb) : SpotPerpArb :=
  mkSpotPerpArb (is_position_mode_ready s) (_position_mode_ready s) (strategy_state s)
    (completed_order_ids s) (next_arbitrage_opening_ts s)
    (in_flight_state_start_ts s) v
    (last_submit_order_ts s) (is_perp_in_long s) (is_perp_in_short s).

Definition set_last_submit_order_ts (v : option Z) (s : SpotPerpArb) : SpotPerpArb :=
  mkSpotPerpArb (is_position_mode_ready s) (_position_mode_ready s) (strategy_state s)
    (completed_order_ids s) (next_arbitrage_opening_ts s)
    (in_flight_state_start_ts s) (opened_state_start_ts s)
    v (is_perp_in_long s) (is_perp_in_short s).

Definition set__position_mode_ready (v : option bool) (s : SpotPerpArb) : SpotPerpArb :=
  mkSpotPerpArb (is_position_mode_ready s) v (strategy_state s)
    (completed_order_ids s) (next_arbitrage_opening_ts s)
    (in_flight_state_start_ts s) (opened_state_start_ts s)
    (last_submit_order_ts s) (is_perp_in_long s) (is_perp_in_short s).

(* ================================================================== *)
(** * The method monad: state that survives an exception *)
(* ================================================================== *)

(** A method runs on a world and ends normally or by an exception; either
    way the assignments made so far stay. *)
Definition M (A : Type) : Type := World -> result A * World.

Definition ret {A} (a : A) : M A := fun w => (Ok a, w).

Definition bind {A B} (c : M A) (k : A -> M B) : M B :=
  fun w =>
    match c w with
    | (Ok a, w') => k a w'
    | (Raise e, w') => (Raise e, w')
    end.

Definition lift {A} (r : result A) : M A := fun w => (r, w).

Definition get_self : M SpotPerpArb := fun w => (Ok (self w), w).

Definition modify_self (f : SpotPerpArb -> SpotPerpArb) : M unit :=
  fun w => (Ok tt, mkWorld (f (self w)) (gateway w)).

Definition submit (o : Order) : M unit :=
  fun w => (Ok tt, mkWorld (self w) (gateway w ++ [o])).

Definition assert (b : bool) : M unit :=
  if b then ret tt else lift (Raise AssertionError).

(** [self.<name>] for an attribute that may not exist: [v] is its value,
    if it has one. *)
Definition attribute {A} (name : string) (v : option A) : M A :=
  match v with
  | Some a => ret a
  | None => lift (Raise (PyNum.AttributeError name))
  end.

(** A method that assigns nothing and submits nothing. *)
Definition frame {A} (c : M A) : Prop := forall w, snd (c w) = w.

Declare Scope method_scope.
Delimit Scope method_scope with method.
Notation "x <- c ;; k" := (bind c (fun x => k))
  (at level 61, c at next level, right associativity) : method_scope.
Notation "c ;; k" := (bind c (fun _ => k))
  (at level 61, right associativity) : method_scope.
Open Scope method_scope.

(* ================================================================== *)
(** * The methods of [SpotPerpArb] *)
(* ================================================================== *)

(** Calls of [self.logger()] change no attribute and submit no order; they
    are left out. *)

Section Methods.

Variable cfg : Config.
Variable env : Env.

(** [self.connectors[connector_name]] *)
Definition connector (name : string) : M Connector :=
  match connectors env name with
  | Some c => ret c
  | None => lift (Raise KeyError)
  end.

Definition limit_taker_price (name : string) (is_buy : bool) : M Decimal :=
  c <- connector name ;;
  lift (get_price_for_volume c (trading_pair cfg) is_buy (base_order_amount cfg)).

Definition limit_taker_price_with_slippage (name : string) (is_buy : bool) : M Decimal :=
  price <- limit_taker_price name is_buy ;;
  ratio <- lift (int_truediv (slippage_buffer_bps cfg) 10000) ;;
  let slippage :=
    if is_buy
    then Decimal_of_float (float_add (float_of_int 1) ratio)
    else Decimal_of_float (float_sub (float_of_int 1) ratio) in
  lift (Decimal_mul price slippage).

Definition get_balance (name : string) (is_base : bool) : M float :=
  (if String.eqb name (perp_connector cfg) then assert (negb is_base) else ret tt) ;;
  let (base, quote) := split_hb_trading_pair env (trading_pair cfg) in
  c <- connector name ;;
  balance <- lift (get_available_balance c (if is_base then base else quote)) ;;
  ret (float_of_Decimal balance).

Definition should_buy_spot_short_perp : M bool :=
  spot_buy_price <- limit_taker_price (spot_connector cfg) true ;;
  perp_sell_price <- limit_taker_price (perp_connector cfg) false ;;
  diff <- lift (Decimal_sub perp_sell_price spot_buy_price) ;;
  quot <- lift (Decimal_div diff spot_buy_price) ;;
  let ret_pbs := float_mul (float_of_Decimal quot) (float_of_int 10000) in
  let is_profitable := float_ge_int ret_pbs (buy_spot_short_perp_profit_margin_bps cfg) in
  ret is_profitable.

Definition can_buy_spot_short_perp : M bool :=
  spot_balance <- get_balance (spot_connector cfg) false ;;
  buy_price_with_slippage <- limit_taker_price_with_slippage (spot_connector cfg) true ;;
  spot_required <- lift (Decimal_mul buy_price_with_slippage (base_order_amount cfg)) ;;
  is_spot_enough <- lift (Decimal_ge (Decimal_of_float spot_balance) spot_required) ;;
  perp_balance <- get_balance (perp_connector cfg) false ;;
  (* short order WITHOUT any slippage takes more capital *)
  short_price <- limit_taker_price (perp_connector cfg) false ;;
  perp_required <- lift (Decimal_mul short_price (base_order_amount cfg)) ;;
  is_perp_enough <- lift (Decimal_ge (Decimal_of_float perp_balance) perp_required) ;;
  ret (is_spot_enough && is_perp_enough).

Definition buy_spot_short_perp : M unit :=
  spot_buy_price_with_slippage <-
    limit_taker_price_with_slippage (spot_connector cfg) true ;;
  perp_short_price_with_slippage <-
    limit_taker_price_with_slippage (perp_connector cfg) false ;;
  submit (mkOrder BUY (spot_connector cfg) (trading_pair cfg) (base_order_amount cfg)
            LIMIT spot_buy_price_with_slippage None) ;;
  s <- get_self ;;
  long <- attribute "is_perp_in_long" (is_perp_in_long s) ;;
  let position_action := if long then CLOSE else OPEN in
  submit (mkOrder SELL (perp_connector cfg) (trading_pair cfg) (base_order_amount cfg)
            LIMIT perp_short_price_with_slippage (Some position_action)) ;;
  modify_self (set_last_submit_order_ts (Some (current_timestamp env))).

Definition should_sell_spot_long_perp : M bool :=
  spot_sell_price <- limit_taker_price (spot_connector cfg) false ;;
  perp_buy_price <- limit_taker_price (perp_connector cfg) true ;;
  diff <- lift (Decimal_sub spot_sell_price perp_buy_price) ;;
  quot <- lift (Decimal_div diff perp_buy_price) ;;
  let ret_pbs := float_mul (float_of_Decimal quot) (float_of_int 10000) in
  let is_profitable := float_ge_int ret_pbs (sell_spot_long_perp_profit_margin_bps cfg) in
  ret is_profitable.

Definition can_sell_spot_long_perp : M bool :=
  spot_balance <- get_balance (spot_connector cfg) true ;;
  let spot_required := base_order_amount cfg in
  is_spot_enough <- lift (Decimal_ge (Decimal_of_float spot_balance) spot_required) ;;
  perp_balance <- get_balance (perp_connector cfg) false ;;
  long_price_with_slippage <- limit_taker_price (perp_connector cfg) true ;;
  perp_required <- lift (Decimal_mul long_price_with_slippage (base_order_amount cfg)) ;;
  is_perp_enough <- lift (Decimal_ge (Decimal_of_float perp_balance) perp_required) ;;
  ret (is_spot_enough && is_perp_enough).

Definition sell_spot_long_perp : M unit :=
  perp_long_price_with_slippage <-
    limit_taker_price_with_slippage (perp_connector cfg) true ;;
  spot_sell_price_with_slippage <-
    limit_taker_price_with_slippage (spot_connector cfg) false ;;
  s <- get_self ;;
  short <- attribute "is_perp_in_short" (is_perp_in_short s) ;;
  let position_action := if short then CLOSE else OPEN in
  submit (mkOrder BUY (perp_connector cfg) (trading_pair cfg) (base_order_amount cfg)
            LIMIT perp_long_price_with_slippage (Some position_action)) ;;
  submit (mkOrder SELL (spot_connector cfg) (trading_pair cfg) (base_order_amount cfg)
            LIMIT spot_sell_price_with_slippage None) ;;
  modify_self (set_last_submit_order_ts (Some (current_timestamp env))).

Definition update_in_flight_state : M unit :=
  s <- get_self ;;
  if StrategyState_eqb (strategy_state s) Opening
     && (Nat.eqb (List.length (completed_order_ids s)) 2)
  then
    modify_self (set_strategy_state Opened) ;;
    modify_self (set_completed_order_ids []) ;;
    modify_self (set_opened_state_start_ts (current_timestamp env))
  else if StrategyState_eqb (strategy_state s) Closing
          && (Nat.eqb (List.length (completed_order_ids s)) 2)
  then
    modify_self (set_strategy_state Closed) ;;
    modify_self (set_next_arbitrage_opening_ts
                   (current_timestamp env + next_arbitrage_opening_ts s)) ;;
    modify_self (set_completed_order_ids [])
  else ret tt.

Definition update_static_state : M unit :=
  s <- get_self ;;
  (if StrategyState_eqb (strategy_state s) Closed
   then modify_self (set_strategy_state Opening)
   else if StrategyState_eqb (strategy_state s) Opened
   then modify_self (set_strategy_state Closing)
   else ret tt) ;;
  modify_self (set_in_flight_state_start_ts (current_timestamp env)).

(** The last block of [on_tick]: find opportunity and trade. *)
Definition find_opportunity_and_trade : M unit :=
  should_buy <- should_buy_spot_short_perp ;;
  go_buy <- (if should_buy then can_buy_spot_short_perp else ret false) ;;
  if go_buy then
    buy_spot_short_perp ;;
    update_static_state
  else
    should_sell <- should_sell_spot_long_perp ;;
    go_sell <- (if should_sell then can_sell_spot_long_perp else ret false) ;;
    if go_sell then
      sell_spot_long_perp ;;
      update_static_state
    else ret tt.

Definition on_tick : M unit :=
  s <- get_self ;;
  (* precheck before running any trading logic *)
  if negb (is_position_mode_ready s) then ret tt
  else
    (* skip if orders are pending for completion; past the tolerance the
       tick only logs a warning *)
    update_in_flight_state ;;
    s <- get_self ;;
    if StrategyState_eqb (strategy_state s) Opening
       || StrategyState_eqb (strategy_state s) Closing
    then ret tt
    else
    (* skip if its still in buffer time before next arbitrage opportunity *)
    if StrategyState_eqb (strategy_state s) Closed
       && (current_timestamp env <? next_arbitrage_opening_ts s)
    then ret tt
    else
      (* a position opened for longer than the tolerance is only logged *)
      find_opportunity_and_trade.

End Methods.

(** ** Event handlers *)

Definition did_complete_buy_order (order_id : string) : M unit :=
  s <- get_self ;;
  modify_self (set_completed_order_ids (completed_order_ids s ++ [order_id])).

Definition did_complete_sell_order (order_id : string) : M unit :=
  s <- get_self ;;
  modify_self (set_completed_order_ids (completed_order_ids s ++ [order_id])).

Definition did_change_position_mode_succeed : M unit :=
  modify_self (set__position_mode_ready (Some true)).

Definition did_change_position_mode_fail : M unit := ret tt.

(* ================================================================== *)
(** * Executions *)
(* ================================================================== *)

(** The object as the class body and [__init__] leave it.  [__init__]
    calls [set_leverage], which only talks to the perpetual connector and
    assigns no attribute.  The two position attributes are absent on it,
    [init None None]; they are kept general for an object on which they
    were assigned from outside. *)
Definition init (long short : option bool) : World :=
  mkWorld (mkSpotPerpArb false None Closed [] 0 0 0 None long short) [].

(** What the scheduler and the connectors deliver to the strategy. *)
Inductive event : Type :=
| Tick (env : Env)
| BuyOrderCompleted (order_id : string)
| SellOrderCompleted (order_id : string)
| PositionModeChangeSucceeded
| PositionModeChangeFailed.

(** One delivery.  An exception that leaves [on_tick] is the scheduler's
    to deal with; the object keeps the assignments made before it. *)
Definition handle (cfg : Config) (ev : event) (w : World) : World :=
  match ev with
  | Tick env => snd (on_tick cfg env w)
  | BuyOrderCompleted id => snd (did_complete_buy_order id w)
  | SellOrderCompleted id => snd (did_complete_sell_order id w)
  | PositionModeChangeSucceeded => snd (did_change_position_mode_succeed w)
  | PositionModeChangeFailed => snd (did_change_position_mode_fail w)
  end.

Definition run (cfg : Config) (evs : list event) (w : World) : World :=
  fold_left (fun w ev => handle cfg ev w) evs w.

(** ** A gateway that notifies each submitted leg at most once

    The strategy together with the identifiers of the legs that were
    submitted and are neither notified complete nor failed yet. *)
Record System : Type := mkSystem {
  world : World;
  outstanding : list string
}.

Fixpoint remove_one (id : string) (l : list string) : list string :=
  match l with
  | [] => []
  | x :: r => if String.eqb id x then r else x :: remove_one id r
  end.

Inductive sys_step (cfg : Config) : System -> System -> Prop :=
| step_tick env ids s :
    (List.length (gateway (world s)) + List.length ids
      = List.length (gateway (snd (on_tick cfg env (world s)))))%nat ->
    sys_step cfg s
      (mkSystem (snd (on_tick cfg env (world s))) (outstanding s ++ ids))
| step_buy_completed id s :
    In id (outstanding s) ->
    sys_step cfg s
      (mkSystem (snd (did_complete_buy_order id (world s)))
                (remove_one id (outstanding s)))
| step_sell_completed id s :
    In id (outstanding s) ->
    sys_step cfg s
      (mkSystem (snd (did_complete_sell_order id (world s)))
                (remove_one id (outstanding s)))
| step_leg_failed id s :
    In id (outstanding s) ->
    sys_step cfg s (mkSystem (world s) (remove_one id (outstanding s)))
| step_mode_succeeded s :
    sys_step cfg s
      (mkSystem (snd (did_change_position_mode_succeed (world s))) (outstanding s))
| step_mode_failed s :
    sys_step cfg s
      (mkSystem (snd (did_change_position_mode_fail (world s))) (outstanding s)).

Inductive sys_reach (cfg : Config) (s0 : System) : System -> Prop :=
| reach_start : sys_reach cfg s0 s0
| reach_step s s' : sys_reach cfg s0 s -> sys_step cfg s s' -> sys_reach cfg s0 s'.

(** Nothing in flight: state [Closed], no completion recorded, no leg
    outstanding.  [is_position_mode_ready] may stand either way. *)
Definition idle (s : System) : Prop :=
  strategy_state (self (world s)) = Closed
  /\ completed_order_ids (self (world s)) = []
  /\ outstanding s = [].

(** The legs of the running transition are all accounted for: in a
    static state none is on record and none outstanding; in an in-flight
    state the recorded and the outstanding ones are two at most. *)
Definition legs_accounted (s : System) : Prop :=
  match strategy_state (self (world s)) with
  | Closed | Opened =>
      completed_order_ids (self (world s)) = [] /\ outstanding s = []
  | Opening | Closing =>
      (List.length (completed_order_ids (self (world s)))
       + List.length (outstanding s) <= 2)%nat
  end.

(* ================================================================== *)
(** * Vocabulary of the properties *)
(* ================================================================== *)

Definition is_static (st : StrategyState) : bool :=
  match st with Closed | Opened => true | Opening | Closing => false end.

Definition is_in_flight (st : StrategyState) : bool := negb (is_static st).

(** A Leg-Completed notification, delivered to the buy or to the sell
    handler. *)
Definition notify (is_buy : bool) (order_id : string) : M unit :=
  if is_buy then did_complete_buy_order order_id else did_complete_sell_order order_id.

(** The in-flight state that follows a static one. *)
Definition in_flight_successor (st : StrategyState) : StrategyState :=
  match st with
  | Closed => Opening
  | Opened => Closing
  | other => other
  end.

(** The static state that follows an in-flight one. *)
Definition static_successor (st : StrategyState) : StrategyState :=
  match st with
  | Opening => Opened
  | Closing => Closed
  | other => other
  end.

(** The tick reaches the opportunity evaluation: precheck passed, a static
    state, and not inside the reopening delay. *)
Definition evaluating (env : Env) (w : World) : Prop :=
  is_position_mode_ready (self w) = true
  /\ (strategy_state (self w) = Opened
      \/ (strategy_state (self w) = Closed
          /\ next_arbitrage_opening_ts (self w) <= current_timestamp env)).

(** The spot leg of BuySpotShortPerp. *)
Definition spot_buy_leg (cfg : Config) (spot_price : Decimal) : Order :=
  mkOrder BUY (spot_connector cfg) (trading_pair cfg) (base_order_amount cfg)
    LIMIT spot_price None.

(** The two legs of BuySpotShortPerp, in submission order, when
    [is_perp_in_long] holds [long]. *)
Definition buy_spot_short_perp_legs (cfg : Config) (long : bool)
    (spot_price perp_price : Decimal) : list Order :=
  [ spot_buy_leg cfg spot_price;
    mkOrder SELL (perp_connector cfg) (trading_pair cfg) (base_order_amount cfg)
      LIMIT perp_price (Some (if long then CLOSE else OPEN)) ].

(** The two legs of SellSpotLongPerp, in submission order, when
    [is_perp_in_short] holds [short]. *)
Definition sell_spot_long_perp_legs (cfg : Config) (short : bool)
    (perp_price spot_price : Decimal) : list Order :=
  [ mkOrder BUY (perp_connector cfg) (trading_pair cfg) (base_order_amount cfg)
      LIMIT perp_price (Some (if short then CLOSE else OPEN));
    mkOrder SELL (spot_connector cfg) (trading_pair cfg) (base_order_amount cfg)
      LIMIT spot_price None ].

(** The world after one order went out and nothing else happened: no
    attribute assigned, no state change. *)
Definition stranded (leg : Order) (w : World) : World :=
  mkWorld (self w) (gateway w ++ [leg]).

(** The world after a pair of legs went out on a tick in a static state. *)
Definition submitted (env : Env) (legs : list Order) (w : World) : World :=
  mkWorld
    (set_in_flight_state_start_ts (current_timestamp env)
       (set_strategy_state (in_flight_successor (strategy_state (self w)))
          (set_last_submit_order_ts (Some (current_timestamp env)) (self w))))
    (gateway w ++ legs).

(** A direction triggers: its detector and its capital check both return
    [True]. *)
Definition triggers (should can : M bool) (w : World) : Prop :=
  should w = (Ok true, w) /\ can w = (Ok true, w).

(** A direction is passed over: its detector returns [False], or returns
    [True] and the capital check returns [False]. *)
Definition passes (should can : M bool) (w : World) : Prop :=
  should w = (Ok false, w) \/ (should w = (Ok true, w) /\ can w = (Ok false, w)).

(** The spread in basis points by the closed form
    [(sell - buy) / buy * 10000], in exact arithmetic. *)
Definition closed_form_spread_bps (sell buy : Q) : Q :=
  ((sell - buy) / buy * 10000)%Q.

(** The spread as a detector computes it from two finite prices: the
    difference and the quotient in Decimal, the conversion to float, the
    product in float. *)
Definition detector_spread_bps (sell buy : Q) : float :=
  float_mul (float_of_Decimal (Dfinite (ctx_round (ctx_round (sell - buy) / buy))))
            (float_of_int 10000).

(** The relative band, [2^-50], outside of which the rounded computations
    decide as the closed forms do. *)
Definition tolerance : Q := 1 # 1125899906842624.

(** None of the four operations of the detector rounds. *)
Definition exact_spread (sell buy : Q) : Prop :=
  (ctx_round (sell - buy) == sell - buy)%Q
  /\ (ctx_round (ctx_round (sell - buy) / buy) == ctx_round (sell - buy) / buy)%Q
  /\ exists f g,
       float_round (ctx_round (ctx_round (sell - buy) / buy)) = Ffinite f
       /\ (f == ctx_round (ctx_round (sell - buy) / buy))%Q
       /\ float_round (f * 10000) = Ffinite g
       /\ (g == f * 10000)%Q.




(* ================================================================== *)
(** * Concrete markets and strategy objects *)
(* ================================================================== *)

Module Scenario.

(** [split_hb_trading_pair]: the text before and after the dash. *)
Definition split_dash (pair : string) : string * string :=
  match index 0 "-" pair with
  | Some i => (substring 0 i pair, substring (S i) (String.length pair - S i) pair)
  | None => (pair, "")
  end.

(** A venue that quotes [buy] to a taker who buys and [sell] to one who
    sells, and holds [base] LINA and [quote] USDT. *)
Definition quoting (buy sell base quote : Q) : Connector :=
  mkConnector
    (fun _ is_buy _ => Ok (Dfinite (if is_buy then buy else sell)))
    (fun asset => Ok (Dfinite (if String.eqb asset "LINA" then base else quote))).

(** A venue whose reads raise. *)
Definition unreachable : Connector :=
  mkConnector (fun _ _ _ => Raise ConnectorError) (fun _ => Raise ConnectorError).

Definition market (now : Z) (spot perp : Connector) : Env :=
  mkEnv
    (fun name =>
       if String.eqb name "kucoin" then Some spot
       else if String.eqb name "kucoin_perpetual" then Some perp
       else None)
    now split_dash.

(** A strategy object with [is_position_mode_ready] at [ready], in state [st], with the
    recorded completions [ids] and the reopening timestamp [reopen], on
    which [is_perp_in_long] and [is_perp_in_short] were assigned [False]
    from outside the class. *)
Definition strategy (ready : bool) (st : StrategyState) (ids : list string)
    (reopen : Z) : World :=
  mkWorld (mkSpotPerpArb ready None st ids reopen 0 0 None (Some false) (Some false)) [].

(** The same object with the two position attributes absent, as the class
    leaves them. *)
Definition as_built (ready : bool) (st : StrategyState) (ids : list string)
    (reopen : Z) : World :=
  mkWorld (mkSpotPerpArb ready None st ids reopen 0 0 None None None) [].

(** The shipped configuration with other profit margins. *)
Definition with_margins (buy_bps sell_bps : Z) : Config :=
  mkConfig "kucoin" "kucoin_perpetual" "LINA-USDT" 2 (Dfinite 100)
    buy_bps sell_bps 5 5 60 (60 * 60 * 2).

(** Spot asks 1.0000, perpetual bids 1.0025: only BuySpotShortPerp pays
    (25 bps); both venues hold 1000 LINA / 1000 USDT. *)
Definition buy_side_market (now : Z) : Env :=
  market now (quoting 1 (9 # 10) 1000 1000)
             (quoting (11 # 10) (10025 # 10000) 1000 1000).

(** Perpetual asks 1.0000, spot bids 1.0025: only SellSpotLongPerp pays. *)
Definition sell_side_market (now : Z) : Env :=
  market now (quoting (11 # 10) (10025 # 10000) 1000 1000)
             (quoting 1 (9 # 10) 1000 1000).

(** No direction pays. *)
Definition quiet_market (now : Z) : Env :=
  market now (quoting (11 # 10) (9 # 10) 1000 1000)
             (quoting (11 # 10) (9 # 10) 1000 1000).

(** The spot venue cannot be read. *)
Definition spot_down_market (now : Z) : Env :=
  market now unreachable (quoting (11 # 10) (10025 # 10000) 1000 1000).

(** The spot venue quotes a zero price to buyers. *)
Definition zero_spot_market (now : Z) : Env :=
  market now (quoting 0 (9 # 10) 1000 1000)
             (quoting (11 # 10) (10025 # 10000) 1000 1000).


(** The spot asks [ask] and the perpetual bids [bid]; balances are ample. *)
Definition open_quotes (now : Z) (ask bid : Q) : Env :=
  market now (quoting ask (9 # 10) 1000000 1000000)
             (quoting (11 # 10) bid 1000000 1000000).

(** The spot asks [ask] and holds [spot_usdt] USDT; the perpetual bids
    [bid] and holds [perp_usdt] USDT. *)
Definition funded_quotes (now : Z) (ask spot_usdt bid perp_usdt : Q) : Env :=
  market now (quoting ask (9 # 10) 1000 spot_usdt)
             (quoting (11 # 10) bid 0 perp_usdt).

(** A first open/close cycle, the close being observed at second 1000:
    open on a paying market, two completions, a tick, unwind on the
    reverse market, two completions, and the tick at 1000. *)
Definition first_cycle : list event :=
  [ Tick (buy_side_market 10);
    BuyOrderCompleted "spot-1"; SellOrderCompleted "perp-1";
    Tick (quiet_market 20);
    Tick (sell_side_market 30);
    BuyOrderCompleted "perp-2"; SellOrderCompleted "spot-2";
    Tick (quiet_market 1000) ].

(** A second cycle, opened at 1003 and closed at second 2000. *)
Definition second_cycle : list event :=
  [ Tick (buy_side_market 1003);
    BuyOrderCompleted "spot-3"; SellOrderCompleted "perp-3";
    Tick (quiet_market 1010);
    Tick (sell_side_market 1020);
    BuyOrderCompleted "perp-4"; SellOrderCompleted "spot-4";
    Tick (quiet_market 2000) ].

End Scenario.

(* ================================================================== *)
(** * The status report *)
(* ================================================================== *)

(** How a status method can end without a value: by an exception of a
    method it calls, or by the AttributeError of reading an attribute that
    no assignment has created yet.  (The methods the report calls read no
    such attribute; theirs is written [PyNum.AttributeError] below.) *)
Inductive status_exn : Type :=
| MethodError (e : exn)
| AttributeError (attribute : string).

(** A line of the report is kept as the pieces of its f-string: literal
    text and interpolated values with their format specification.  How
    Python prints a Decimal or a float is not interpreted, and the lines
    are kept as a list where the method joins them with newlines. *)
Inductive Value : Type :=
| VDecimal (d : Decimal)
| VFloat (f : float)
| VTimestamp (t : Z)
| VState (st : StrategyState)
| VIds (ids : list string)
| VName (s : string).

Inductive Piece : Type :=
| Text (s : string)
| Interpolated (spec : string) (v : Value).

Definition Line : Type := list Piece.

Definition Status (A : Type) : Type := World -> (A + status_exn) * World.

Definition sret {A} (a : A) : Status A := fun w => (inl a, w).

Definition sbind {A B} (c : Status A) (k : A -> Status B) : Status B :=
  fun w =>
    match c w with
    | (inl a, w') => k a w'
    | (inr e, w') => (inr e, w')
    end.

(** A call of a strategy method from a status method. *)
Definition call {A} (c : M A) : Status A :=
  fun w =>
    match c w with
    | (Ok a, w') => (inl a, w')
    | (Raise e, w') => (inr (MethodError e), w')
    end.

Definition attribute_error {A} (attribute : string) : Status A :=
  fun w => (inr (AttributeError attribute), w).

Declare Scope status_scope.
Delimit Scope status_scope with status.
Notation "x <~ c ;; k" := (sbind c (fun x => k))
  (at level 61, c at next level, right associativity) : status_scope.
Open Scope status_scope.

Section StatusMethods.

Variable cfg : Config.
Variable env : Env.

Definition _append_buy_spot_short_perp_status (lines : list Line) : Status (list Line) :=
  spot_buy_price <~ call (limit_taker_price cfg env (spot_connector cfg) true) ;;
  perp_short_price <~ call (limit_taker_price cfg env (perp_connector cfg) false) ;;
  diff <~ call (lift (Decimal_sub perp_short_price spot_buy_price)) ;;
  quot <~ call (lift (Decimal_div diff spot_buy_price)) ;;
  let return_pbs :=
    float_mul (float_mul (float_of_Decimal quot) (float_of_int 100)) (float_of_int 100) in
  sret (lines ++
        [ [Text "Buy Spot Short Perp Opportunity:"];
          [Text "Buy Spot: "; Interpolated "" (VDecimal spot_buy_price)];
          [Text "Short Perp: "; Interpolated "" (VDecimal perp_short_price)];
          [Text "Return (bps): "; Interpolated ".1f" (VFloat return_pbs); Text "%"] ]).

Definition _append_sell_spot_long_perp_status (lines : list Line) : Status (list Line) :=
  perp_long_price <~ call (limit_taker_price cfg env (perp_connector cfg) true) ;;
  spot_sell_price <~ call (limit_taker_price cfg env (spot_connector cfg) false) ;;
  diff <~ call (lift (Decimal_sub spot_sell_price perp_long_price)) ;;
  quot <~ call (lift (Decimal_div diff perp_long_price)) ;;
  let return_pbs :=
    float_mul (float_mul (float_of_Decimal quot) (float_of_int 100)) (float_of_int 100) in
  sret (lines ++
        [ [Text "Long Perp Sell Spot Opportunity:"];
          [Text "Long Perp: "; Interpolated "" (VDecimal perp_long_price)];
          [Text "Sell Spot: "; Interpolated "" (VDecimal spot_sell_price)];
          [Text "Return (bps): "; Interpolated ".1f" (VFloat return_pbs); Text "%"] ]).

Definition _append_balances_status (lines : list Line) : Status (list Line) :=
  let (base, quote) := split_hb_trading_pair env (trading_pair cfg) in
  spot_base_balance <~ call (get_balance cfg env (spot_connector cfg) true) ;;
  spot_quote_balance <~ call (get_balance cfg env (spot_connector cfg) false) ;;
  perp_quote_balance <~ call (get_balance cfg env (perp_connector cfg) false) ;;
  sret (lines ++
        [ [Text "Balances:"];
          [Text "Spot Base Balance: "; Interpolated ".04f" (VFloat spot_base_balance);
           Text " "; Interpolated "" (VName base)];
          [Text "Spot Quote Balance: "; Interpolated ".04f" (VFloat spot_quote_balance);
           Text " "; Interpolated "" (VName quote)];
          [Text "Perp Balance: "; Interpolated "04f" (VFloat perp_quote_balance);
           Text " USDT"] ]).

Definition _append_bot_states (lines : list Line) : Status (list Line) :=
  s <~ call get_self ;;
  let lines :=
    lines ++
    [ [Text "Bot States:"];
      [Text "Current Timestamp: "; Interpolated "" (VTimestamp (current_timestamp env))];
      [Text "Strategy State: "; Interpolated "" (VState (strategy_state s))];
      [Text "Open Next Opportunity after: ";
       Interpolated "" (VTimestamp (next_arbitrage_opening_ts s))];
      [Text "Last In Flight State at: ";
       Interpolated "" (VTimestamp (in_flight_state_start_ts s))] ] in
  match last_submit_order_ts s with
  | None => attribute_error "last_submit_order_ts"
  | Some ts =>
      sret (lines ++
            [ [Text "Last Opened State at: "; Interpolated "" (VTimestamp ts)];
              [Text "Completed Ordered IDs: ";
               Interpolated "" (VIds (completed_order_ids s))] ])
  end.

(** [ready_to_trade] is an attribute of the base class and is taken as an
    argument. *)
Definition format_status (ready_to_trade : bool) : Status (list Line) :=
  if negb ready_to_trade then sret [ [Text "Market connectors are not ready."] ]
  else
    lines <~ _append_buy_spot_short_perp_status [] ;;
    let lines := lines ++ [ [Text ""]; [Text ""] ] in
    lines <~ _append_sell_spot_long_perp_status lines ;;
    let lines := lines ++ [ [Text ""]; [Text ""] ] in
    lines <~ _append_balances_status lines ;;
    let lines := lines ++ [ [Text ""]; [Text ""] ] in
    lines <~ _append_bot_states lines ;;
    let lines := lines ++ [ [Text ""]; [Text ""] ] in
    sret lines.

End StatusMethods.

(* ================================================================== *)
(** * Vocabulary of the further properties *)
(* ================================================================== *)

(** The lifecycle cycle, one step. *)
Definition cycle_next (st : StrategyState) : StrategyState :=
  match st with
  | Closed => Opening
  | Opening => Opened
  | Opened => Closing
  | Closing => Closed
  end.

(** The two submission timestamps agree: once [last_submit_order_ts]
    exists, an order has been submitted and [in_flight_state_start_ts]
    holds the same time. *)
Definition stamped (w : World) : Prop :=
  match last_submit_order_ts (self w) with
  | None => True
  | Some ts => in_flight_state_start_ts (self w) = ts /\ gateway w <> []
  end.

(** The closed-form limit price of a taker order: the observed price moved
    by the slippage buffer against the taker. *)
Definition buffered_price (cfg : Config) (is_buy : bool) (price : Q) : Q :=
  if is_buy
  then (price * (1 + inject_Z (slippage_buffer_bps cfg) / 10000))%Q
  else (price * (1 - inject_Z (slippage_buffer_bps cfg) / 10000))%Q.

(** Venues whose order books are empty: every price query returns NaN. *)
Definition empty_book (base quote : Q) : Connector :=
  mkConnector
    (fun _ _ _ => Ok DNaN)
    (fun asset => Ok (Dfinite (if String.eqb asset "LINA" then base else quote))).

Definition empty_book_market (now : Z) : Env :=
  Scenario.market now (empty_book 1000 1000) (empty_book 0 1000).

(** A spot venue that quotes but whose balance read raises. *)
Definition no_balance (buy sell : Q) : Connector :=
  mkConnector
    (fun _ is_buy _ => Ok (Dfinite (if is_buy then buy else sell)))
    (fun _ => Raise ConnectorError).

(* ================================================================== *)
(** * Sanity of the number model against known Python values *)
(* ================================================================== *)

(** [Decimal(1) / Decimal(3)] and [Decimal(2) / Decimal(3)] *)
Example ctx_round_thirds :
  ctx_round (1 # 3) = 0.3333333333333333333333333333%Q
  /\ ctx_round (2 # 3) = 0.6666666666666666666666666667%Q.
Proof. split; vm_compute; reflexivity. Qed.

(** Ties go to the even digit; a carry may add a digit. *)
Example ctx_round_ties :
  ctx_round 12345678901234567890123456785 = 12345678901234567890123456780%Q
  /\ ctx_round 12345678901234567890123456775 = 12345678901234567890123456780%Q
  /\ ctx_round 99999999999999999999999999995 = 100000000000000000000000000000%Q.
Proof. split; [|split]; vm_compute; reflexivity. Qed.

(** [Decimal(float(Decimal("0.1")))] *)
Example float_of_tenth :
  float_of_Decimal (Dfinite (1 # 10))
  = Ffinite (Qred 0.1000000000000000055511151231257827021181583404541015625).
Proof. vm_compute. reflexivity. Qed.

(** [Decimal(5 / 10000)], [Decimal(1 + 5 / 10000)], [Decimal(1 - 5 / 10000)] *)
Example slippage_constants :
  int_truediv 5 10000
  = Ok (Ffinite (Qred 0.0005000000000000000104083408558608425664715468883514404296875))
  /\ (forall r, int_truediv 5 10000 = Ok r ->
      Decimal_of_float (float_add (float_of_int 1) r)
      = Dfinite (Qred 1.0004999999999999449329379785922355949878692626953125)
      /\ Decimal_of_float (float_sub (float_of_int 1) r)
      = Dfinite (Qred 0.9995000000000000550670620214077644050121307373046875)).
Proof.
  split; [vm_compute; reflexivity|].
  intros r H. vm_compute in H. injection H as <-. split; vm_compute; reflexivity.
Qed.

(** Overflow and gradual underflow of [float(Decimal(...))]. *)
Example float_range :
  float_round (17976931348623158 * Qpow 10 292) = float_round (17976931348623157 * Qpow 10 292)
  /\ float_round (17976931348623159 * Qpow 10 292) = Finf false
  /\ float_round (24 * Qpow 10 (-325)) = Ffinite 0
  /\ float_round (25 * Qpow 10 (-325)) = float_round (49 * Qpow 10 (-325)).
Proof. split; [|split; [|split]]; vm_compute; reflexivity. Qed.

(* ================================================================== *)
(** * The lifecycle on four small runs *)
(* ================================================================== *)

(** From [Closed] with the precheck passed: a spread of 25 bps against a
    margin of 20 and ample balances open with two legs; with 50 USDT on
    the perpetual venue nothing is submitted and the state stays. *)
Example opening_needs_capital :
  strategy_state
    (self (snd (on_tick shipped (Scenario.buy_side_market 10)
                  (Scenario.strategy true Closed [] 0)))) = Opening
  /\ List.length
       (gateway (snd (on_tick shipped (Scenario.buy_side_market 10)
                        (Scenario.strategy true Closed [] 0)))) = 2%nat
  /\ on_tick shipped (Scenario.funded_quotes 10 1 1000 (10025 # 10000) 50)
       (Scenario.strategy true Closed [] 0)
     = (Ok tt, Scenario.strategy true Closed [] 0).
Proof. split; [|split]; vm_compute; reflexivity. Qed.

(** In [Opening] with one completion on record the tick changes nothing,
    also 90 seconds after the submission; with two on record it moves to
    [Opened], empties the record and stamps the time of the tick. *)
Example opening_waits_for_two :
  on_tick shipped (Scenario.buy_side_market 90) (Scenario.strategy true Opening ["spot-1"] 0)
  = (Ok tt, Scenario.strategy true Opening ["spot-1"] 0)
  /\ self (snd (on_tick shipped (Scenario.quiet_market 90)
                  (Scenario.strategy true Opening ["spot-1"; "perp-1"] 0)))
     = mkSpotPerpArb true None Opened [] 0 0 90 None (Some false) (Some false).
Proof. split; vm_compute; reflexivity. Qed.

(* ================================================================== *)
(** * Rounding errors *)
(* ================================================================== *)

Lemma Qpow_pos b e : 0 < b -> (0 < Qpow b e)%Q.
Proof.
  intros H. unfold Qpow. apply Qpower_0_lt.
  unfold Qlt. simpl. lia.
Qed.

Lemma round_half_even_near y :
  (y - (1 # 2) <= inject_Z (round_half_even y) <= y + (1 # 2))%Q.
Proof.
  unfold round_half_even.
  pose proof (Qfloor_le y) as Hlo. pose proof (Qlt_floor y) as Hhi.
  rewrite inject_Z_plus in Hhi. change (inject_Z 1) with 1%Q in Hhi.
  destruct (Qcompare_spec (y - inject_Z (Qfloor y)) (1 # 2)) as [E | L | G].
  - destruct (Z.even (Qfloor y));
      [|rewrite inject_Z_plus; change (inject_Z 1) with 1%Q]; lra.
  - lra.
  - rewrite inject_Z_plus. change (inject_Z 1) with 1%Q. lra.
Qed.

Lemma round_to_near b q x :
  0 < b ->
  (Qabs (round_to b q x - x) <= Qpow b q * (1 # 2))%Q.
Proof.
  intros Hb. unfold round_to. rewrite Qred_correct.
  pose proof (Qpow_pos b q Hb) as HP.
  set (P := Qpow b q) in *.
  pose proof (round_half_even_near (x / P)) as [Hlo Hhi].
  set (n := inject_Z (round_half_even (x / P))) in *.
  assert (Ex : (x == x / P * P)%Q) by (field; lra).
  apply Qabs_Qle_condition. split.
  - assert ((x / P - (1 # 2)) * P <= n * P)%Q by (apply Qmult_le_compat_r; lra).
    lra.
  - assert (n * P <= (x / P + (1 # 2)) * P)%Q by (apply Qmult_le_compat_r; lra).
    lra.
Qed.

(** ** Integer logarithm *)

Lemma ilog_fuel_spec b : 2 <= b -> forall fuel n,
  1 <= n -> n < 2 ^ Z.of_nat fuel ->
  0 <= ilog_fuel fuel b n
  /\ b ^ ilog_fuel fuel b n <= n < b ^ (ilog_fuel fuel b n + 1).
Proof.
  intros Hb. induction fuel as [| f IH]; intros n Hn Hf.
  - simpl in Hf. lia.
  - cbn [ilog_fuel]. destruct (Z.ltb_spec n b) as [L | G].
    + rewrite Z.pow_0_r, Z.pow_1_r. lia.
    + assert (Hm1 : 1 <= n / b) by (apply Z.div_le_lower_bound; lia).
      assert (Hm2 : n / b < 2 ^ Z.of_nat f).
      { apply Z.div_lt_upper_bound; [lia|].
        rewrite Nat2Z.inj_succ, Z.pow_succ_r in Hf by lia.
        assert (0 < 2 ^ Z.of_nat f) by (apply Z.pow_pos_nonneg; lia). nia. }
      destruct (IH (n / b) Hm1 Hm2) as (H0 & Hlo & Hhi).
      set (r := ilog_fuel f b (n / b)) in *.
      pose proof (Z.mul_div_le n b ltac:(lia)) as Hdiv.
      pose proof (Z.mod_pos_bound n b ltac:(lia)) as Hmod.
      pose proof (Z.div_mod n b ltac:(lia)) as Hdm.
      replace (1 + r + 1) with (Z.succ (r + 1)) by lia.
      replace (1 + r) with (Z.succ r) by lia.
      rewrite !Z.pow_succ_r by lia.
      split; [lia|]. split; nia.
Qed.

Lemma ilog_spec b n : 2 <= b -> 1 <= n ->
  0 <= ilog b n /\ b ^ ilog b n <= n < b ^ (ilog b n + 1).
Proof.
  intros Hb Hn. unfold ilog. apply ilog_fuel_spec; [exact Hb | exact Hn |].
  rewrite Nat2Z.inj_succ, Z2Nat.id by apply Z.log2_nonneg.
  apply Z.log2_spec. lia.
Qed.

(** ** The magnitude is a lower bound *)

Lemma Qpow_nonneg_exp b e : 0 <= e -> (Qpow b e == inject_Z (b ^ e))%Q.
Proof. intros H. unfold Qpow. symmetry. apply Zpower_Qpower. exact H. Qed.

Lemma Qabs_num_den x : (Qabs x == inject_Z (Z.abs (Qnum x)) / inject_Z (Zpos (Qden x)))%Q.
Proof.
  destruct x as [n d]. unfold Qabs. simpl Qnum. simpl Qden.
  rewrite (Qmake_Qdiv (Z.abs n) d). reflexivity.
Qed.

Lemma magnitude_le b x :
  2 <= b -> ~ (x == 0)%Q -> (Qpow b (magnitude b x) <= Qabs x)%Q.
Proof.
  intros Hb Hx. unfold magnitude.
  set (i := ilog b (Z.abs (Qnum x))). set (j := ilog b (Zpos (Qden x))).
  destruct (Qle_bool (Qpow b (i - j)) (Qabs x)) eqn:E.
  - apply Qle_bool_iff. exact E.
  - assert (Hn : 1 <= Z.abs (Qnum x)).
    { destruct x as [n d]. unfold Qeq in Hx. simpl in *. lia. }
    destruct (ilog_spec b _ Hb Hn) as (Hi0 & Hi & _). fold i in Hi0, Hi.
    destruct (ilog_spec b (Zpos (Qden x)) Hb ltac:(lia)) as (Hj0 & _ & Hj). fold j in Hj0, Hj.
    assert (Hbq : ~ (inject_Z b == 0)%Q).
    { unfold Qeq. simpl. lia. }
    replace (i - j - 1) with (i - (j + 1)) by lia.
    unfold Qpow. rewrite Qpower_minus by exact Hbq.
    fold (Qpow b i). fold (Qpow b (j + 1)).
    rewrite (Qpow_nonneg_exp b i Hi0), (Qpow_nonneg_exp b (j + 1)) by lia.
    rewrite Qabs_num_den.
    assert (Hd : (0 < inject_Z (Zpos (Qden x)))%Q) by (unfold Qlt; simpl; lia).
    assert (Hc : (0 < inject_Z (b ^ (j + 1)))%Q) by (unfold Qlt; simpl; lia).
    apply Qle_shift_div_l; [exact Hd|].
    unfold Qdiv. rewrite <- Qmult_assoc, (Qmult_comm (/ _)), Qmult_assoc.
    apply Qle_shift_div_r; [exact Hc|].
    rewrite <- !inject_Z_mult, <- Zle_Qle.
    assert (0 <= b ^ i) by (apply Z.pow_nonneg; lia).
    nia.
Qed.

(** ** Rounding errors *)

Lemma Qpow_add b e1 e2 : 0 < b -> (Qpow b (e1 + e2) == Qpow b e1 * Qpow b e2)%Q.
Proof.
  intros Hb. unfold Qpow. apply Qpower_plus. unfold Qeq. simpl. lia.
Qed.

Lemma ctx_round_near x :
  (Qabs (ctx_round x - x) <= Qabs x * ((1 # 2) * Qpow 10 (-27)))%Q.
Proof.
  unfold ctx_round. destruct (Qeq_bool x 0) eqn:E.
  - apply Qeq_bool_iff in E. rewrite E. vm_compute. discriminate.
  - assert (Hx : ~ (x == 0)%Q) by (apply Qeq_bool_neq; exact E).
    eapply Qle_trans; [apply round_to_near; lia|].
    unfold prec. replace (magnitude 10 x - (28 - 1)) with (magnitude 10 x + -27) by lia.
    rewrite Qpow_add by lia.
    pose proof (magnitude_le 10 x ltac:(lia) Hx) as Hm.
    pose proof (Qpow_pos 10 (-27) ltac:(lia)) as Hp.
    set (P := Qpow 10 (-27)) in *. set (G := Qpow 10 (magnitude 10 x)) in *.
    assert (G * P <= Qabs x * P)%Q by (apply Qmult_le_compat_r; lra).
    lra.
Qed.

Lemma binary_round_near x :
  ~ (x == 0)%Q ->
  (Qabs (round_to 2 (Z.max (magnitude 2 x - 52) (-1074)) x - x)
   <= Qabs x * Qpow 2 (-53) + Qpow 2 (-1075))%Q.
Proof.
  intros Hx.
  eapply Qle_trans; [apply round_to_near; lia|].
  pose proof (Qabs_nonneg x) as Hax.
  pose proof (Qpow_pos 2 (-53) ltac:(lia)) as Hp.
  pose proof (Qpow_pos 2 (-1075) ltac:(lia)) as Hw.
  destruct (Z.max_spec (magnitude 2 x - 52) (-1074)) as [[_ ->] | [_ ->]].
  - assert (E : (Qpow 2 (-1074) * (1 # 2) == Qpow 2 (-1075))%Q).
    { replace (-1074) with (-1075 + 1) by lia. rewrite Qpow_add by lia.
      change (Qpow 2 1) with 2%Q. field. }
    rewrite E.
    assert (0 <= Qabs x * Qpow 2 (-53))%Q by (apply Qmult_le_0_compat; lra).
    lra.
  - replace (magnitude 2 x - 52) with (magnitude 2 x + -52) by lia.
    rewrite Qpow_add by lia.
    assert (E : (Qpow 2 (-52) * (1 # 2) == Qpow 2 (-53))%Q).
    { replace (-52) with (-53 + 1) by lia. rewrite Qpow_add by lia.
      change (Qpow 2 1) with 2%Q. field. }
    pose proof (magnitude_le 2 x ltac:(lia) Hx) as Hm.
    set (G := Qpow 2 (magnitude 2 x)) in *.
    assert (G * Qpow 2 (-53) <= Qabs x * Qpow 2 (-53))%Q
      by (apply Qmult_le_compat_r; lra).
    rewrite <- Qmult_assoc, E. lra.
Qed.

(** What [float_round] returns: a finite value close to the argument, or
    an infinity of the argument's sign for a large argument. *)
Lemma float_round_cases x :
  (exists r, float_round x = Ffinite r
             /\ (Qabs (r - x) <= Qabs x * Qpow 2 (-53) + Qpow 2 (-1075))%Q)
  \/ (float_round x = Finf (Qneg_bool x) /\ (Qpow 2 1022 <= Qabs x)%Q).
Proof.
  unfold float_round. destruct (Qeq_bool x 0) eqn:E.
  - left. exists 0%Q. split; [reflexivity|].
    apply Qeq_bool_iff in E. rewrite E. vm_compute. discriminate.
  - assert (Hx : ~ (x == 0)%Q) by (apply Qeq_bool_neq; exact E).
    pose proof (binary_round_near x Hx) as Hr.
    set (r := round_to 2 (Z.max (magnitude 2 x - 52) (-1074)) x) in *.
    destruct (Qle_bool (Qpow 2 1024) (Qabs r)) eqn:O.
    + right. split; [reflexivity|].
      apply Qle_bool_iff in O.
      assert (Ht : (Qabs r <= Qabs (r - x) + Qabs x)%Q).
      { setoid_replace r with ((r - x) + x)%Q at 1 by ring. apply Qabs_triangle. }
      pose proof (Qabs_nonneg x) as Hax.
      assert (Hv : (Qpow 2 (-53) <= 1)%Q) by (vm_compute; discriminate).
      assert (Hw : (Qpow 2 (-1075) <= 1)%Q) by (vm_compute; discriminate).
      assert (H1024 : (Qpow 2 1024 == 4 * Qpow 2 1022)%Q).
      { replace 1024 with (2 + 1022) by lia. rewrite Qpow_add by lia.
        change (Qpow 2 2) with 4%Q. reflexivity. }
      assert (Hbig : (2 <= Qpow 2 1022)%Q) by (vm_compute; discriminate).
      assert (Qabs x * Qpow 2 (-53) <= Qabs x * 1)%Q
        by (rewrite !(Qmult_comm (Qabs x)); apply Qmult_le_compat_r; lra).
      lra.
    + left. exists r. split; [reflexivity | exact Hr].
Qed.

(** ** Numerals *)

Lemma ctx_round_bounds x :
  (Qabs (ctx_round x - x) <= Qabs x * (1 # 2000000000000000000000000000))%Q.
Proof.
  eapply Qle_trans; [apply ctx_round_near|].
  assert (E : ((1 # 2) * Qpow 10 (-27) == 1 # 2000000000000000000000000000)%Q)
    by (vm_compute; reflexivity).
  rewrite E. apply Qle_refl.
Qed.

Lemma float_round_bounds x :
  (exists r, float_round x = Ffinite r
             /\ (Qabs (r - x)
                 <= Qabs x * (1 # 9007199254740992)
                    + (1 # 1000000000000000000000000000000))%Q)
  \/ (float_round x = Finf (Qneg_bool x)
      /\ (inject_Z (10 ^ 305) <= Qabs x)%Q).
Proof.
  destruct (float_round_cases x) as [(r & Hr & Hb) | [Hi Hb]].
  - left. exists r. split; [exact Hr|].
    eapply Qle_trans; [exact Hb|].
    assert (E : (Qpow 2 (-53) == 1 # 9007199254740992)%Q) by (vm_compute; reflexivity).
    assert (W : (Qpow 2 (-1075) <= 1 # 1000000000000000000000000000000)%Q)
      by (vm_compute; discriminate).
    rewrite E. lra.
  - right. split; [exact Hi|].
    eapply Qle_trans; [|exact Hb]. vm_compute. discriminate.
Qed.

(* ================================================================== *)
(** * Reasoning about methods *)
(* ================================================================== *)

Lemma bind_ok {A B} (c : M A) (k : A -> M B) w a w' :
  c w = (Ok a, w') -> bind c k w = k a w'.
Proof. intros H. unfold bind. rewrite H. reflexivity. Qed.

Lemma bind_raise {A B} (c : M A) (k : A -> M B) w e w' :
  c w = (Raise e, w') -> bind c k w = (Raise e, w').
Proof. intros H. unfold bind. rewrite H. reflexivity. Qed.

Lemma get_self_run w : get_self w = (Ok (self w), w).
Proof. reflexivity. Qed.

Lemma frame_ret {A} (a : A) : frame (ret a).
Proof. intros w. reflexivity. Qed.

Lemma frame_lift {A} (r : result A) : frame (lift r).
Proof. intros w. reflexivity. Qed.

Lemma frame_bind {A B} (c : M A) (k : A -> M B) :
  frame c -> (forall a, frame (k a)) -> frame (bind c k).
Proof.
  intros Hc Hk w. unfold bind.
  specialize (Hc w). destruct (c w) as [[a | e] w1]; simpl in Hc; subst w1.
  - apply Hk.
  - reflexivity.
Qed.

Lemma frame_assert b : frame (assert b).
Proof. destruct b; [apply frame_ret | apply frame_lift]. Qed.

Lemma frame_connector env name : frame (connector env name).
Proof.
  unfold connector. destruct (connectors env name); [apply frame_ret | apply frame_lift].
Qed.

Create HintDb frames.
#[local] Hint Resolve frame_ret frame_lift frame_assert frame_connector : frames.

Ltac frames :=
  repeat first
    [ apply frame_bind; [ | intros ? ]
    | solve [ auto with frames ]
    | match goal with
      | |- frame (if ?b then _ else _) => destruct b
      | |- frame (let (_, _) := ?p in _) => destruct p
      end ].

Lemma frame_limit_taker_price cfg env name is_buy :
  frame (limit_taker_price cfg env name is_buy).
Proof. unfold limit_taker_price. frames. Qed.
#[local] Hint Resolve frame_limit_taker_price : frames.

Lemma frame_limit_taker_price_with_slippage cfg env name is_buy :
  frame (limit_taker_price_with_slippage cfg env name is_buy).
Proof. unfold limit_taker_price_with_slippage. frames. Qed.
#[local] Hint Resolve frame_limit_taker_price_with_slippage : frames.

Lemma frame_get_balance cfg env name is_base :
  frame (get_balance cfg env name is_base).
Proof. unfold get_balance. frames. Qed.
#[local] Hint Resolve frame_get_balance : frames.

Lemma frame_should_buy_spot_short_perp cfg env :
  frame (should_buy_spot_short_perp cfg env).
Proof. unfold should_buy_spot_short_perp. frames. Qed.

Lemma frame_can_buy_spot_short_perp cfg env :
  frame (can_buy_spot_short_perp cfg env).
Proof. unfold can_buy_spot_short_perp. frames. Qed.

Lemma frame_should_sell_spot_long_perp cfg env :
  frame (should_sell_spot_long_perp cfg env).
Proof. unfold should_sell_spot_long_perp. frames. Qed.

Lemma frame_can_sell_spot_long_perp cfg env :
  frame (can_sell_spot_long_perp cfg env).
Proof. unfold can_sell_spot_long_perp. frames. Qed.

(** A framed method, run: its outcome and the untouched world. *)
Lemma frame_run {A} (c : M A) w : frame c -> c w = (fst (c w), w).
Proof. intros H. specialize (H w). destruct (c w); simpl in *; subst; reflexivity. Qed.

(** ** The in-flight update *)

Lemma update_in_flight_state_static env w :
  is_static (strategy_state (self w)) = true ->
  update_in_flight_state env w = (Ok tt, w).
Proof.
  intros H. unfold update_in_flight_state, bind, get_self.
  destruct (strategy_state (self w)); simpl in *; try discriminate; reflexivity.
Qed.

Lemma update_in_flight_state_pending env w :
  List.length (completed_order_ids (self w)) <> 2%nat ->
  update_in_flight_state env w = (Ok tt, w).
Proof.
  intros H. unfold update_in_flight_state, bind, get_self.
  destruct (Nat.eqb_spec (List.length (completed_order_ids (self w))) 2) as [E | _];
    [contradiction|].
  rewrite !andb_false_r. reflexivity.
Qed.

Lemma update_in_flight_state_done env w :
  is_in_flight (strategy_state (self w)) = true ->
  List.length (completed_order_ids (self w)) = 2%nat ->
  update_in_flight_state env w =
    (Ok tt,
     mkWorld
       (match strategy_state (self w) with
        | Opening =>
            set_opened_state_start_ts (current_timestamp env)
              (set_completed_order_ids [] (set_strategy_state Opened (self w)))
        | _ =>
            set_completed_order_ids []
              (set_next_arbitrage_opening_ts
                 (current_timestamp env + next_arbitrage_opening_ts (self w))
                 (set_strategy_state Closed (self w)))
        end)
       (gateway w)).
Proof.
  intros Hs Hl. unfold update_in_flight_state, bind, get_self.
  rewrite Hl. destruct (strategy_state (self w)); simpl in *; try discriminate; reflexivity.
Qed.

(** ** Submitting a pair *)

Lemma attribute_some {A} name (a : A) w : attribute name (Some a) w = (Ok a, w).
Proof. reflexivity. Qed.

Lemma attribute_none {A} name w :
  @attribute A name None w = (Raise (PyNum.AttributeError name), w).
Proof. reflexivity. Qed.

(** BuySpotShortPerp: a price read fails and nothing went out; or both
    prices are there and, with [is_perp_in_long] assigned, the pair goes
    out and the submission is stamped; or the attribute is missing, and
    the spot buy has gone out alone when its read raises. *)
Lemma buy_spot_short_perp_cases cfg env w :
  (exists e, buy_spot_short_perp cfg env w = (Raise e, w))
  \/ (exists p1 p2,
        limit_taker_price_with_slippage cfg env (spot_connector cfg) true w = (Ok p1, w)
        /\ limit_taker_price_with_slippage cfg env (perp_connector cfg) false w = (Ok p2, w)
        /\ match is_perp_in_long (self w) with
           | Some long =>
               buy_spot_short_perp cfg env w
               = (Ok tt,
                  mkWorld (set_last_submit_order_ts (Some (current_timestamp env)) (self w))
                          (gateway w ++ buy_spot_short_perp_legs cfg long p1 p2))
           | None =>
               buy_spot_short_perp cfg env w
               = (Raise (PyNum.AttributeError "is_perp_in_long"), stranded (spot_buy_leg cfg p1) w)
           end).
Proof.
  unfold buy_spot_short_perp.
  pose proof (frame_run (limit_taker_price_with_slippage cfg env (spot_connector cfg) true) w
                (frame_limit_taker_price_with_slippage _ _ _ _)) as H1.
  pose proof (frame_run (limit_taker_price_with_slippage cfg env (perp_connector cfg) false) w
                (frame_limit_taker_price_with_slippage _ _ _ _)) as H2.
  destruct (fst (limit_taker_price_with_slippage cfg env (spot_connector cfg) true w))
    as [p1 | e1].
  2:{ left. exists e1. rewrite (bind_raise _ _ _ _ _ H1). reflexivity. }
  rewrite (bind_ok _ _ _ _ _ H1).
  destruct (fst (limit_taker_price_with_slippage cfg env (perp_connector cfg) false w))
    as [p2 | e2].
  2:{ left. exists e2. rewrite (bind_raise _ _ _ _ _ H2). reflexivity. }
  rewrite (bind_ok _ _ _ _ _ H2).
  right. exists p1, p2. split; [assumption|]. split; [assumption|].
  unfold bind, submit, get_self, modify_self, buy_spot_short_perp_legs, stranded,
    spot_buy_leg.
  simpl. destruct (is_perp_in_long (self w)) as [long |]; simpl.
  - rewrite <- app_assoc. reflexivity.
  - reflexivity.
Qed.

(** SellSpotLongPerp reads [is_perp_in_short] before it submits: without
    the attribute nothing goes out. *)
Lemma sell_spot_long_perp_cases cfg env w :
  (exists e, sell_spot_long_perp cfg env w = (Raise e, w))
  \/ (exists p1 p2 short,
        limit_taker_price_with_slippage cfg env (perp_connector cfg) true w = (Ok p1, w)
        /\ limit_taker_price_with_slippage cfg env (spot_connector cfg) false w = (Ok p2, w)
        /\ is_perp_in_short (self w) = Some short
        /\ sell_spot_long_perp cfg env w
           = (Ok tt,
              mkWorld (set_last_submit_order_ts (Some (current_timestamp env)) (self w))
                      (gateway w ++ sell_spot_long_perp_legs cfg short p1 p2))).
Proof.
  unfold sell_spot_long_perp.
  pose proof (frame_run (limit_taker_price_with_slippage cfg env (perp_connector cfg) true) w
                (frame_limit_taker_price_with_slippage _ _ _ _)) as H1.
  pose proof (frame_run (limit_taker_price_with_slippage cfg env (spot_connector cfg) false) w
                (frame_limit_taker_price_with_slippage _ _ _ _)) as H2.
  destruct (fst (limit_taker_price_with_slippage cfg env (perp_connector cfg) true w))
    as [p1 | e1].
  2:{ left. exists e1. rewrite (bind_raise _ _ _ _ _ H1). reflexivity. }
  rewrite (bind_ok _ _ _ _ _ H1).
  destruct (fst (limit_taker_price_with_slippage cfg env (spot_connector cfg) false w))
    as [p2 | e2].
  2:{ left. exists e2. rewrite (bind_raise _ _ _ _ _ H2). reflexivity. }
  rewrite (bind_ok _ _ _ _ _ H2).
  rewrite (bind_ok _ _ _ _ _ (get_self_run w)).
  destruct (is_perp_in_short (self w)) as [short |] eqn:Hshort.
  - right. exists p1, p2, short. split; [assumption|]. split; [assumption|].
    split; [reflexivity|].
    unfold bind, submit, get_self, modify_self, sell_spot_long_perp_legs. simpl.
    rewrite <- app_assoc. reflexivity.
  - left. exists (PyNum.AttributeError "is_perp_in_short"). reflexivity.
Qed.

Lemma sell_spot_long_perp_unset cfg env w p1 p2 :
  limit_taker_price_with_slippage cfg env (perp_connector cfg) true w = (Ok p1, w) ->
  limit_taker_price_with_slippage cfg env (spot_connector cfg) false w = (Ok p2, w) ->
  is_perp_in_short (self w) = None ->
  sell_spot_long_perp cfg env w = (Raise (PyNum.AttributeError "is_perp_in_short"), w).
Proof.
  intros H1 H2 Hs. unfold sell_spot_long_perp.
  rewrite (bind_ok _ _ _ _ _ H1), (bind_ok _ _ _ _ _ H2).
  rewrite (bind_ok _ _ _ _ _ (get_self_run w)). rewrite Hs. reflexivity.
Qed.

Lemma update_static_state_after_submit env s g :
  update_static_state env
    (mkWorld (set_last_submit_order_ts (Some (current_timestamp env)) s) g)
  = (Ok tt,
     mkWorld
       (set_in_flight_state_start_ts (current_timestamp env)
          (set_strategy_state (in_flight_successor (strategy_state s))
             (set_last_submit_order_ts (Some (current_timestamp env)) s)))
       g).
Proof.
  unfold update_static_state, bind, get_self, modify_self. simpl.
  destruct (strategy_state s) eqn:E; simpl; try reflexivity;
    destruct s; simpl in *; subst; reflexivity.
Qed.

(** ** The trading block *)

Lemma trade_buy cfg env w p1 p2 :
  triggers (should_buy_spot_short_perp cfg env) (can_buy_spot_short_perp cfg env) w ->
  limit_taker_price_with_slippage cfg env (spot_connector cfg) true w = (Ok p1, w) ->
  limit_taker_price_with_slippage cfg env (perp_connector cfg) false w = (Ok p2, w) ->
  match is_perp_in_long (self w) with
  | Some long =>
      find_opportunity_and_trade cfg env w
      = (Ok tt, submitted env (buy_spot_short_perp_legs cfg long p1 p2) w)
  | None =>
      find_opportunity_and_trade cfg env w
      = (Raise (PyNum.AttributeError "is_perp_in_long"), stranded (spot_buy_leg cfg p1) w)
  end.
Proof.
  intros [Hs Hc] H1 H2.
  destruct (buy_spot_short_perp_cases cfg env w) as [[e He] | (q1 & q2 & G1 & G2 & Hb)].
  - unfold buy_spot_short_perp in He.
    rewrite (bind_ok _ _ _ _ _ H1), (bind_ok _ _ _ _ _ H2) in He.
    unfold bind, submit in He. simpl in He.
    destruct (is_perp_in_long (self w)); simpl in He; [discriminate He|].
    exfalso. inversion He as [[He1 He2]].
    apply (f_equal (@gateway)) in He2. simpl in He2.
    apply (f_equal (@List.length Order)) in He2.
    rewrite !length_app in He2. simpl in He2. lia.
  - rewrite H1 in G1. rewrite H2 in G2. injection G1 as <-. injection G2 as <-.
    unfold find_opportunity_and_trade.
    rewrite (bind_ok _ _ _ _ _ Hs). rewrite (bind_ok _ _ _ _ _ Hc).
    destruct (is_perp_in_long (self w)) as [long |].
    + rewrite (bind_ok _ _ _ _ _ Hb). apply update_static_state_after_submit.
    + rewrite (bind_raise _ _ _ _ _ Hb). reflexivity.
Qed.

Lemma trade_skip_buy cfg env w :
  passes (should_buy_spot_short_perp cfg env) (can_buy_spot_short_perp cfg env) w ->
  find_opportunity_and_trade cfg env w
  = (should_sell <- should_sell_spot_long_perp cfg env ;;
     go_sell <- (if should_sell then can_sell_spot_long_perp cfg env else ret false) ;;
     if go_sell then sell_spot_long_perp cfg env ;; update_static_state env
     else ret tt) w.
Proof.
  intros [Hs | [Hs Hc]]; unfold find_opportunity_and_trade;
    rewrite (bind_ok _ _ _ _ _ Hs).
  - reflexivity.
  - rewrite (bind_ok _ _ _ _ _ Hc). reflexivity.
Qed.

Lemma trade_sell cfg env w p1 p2 :
  passes (should_buy_spot_short_perp cfg env) (can_buy_spot_short_perp cfg env) w ->
  triggers (should_sell_spot_long_perp cfg env) (can_sell_spot_long_perp cfg env) w ->
  limit_taker_price_with_slippage cfg env (perp_connector cfg) true w = (Ok p1, w) ->
  limit_taker_price_with_slippage cfg env (spot_connector cfg) false w = (Ok p2, w) ->
  match is_perp_in_short (self w) with
  | Some short =>
      find_opportunity_and_trade cfg env w
      = (Ok tt, submitted env (sell_spot_long_perp_legs cfg short p1 p2) w)
  | None =>
      find_opportunity_and_trade cfg env w
      = (Raise (PyNum.AttributeError "is_perp_in_short"), w)
  end.
Proof.
  intros Hp [Hs Hc] H1 H2. rewrite (trade_skip_buy _ _ _ Hp).
  rewrite (bind_ok _ _ _ _ _ Hs). rewrite (bind_ok _ _ _ _ _ Hc).
  destruct (is_perp_in_short (self w)) as [short |] eqn:Hshort.
  - destruct (sell_spot_long_perp_cases cfg env w)
      as [[e He] | (q1 & q2 & short' & G1 & G2 & Hs' & Hb)].
    + unfold sell_spot_long_perp in He.
      rewrite (bind_ok _ _ _ _ _ H1), (bind_ok _ _ _ _ _ H2) in He.
      rewrite (bind_ok _ _ _ _ _ (get_self_run w)) in He. rewrite Hshort in He.
      discriminate He.
    + rewrite H1 in G1. rewrite H2 in G2. injection G1 as <-. injection G2 as <-.
      rewrite Hshort in Hs'. injection Hs' as <-.
      rewrite (bind_ok _ _ _ _ _ Hb). apply update_static_state_after_submit.
  - rewrite (bind_raise _ _ _ _ _ (sell_spot_long_perp_unset cfg env w p1 p2 H1 H2 Hshort)).
    reflexivity.
Qed.

Lemma trade_none cfg env w :
  passes (should_buy_spot_short_perp cfg env) (can_buy_spot_short_perp cfg env) w ->
  passes (should_sell_spot_long_perp cfg env) (can_sell_spot_long_perp cfg env) w ->
  find_opportunity_and_trade cfg env w = (Ok tt, w).
Proof.
  intros Hp [Hs | [Hs Hc]]; rewrite (trade_skip_buy _ _ _ Hp);
    rewrite (bind_ok _ _ _ _ _ Hs).
  - reflexivity.
  - rewrite (bind_ok _ _ _ _ _ Hc). reflexivity.
Qed.

(** A direction's detector and capital check, run at [w]: it triggers, it
    is passed over, or an exception ends the evaluation. *)
Lemma direction_cases (should can : M bool) w :
  frame should -> frame can ->
  triggers should can w
  \/ passes should can w
  \/ (exists e, should w = (Raise e, w))
  \/ (should w = (Ok true, w) /\ exists e, can w = (Raise e, w)).
Proof.
  intros Fs Fc. unfold triggers, passes.
  rewrite (frame_run should w Fs), (frame_run can w Fc).
  destruct (fst (should w)) as [[|] | e]; destruct (fst (can w)) as [[|] | e'];
    eauto 8.
Qed.

(** Every outcome of the trading block: the world is as before; or the
    first direction triggered and, with [is_perp_in_long] assigned, its
    pair went out; or it triggered without that attribute, its spot buy
    went out alone and the block raised; or the first was passed over and
    the second triggered, with [is_perp_in_short] assigned, and its pair
    went out. *)
Lemma trade_cases cfg env w :
  snd (find_opportunity_and_trade cfg env w) = w
  \/ (triggers (should_buy_spot_short_perp cfg env) (can_buy_spot_short_perp cfg env) w
      /\ exists long p1 p2,
          is_perp_in_long (self w) = Some long
          /\ find_opportunity_and_trade cfg env w
             = (Ok tt, submitted env (buy_spot_short_perp_legs cfg long p1 p2) w))
  \/ (triggers (should_buy_spot_short_perp cfg env) (can_buy_spot_short_perp cfg env) w
      /\ is_perp_in_long (self w) = None
      /\ exists p1,
          find_opportunity_and_trade cfg env w
          = (Raise (PyNum.AttributeError "is_perp_in_long"), stranded (spot_buy_leg cfg p1) w))
  \/ (passes (should_buy_spot_short_perp cfg env) (can_buy_spot_short_perp cfg env) w
      /\ triggers (should_sell_spot_long_perp cfg env) (can_sell_spot_long_perp cfg env) w
      /\ exists short p1 p2,
          is_perp_in_short (self w) = Some short
          /\ find_opportunity_and_trade cfg env w
             = (Ok tt, submitted env (sell_spot_long_perp_legs cfg short p1 p2) w)).
Proof.
  destruct (direction_cases _ _ w (frame_should_buy_spot_short_perp cfg env)
              (frame_can_buy_spot_short_perp cfg env))
    as [Tb | [Pb | [[e He] | [Hs [e He]]]]].
  - destruct (buy_spot_short_perp_cases cfg env w) as [[e He] | (p1 & p2 & G1 & G2 & _)].
    + left. destruct Tb as [Hs Hc]. unfold find_opportunity_and_trade.
      rewrite (bind_ok _ _ _ _ _ Hs), (bind_ok _ _ _ _ _ Hc), (bind_raise _ _ _ _ _ He).
      reflexivity.
    + pose proof (trade_buy cfg env w p1 p2 Tb G1 G2) as Hb.
      destruct (is_perp_in_long (self w)) as [long |].
      * right; left. split; [assumption|]. exists long, p1, p2. auto.
      * right; right; left. split; [assumption|]. split; [reflexivity|]. exists p1. exact Hb.
  - destruct (direction_cases _ _ w (frame_should_sell_spot_long_perp cfg env)
                (frame_can_sell_spot_long_perp cfg env))
      as [Ts | [Ps | [[e He] | [Hs [e He]]]]].
    + destruct (sell_spot_long_perp_cases cfg env w)
        as [[e He] | (p1 & p2 & short & G1 & G2 & Hshort & _)].
      * left. destruct Ts as [Hs Hc]. rewrite (trade_skip_buy _ _ _ Pb).
        rewrite (bind_ok _ _ _ _ _ Hs), (bind_ok _ _ _ _ _ Hc), (bind_raise _ _ _ _ _ He).
        reflexivity.
      * pose proof (trade_sell cfg env w p1 p2 Pb Ts G1 G2) as Hb. rewrite Hshort in Hb.
        right; right; right. split; [assumption|]. split; [assumption|].
        exists short, p1, p2. auto.
    + left. rewrite (trade_none _ _ _ Pb Ps). reflexivity.
    + left. rewrite (trade_skip_buy _ _ _ Pb), (bind_raise _ _ _ _ _ He). reflexivity.
    + left. rewrite (trade_skip_buy _ _ _ Pb), (bind_ok _ _ _ _ _ Hs),
        (bind_raise _ _ _ _ _ He). reflexivity.
  - left. unfold find_opportunity_and_trade. rewrite (bind_raise _ _ _ _ _ He). reflexivity.
  - left. unfold find_opportunity_and_trade.
    rewrite (bind_ok _ _ _ _ _ Hs), (bind_raise _ _ _ _ _ He). reflexivity.
Qed.

(** ** The tick *)

Lemma on_tick_precheck_fails cfg env w :
  is_position_mode_ready (self w) = false -> on_tick cfg env w = (Ok tt, w).
Proof.
  intros H. unfold on_tick, bind, get_self. rewrite H. reflexivity.
Qed.

Lemma on_tick_evaluating cfg env w :
  evaluating env w -> on_tick cfg env w = find_opportunity_and_trade cfg env w.
Proof.
  intros [Hg Hst]. unfold on_tick.
  rewrite (bind_ok _ _ _ _ _ (get_self_run w)). cbv beta. rewrite Hg. cbn [negb].
  assert (Hstatic : is_static (strategy_state (self w)) = true).
  { destruct Hst as [-> | [-> _]]; reflexivity. }
  rewrite (bind_ok _ _ _ _ _ (update_in_flight_state_static env w Hstatic)).
  rewrite (bind_ok _ _ _ _ _ (get_self_run w)). cbv beta.
  destruct Hst as [E | [E Ht]]; rewrite E; simpl.
  - reflexivity.
  - destruct (Z.ltb_spec (current_timestamp env) (next_arbitrage_opening_ts (self w)));
      [lia | reflexivity].
Qed.

(* ================================================================== *)
(** * The lifecycle state machine on a tick *)
(* ================================================================== *)




(* ================================================================== *)
(** * The precheck of [on_tick] *)
(* ================================================================== *)

Lemma handle_keeps_precheck cfg ev w :
  is_position_mode_ready (self w) = false ->
  is_position_mode_ready (self (handle cfg ev w)) = false
  /\ gateway (handle cfg ev w) = gateway w
  /\ strategy_state (self (handle cfg ev w)) = strategy_state (self w).
Proof.
  intros H. destruct ev as [env | id | id | |]; simpl.
  - rewrite (on_tick_precheck_fails cfg env w H). auto.
  - auto.
  - auto.
  - auto.
  - auto.
Qed.

Lemma run_keeps_precheck cfg evs : forall w,
  is_position_mode_ready (self w) = false ->
  is_position_mode_ready (self (run cfg evs w)) = false
  /\ gateway (run cfg evs w) = gateway w
  /\ strategy_state (self (run cfg evs w)) = strategy_state (self w).
Proof.
  induction evs as [| ev evs IH]; intros w H; simpl.
  - auto.
  - destruct (handle_keeps_precheck cfg ev w H) as (Hg & Ho & Hs).
    destruct (IH (handle cfg ev w) Hg) as (Hg' & Ho' & Hs').
    rewrite Ho', Hs', Ho, Hs. auto.
Qed.

Lemma run_app cfg evs1 evs2 w :
  run cfg (evs1 ++ evs2) w = run cfg evs2 (run cfg evs1 w).
Proof. unfold run. apply fold_left_app. Qed.

(** C6.  Whatever is delivered to a freshly built strategy (ticks under any
    market, completions, position-mode successes and failures), the flag
    [is_position_mode_ready] stays [False], no order reaches the gateway,
    the state stays [Closed], and a further tick returns at once under
    every market, also one whose oracle reads raise.  A position-mode
    success only creates the other attribute, [_position_mode_ready]. *)
Theorem precheck_never_passes cfg long short evs :
  is_position_mode_ready (self (run cfg evs (init long short))) = false
  /\ gateway (run cfg evs (init long short)) = []
  /\ strategy_state (self (run cfg evs (init long short))) = Closed
  /\ (forall env,
        on_tick cfg env (run cfg evs (init long short))
        = (Ok tt, run cfg evs (init long short)))
  /\ _position_mode_ready
       (self (run cfg (evs ++ [PositionModeChangeSucceeded]) (init long short)))
     = Some true
  /\ is_position_mode_ready
       (self (run cfg (evs ++ [PositionModeChangeSucceeded]) (init long short)))
     = false.
Proof.
  destruct (run_keeps_precheck cfg evs (init long short) eq_refl) as (Hg & Ho & Hs).
  split; [exact Hg|]. split; [exact Ho|]. split; [exact Hs|].
  split; [intros env; apply on_tick_precheck_fails; exact Hg|].
  rewrite run_app. simpl. split; [reflexivity | exact Hg].
Qed.

(* ================================================================== *)
(** * Balances *)
(* ================================================================== *)

(** C10.  Asking the perpetual connector for the base asset fails the
    assertion.  When [is_base] is [False] for the perpetual connector, the
    connector exists and its balance read returns, [get_balance] returns
    that available balance of the selected asset (base if [is_base], else
    quote), converted to a float, and leaves the strategy as it was. *)
Theorem get_balance_spec cfg env w :
  get_balance cfg env (perp_connector cfg) true w = (Raise AssertionError, w)
  /\ (forall name is_base c balance,
        (name = perp_connector cfg -> is_base = false) ->
        connectors env name = Some c ->
        get_available_balance c
          (if is_base then fst (split_hb_trading_pair env (trading_pair cfg))
           else snd (split_hb_trading_pair env (trading_pair cfg)))
        = Ok balance ->
        get_balance cfg env name is_base w = (Ok (float_of_Decimal balance), w)).
Proof.
  split.
  - unfold get_balance. rewrite String.eqb_refl. reflexivity.
  - intros name is_base c balance Hpre Hc Hb. unfold get_balance.
    assert (Hassert :
      (if String.eqb name (perp_connector cfg) then assert (negb is_base) else ret tt) w
      = (Ok tt, w)).
    { destruct (String.eqb_spec name (perp_connector cfg)) as [E | _].
      - rewrite (Hpre E). reflexivity.
      - reflexivity. }
    rewrite (bind_ok _ _ _ _ _ Hassert).
    destruct (split_hb_trading_pair env (trading_pair cfg)) as [base quote].
    simpl in Hb. unfold connector. rewrite Hc.
    unfold bind, ret, lift. rewrite Hb. reflexivity.
Qed.

(** C10, an instance: the spot venue's base balance, 1000 LINA. *)
Lemma get_balance_spec_witness :
  get_balance shipped (Scenario.buy_side_market 0) "kucoin" true
    (Scenario.strategy true Closed [] 0)
  = (Ok (Ffinite 1000), Scenario.strategy true Closed [] 0).
Proof.
  refine (proj2 (get_balance_spec shipped (Scenario.buy_side_market 0) _)
            "kucoin" true (Scenario.quoting 1 (9 # 10) 1000 1000) (Dfinite 1000) _ _ _).
  - intros H. discriminate H.
  - reflexivity.
  - reflexivity.
Defined.

(* ================================================================== *)
(** * Completions and the reopening delay *)
(* ================================================================== *)

(** What a tick's in-flight update does once two completions are on
    record in state [Closing]: the state becomes [Closed], the record is
    emptied, and the reopening timestamp becomes the current time plus
    the previous reopening timestamp. *)
Lemma update_in_flight_state_closing env w :
  strategy_state (self w) = Closing ->
  List.length (completed_order_ids (self w)) = 2%nat ->
  strategy_state (self (snd (update_in_flight_state env w))) = Closed
  /\ completed_order_ids (self (snd (update_in_flight_state env w))) = []
  /\ next_arbitrage_opening_ts (self (snd (update_in_flight_state env w)))
     = current_timestamp env + next_arbitrage_opening_ts (self w).
Proof.
  intros Hs Hl. rewrite update_in_flight_state_done; [| rewrite Hs; reflexivity | exact Hl].
  rewrite Hs. simpl. auto.
Qed.

(** C2, the code at the failing input.  With the shipped configuration
    (delay 5) and the precheck passed, a first cycle whose close is observed at
    T = 1000 leaves the reopening timestamp at 1000, not 1005, and a paying,
    feasible BuySpotShortPerp at T + 3 = 1003 opens.  The close of the
    second cycle, observed at T = 2000, leaves it at 2000 + 1000 = 3000, not
    2005, and the same opportunity at T + 6 = 2006 does not open. *)
Theorem reopen_timestamp_compounds :
  let w0 := Scenario.strategy true Closed [] 0 in
  let w1 := run shipped Scenario.first_cycle w0 in
  let w2 := run shipped Scenario.second_cycle w1 in
  next_arbitrage_opening_delay shipped = 5
  /\ strategy_state (self w1) = Closed
  /\ next_arbitrage_opening_ts (self w1) = 1000
  /\ strategy_state (self (snd (on_tick shipped (Scenario.buy_side_market 1003) w1)))
     = Opening
  /\ strategy_state (self w2) = Closed
  /\ next_arbitrage_opening_ts (self w2) = 3000
  /\ should_buy_spot_short_perp shipped (Scenario.buy_side_market 2006) w2 = (Ok true, w2)
  /\ can_buy_spot_short_perp shipped (Scenario.buy_side_market 2006) w2 = (Ok true, w2)
  /\ on_tick shipped (Scenario.buy_side_market 2006) w2 = (Ok tt, w2).
Proof.
  cbv zeta.
  split; [|split; [|split; [|split; [|split; [|split; [|split; [|split]]]]]]];
    vm_compute; reflexivity.
Qed.

Lemma notify_appends is_buy id w :
  notify is_buy id w
  = (Ok tt,
     mkWorld (set_completed_order_ids (completed_order_ids (self w) ++ [id]) (self w))
             (gateway w)).
Proof. destruct is_buy; reflexivity. Qed.

(** C3 (as the code has it).  A completion notification appends its
    order identifier to the record whether or not it is there already: two
    notifications with one identifier add two entries.  From an empty
    record in an in-flight state they alone reach the threshold, and the
    next in-flight update moves [Opening] to [Opened] and [Closing] to
    [Closed]. *)
Theorem completions_count_per_notification b1 b2 id w :
  completed_order_ids (self (snd (notify b2 id (snd (notify b1 id w)))))
  = completed_order_ids (self w) ++ [id; id]
  /\ (is_in_flight (strategy_state (self w)) = true ->
      completed_order_ids (self w) = [] ->
      forall env,
        strategy_state
          (self (snd (update_in_flight_state env
                        (snd (notify b2 id (snd (notify b1 id w)))))))
        = static_successor (strategy_state (self w))).
Proof.
  rewrite !notify_appends. simpl. rewrite <- app_assoc. simpl.
  split; [reflexivity|].
  intros Hs He env. rewrite update_in_flight_state_done; simpl.
  - destruct (strategy_state (self w)); simpl in *; try discriminate; reflexivity.
  - exact Hs.
  - rewrite He. reflexivity.
Qed.

(** C3, an instance: in [Opening], one leg notified twice. *)
Lemma completions_count_per_notification_witness :
  strategy_state
    (self (snd (update_in_flight_state (Scenario.quiet_market 20)
                  (snd (notify true "spot-1"
                          (snd (notify true "spot-1"
                                  (Scenario.strategy true Opening [] 0))))))))
  = Opened.
Proof.
  exact (proj2 (completions_count_per_notification true true "spot-1"
                  (Scenario.strategy true Opening [] 0))
           eq_refl eq_refl (Scenario.quiet_market 20)).
Defined.

(** C3, refuted as stated.  State [Opening] with nothing on record; the
    completion of the single order "spot-1" is notified twice and no other
    leg completes.  The record holds two entries and the next tick moves
    the state to [Opened]: the repeated notification counted twice. *)
Lemma repeated_notification_counts_twice :
  completed_order_ids
    (self (run shipped [BuyOrderCompleted "spot-1"; BuyOrderCompleted "spot-1"]
             (Scenario.strategy true Opening [] 0)))
  = ["spot-1"; "spot-1"]
  /\ strategy_state
       (self (run shipped
                [BuyOrderCompleted "spot-1"; BuyOrderCompleted "spot-1";
                 Tick (Scenario.quiet_market 20)]
                (Scenario.strategy true Opening [] 0)))
     = Opened.
Proof. split; vm_compute; reflexivity. Qed.

(* ================================================================== *)
(** * The completion record under a gateway that notifies once *)
(* ================================================================== *)

Lemma update_in_flight_state_shape env w :
  update_in_flight_state env w = (Ok tt, snd (update_in_flight_state env w))
  /\ is_position_mode_ready (self (snd (update_in_flight_state env w)))
     = is_position_mode_ready (self w)
  /\ gateway (snd (update_in_flight_state env w)) = gateway w
  /\ (snd (update_in_flight_state env w) = w
      \/ (is_in_flight (strategy_state (self w)) = true
          /\ List.length (completed_order_ids (self w)) = 2%nat
          /\ strategy_state (self (snd (update_in_flight_state env w)))
             = static_successor (strategy_state (self w))
          /\ completed_order_ids (self (snd (update_in_flight_state env w))) = [])).
Proof.
  destruct (Nat.eq_dec (List.length (completed_order_ids (self w))) 2) as [E | N].
  - destruct (is_in_flight (strategy_state (self w))) eqn:F.
    + rewrite (update_in_flight_state_done env w F E). simpl.
      destruct (strategy_state (self w)); simpl in *; try discriminate; auto 8.
    + rewrite update_in_flight_state_static; [simpl; auto|].
      unfold is_in_flight in F. destruct (is_static (strategy_state (self w)));
        [reflexivity | discriminate].
  - rewrite (update_in_flight_state_pending env w N). simpl. auto.
Qed.

(** No method creates or assigns the two position attributes. *)
Lemma update_in_flight_state_keeps_attributes env w :
  is_perp_in_long (self (snd (update_in_flight_state env w))) = is_perp_in_long (self w)
  /\ is_perp_in_short (self (snd (update_in_flight_state env w)))
     = is_perp_in_short (self w).
Proof.
  destruct (Nat.eq_dec (List.length (completed_order_ids (self w))) 2) as [E | N].
  - destruct (is_in_flight (strategy_state (self w))) eqn:F.
    + rewrite (update_in_flight_state_done env w F E). simpl.
      destruct (strategy_state (self w)); simpl; auto.
    + rewrite update_in_flight_state_static; [auto|].
      unfold is_in_flight in F. destruct (is_static (strategy_state (self w)));
        [reflexivity | discriminate].
  - rewrite (update_in_flight_state_pending env w N). auto.
Qed.

Lemma submitted_shape env legs w :
  strategy_state (self (submitted env legs w)) = in_flight_successor (strategy_state (self w))
  /\ completed_order_ids (self (submitted env legs w)) = completed_order_ids (self w)
  /\ gateway (submitted env legs w) = gateway w ++ legs.
Proof. unfold submitted. simpl. auto. Qed.

(** The trading block: nothing changes, or one pair of legs goes out
    (which takes the position attribute of its direction), or the spot buy
    goes out alone (for want of [is_perp_in_long]). *)
Lemma trade_shape cfg env w :
  snd (find_opportunity_and_trade cfg env w) = w
  \/ ((is_perp_in_long (self w) <> None \/ is_perp_in_short (self w) <> None)
      /\ exists legs,
          List.length legs = 2%nat
          /\ find_opportunity_and_trade cfg env w = (Ok tt, submitted env legs w))
  \/ (is_perp_in_long (self w) = None
      /\ exists p,
          find_opportunity_and_trade cfg env w
          = (Raise (PyNum.AttributeError "is_perp_in_long"),
             stranded (spot_buy_leg cfg p) w)).
Proof.
  destruct (trade_cases cfg env w)
    as [Same | [[_ (long & p1 & p2 & Hl & Hb)] | [[_ (Hl & p1 & Hb)]
               | [_ [_ (short & p1 & p2 & Hs & Hb)]]]]].
  - left. exact Same.
  - right; left. split; [left; rewrite Hl; discriminate|].
    exists (buy_spot_short_perp_legs cfg long p1 p2). split; [reflexivity | exact Hb].
  - right; right. split; [exact Hl|]. exists p1. exact Hb.
  - right; left. split; [right; rewrite Hs; discriminate|].
    exists (sell_spot_long_perp_legs cfg short p1 p2). split; [reflexivity | exact Hb].
Qed.

(** Every tick: nothing happens, or the in-flight update fires, or (from a
    static state, possibly just reached) one pair of legs goes out, or,
    for want of [is_perp_in_long], the spot buy goes out alone. *)
Lemma on_tick_shape cfg env w :
  snd (on_tick cfg env w) = w
  \/ snd (on_tick cfg env w) = snd (update_in_flight_state env w)
  \/ (is_static (strategy_state (self (snd (update_in_flight_state env w)))) = true
      /\ (is_perp_in_long (self w) <> None \/ is_perp_in_short (self w) <> None)
      /\ exists legs,
          List.length legs = 2%nat
          /\ on_tick cfg env w
             = (Ok tt, submitted env legs (snd (update_in_flight_state env w))))
  \/ (is_static (strategy_state (self (snd (update_in_flight_state env w)))) = true
      /\ is_perp_in_long (self w) = None
      /\ exists p,
          on_tick cfg env w
          = (Raise (PyNum.AttributeError "is_perp_in_long"),
             stranded (spot_buy_leg cfg p) (snd (update_in_flight_state env w)))).
Proof.
  destruct (is_position_mode_ready (self w)) eqn:G.
  2:{ left. rewrite on_tick_precheck_fails; [reflexivity | exact G]. }
  destruct (update_in_flight_state_shape env w) as (Hrun & Hgate & _ & _).
  destruct (update_in_flight_state_keeps_attributes env w) as [Hlong Hshort].
  set (w1 := snd (update_in_flight_state env w)) in *.
  assert (Htrade :
            is_static (strategy_state (self w1)) = true ->
            snd (find_opportunity_and_trade cfg env w1) = w1
            \/ (is_static (strategy_state (self w1)) = true
                /\ (is_perp_in_long (self w) <> None \/ is_perp_in_short (self w) <> None)
                /\ exists legs,
                    List.length legs = 2%nat
                    /\ find_opportunity_and_trade cfg env w1
                       = (Ok tt, submitted env legs w1))
            \/ (is_static (strategy_state (self w1)) = true
                /\ is_perp_in_long (self w) = None
                /\ exists p,
                    find_opportunity_and_trade cfg env w1
                    = (Raise (PyNum.AttributeError "is_perp_in_long"),
                       stranded (spot_buy_leg cfg p) w1))).
  { intros Hst. rewrite <- Hlong, <- Hshort.
    destruct (trade_shape cfg env w1) as [Same | [Pair | Lone]]; auto. }
  unfold on_tick.
  rewrite (bind_ok _ _ _ _ _ (get_self_run w)). cbv beta. rewrite G. cbn [negb].
  rewrite (bind_ok _ _ _ _ _ Hrun).
  rewrite (bind_ok _ _ _ _ _ (get_self_run w1)). cbv beta.
  destruct (strategy_state (self w1)) eqn:S1; simpl.
  - (* Closed *)
    destruct (current_timestamp env <? next_arbitrage_opening_ts (self w1)).
    + right; left; reflexivity.
    + right. apply Htrade. reflexivity.
  - right; left; reflexivity.
  - (* Opened *)
    right. apply Htrade. reflexivity.
  - right; left; reflexivity.
Qed.

(** A tick leaves the two position attributes as they are. *)
Lemma on_tick_keeps_attributes cfg env w :
  is_perp_in_long (self (snd (on_tick cfg env w))) = is_perp_in_long (self w)
  /\ is_perp_in_short (self (snd (on_tick cfg env w))) = is_perp_in_short (self w).
Proof.
  destruct (update_in_flight_state_keeps_attributes env w) as [Hlong Hshort].
  destruct (on_tick_shape cfg env w)
    as [Same | [Upd | [(_ & _ & legs & _ & Hsub) | (_ & _ & p & Hsub)]]].
  - rewrite Same. auto.
  - rewrite Upd. auto.
  - rewrite Hsub. simpl. auto.
  - rewrite Hsub. simpl. auto.
Qed.

Lemma remove_one_length id l :
  In id l -> S (List.length (remove_one id l)) = List.length l.
Proof.
  induction l as [| x r IH]; simpl; intros H.
  - contradiction.
  - destruct (String.eqb_spec id x) as [E | N].
    + reflexivity.
    + destruct H as [H | H]; [congruence|]. simpl. rewrite (IH H). reflexivity.
Qed.

Lemma length_zero_nil {A} (l : list A) : List.length l = 0%nat -> l = [].
Proof. destruct l; [reflexivity | discriminate]. Qed.

(** One step of the system leaves [is_perp_in_long] as it is. *)
Lemma sys_step_keeps_attribute cfg s s' :
  sys_step cfg s s' ->
  is_perp_in_long (self (world s')) = is_perp_in_long (self (world s)).
Proof.
  intros Hstep. destruct Hstep as [env ids s Hlen | id s Hin | id s Hin | id s Hin | s | s];
    cbn [world]; try reflexivity.
  apply on_tick_keeps_attributes.
Qed.

Lemma sys_step_accounted cfg s s' :
  is_perp_in_long (self (world s)) <> None ->
  legs_accounted s -> sys_step cfg s s' -> legs_accounted s'.
Proof.
  intros Hlong Inv Hstep.
  destruct Hstep as [env ids s Hlen | id s Hin | id s Hin | id s Hin | s | s].
  - (* a tick *)
    destruct (update_in_flight_state_shape env (world s)) as (_ & _ & Hgw & Hupd).
    assert (Inv1 : legs_accounted
                     (mkSystem (snd (update_in_flight_state env (world s))) (outstanding s))).
    { destruct Hupd as [-> | (Hf & Hl & Hst & Hc)].
      - destruct s; exact Inv.
      - unfold legs_accounted in *. simpl. rewrite Hst, Hc.
        destruct (strategy_state (self (world s))); simpl in *; try discriminate;
          (split; [reflexivity | apply length_zero_nil; lia]). }
    destruct (on_tick_shape cfg env (world s))
      as [Same | [Upd | [(Hstatic & _ & legs & Hl & Hsub) | (_ & Hnone & _)]]].
    + rewrite Same in *. assert (ids = []) by (apply length_zero_nil; lia). subst ids.
      rewrite app_nil_r. destruct s; exact Inv.
    + rewrite Upd in *. rewrite Hgw in Hlen.
      assert (ids = []) by (apply length_zero_nil; lia). subst ids.
      rewrite app_nil_r. exact Inv1.
    + rewrite Hsub in *. cbn [snd] in *.
      destruct (submitted_shape env legs (snd (update_in_flight_state env (world s))))
        as (Hst & Hc & Hg).
      rewrite Hg, length_app, Hgw, Hl in Hlen.
      unfold legs_accounted in *. cbn [world outstanding] in *. rewrite Hst, Hc.
      destruct (strategy_state (self (snd (update_in_flight_state env (world s)))));
        simpl in *; try discriminate;
        destruct Inv1 as [-> ->]; simpl; lia.
    + contradiction.
  - (* a buy leg completes *)
    pose proof (remove_one_length id _ Hin) as Hr.
    unfold legs_accounted in *. simpl.
    destruct (strategy_state (self (world s)));
      try (destruct Inv as [_ Ho]; rewrite Ho in Hin; contradiction);
      rewrite length_app; simpl; lia.
  - (* a sell leg completes *)
    pose proof (remove_one_length id _ Hin) as Hr.
    unfold legs_accounted in *. simpl.
    destruct (strategy_state (self (world s)));
      try (destruct Inv as [_ Ho]; rewrite Ho in Hin; contradiction);
      rewrite length_app; simpl; lia.
  - (* a leg fails *)
    pose proof (remove_one_length id _ Hin) as Hr.
    unfold legs_accounted in *. simpl.
    destruct (strategy_state (self (world s)));
      try (destruct Inv as [_ Ho]; rewrite Ho in Hin; contradiction);
      lia.
  - exact Inv.
  - destruct s; exact Inv.
Qed.

Lemma sys_reach_accounted cfg s0 s :
  idle s0 ->
  is_perp_in_long (self (world s0)) <> None ->
  sys_reach cfg s0 s ->
  legs_accounted s.
Proof.
  intros (Hs & Hc & Ho) Hlong Hreach.
  assert (Inv : legs_accounted s
                /\ is_perp_in_long (self (world s)) = is_perp_in_long (self (world s0))).
  { induction Hreach as [| s s' _ [IH IHl] Hstep].
    - unfold legs_accounted. rewrite Hs. auto.
    - split.
      + apply (sys_step_accounted cfg s s'); [rewrite IHl; exact Hlong | exact IH | exact Hstep].
      + rewrite (sys_step_keeps_attribute cfg s s' Hstep). exact IHl. }
  exact (proj1 Inv).
Qed.




(* ================================================================== *)
(** * Failing oracle reads *)
(* ================================================================== *)





(* ================================================================== *)
(** * The opportunity detector *)
(* ================================================================== *)

Lemma float_of_int_10000 : float_of_int 10000 = Ffinite 10000.
Proof. vm_compute. reflexivity. Qed.

Lemma Qeq_bool_pos_false x : (0 < x)%Q -> Qeq_bool x 0 = false.
Proof.
  intros H. destruct (Qeq_bool x 0) eqn:E; [|reflexivity].
  apply Qeq_bool_iff in E. rewrite E in H. exfalso. revert H. apply Qlt_irrefl.
Qed.

(** With finite prices and a positive price under the division, a
    detector returns the comparison of its computed spread with the
    margin. *)
Lemma detector_returns (margin : Z) sell buy w :
  (0 < buy)%Q ->
  (diff <- lift (Decimal_sub (Dfinite sell) (Dfinite buy)) ;;
   quot <- lift (Decimal_div diff (Dfinite buy)) ;;
   ret (float_ge_int (float_mul (float_of_Decimal quot) (float_of_int 10000)) margin)) w
  = (Ok (float_ge_int (detector_spread_bps sell buy) margin), w).
Proof.
  intros Hpos. unfold bind, lift, ret, detector_spread_bps. simpl Decimal_sub. cbv iota beta.
  simpl Decimal_div. rewrite (Qeq_bool_pos_false _ Hpos). reflexivity.
Qed.

(** When nothing rounds, the computed spread is the closed form and the
    comparison with a margin is the exact one. *)
Lemma exact_spread_decision sell buy (margin : Z) :
  exact_spread sell buy ->
  (float_ge_int (detector_spread_bps sell buy) margin = true
   <-> (inject_Z margin <= closed_form_spread_bps sell buy)%Q).
Proof.
  intros (H1 & H2 & f & g & Hf & Ef & Hg & Eg).
  unfold detector_spread_bps, float_of_Decimal. rewrite Hf, float_of_int_10000.
  unfold float_mul. rewrite Hg. unfold float_ge_int.
  assert (E : (g == closed_form_spread_bps sell buy)%Q).
  { unfold closed_form_spread_bps. rewrite Eg, Ef, H2, H1. reflexivity. }
  rewrite Qle_bool_iff. rewrite E. reflexivity.
Qed.

Ltac split_abs t :=
  let H := fresh "Hsign" in
  destruct (Qlt_le_dec t 0) as [H | H];
  [ rewrite (Qabs_neg t) in * by (apply Qlt_le_weak; exact H)
  | rewrite (Qabs_pos t) in * by exact H ].

Lemma Qneg_bool_false x : (0 <= x)%Q -> Qneg_bool x = false.
Proof.
  intros H. unfold Qneg_bool. apply (proj2 (Qle_bool_iff 0 x)) in H. rewrite H. reflexivity.
Qed.

Lemma Qneg_bool_true x : (x < 0)%Q -> Qneg_bool x = true.
Proof.
  intros H. unfold Qneg_bool. destruct (Qle_bool 0 x) eqn:E; [|reflexivity].
  apply Qle_bool_iff in E. lra.
Qed.

Lemma Qle_bool_false x y : (y < x)%Q -> Qle_bool x y = false.
Proof.
  intros H. destruct (Qle_bool x y) eqn:E; [|reflexivity].
  apply Qle_bool_iff in E. lra.
Qed.

Lemma float_mul_10000 a :
  float_mul a (Ffinite 10000)
  = match a with
    | Ffinite f => float_round (f * 10000)
    | Finf s => Finf s
    | Fnan => Fnan
    end.
Proof.
  destruct a as [f | s |]; simpl; [reflexivity | | reflexivity].
  change (Qeq_bool 10000 0) with false. change (Qneg_bool 10000) with false.
  rewrite xorb_false_r. reflexivity.
Qed.

Lemma quotient_bounds y d buy :
  (0 < buy)%Q ->
  (Qabs (d - y) <= Qabs y * (1 # 2000000000000000000000000000))%Q ->
  (Qabs (d / buy - y / buy) <= Qabs (y / buy) * (1 # 2000000000000000000000000000))%Q.
Proof.
  intros Hb H.
  assert (Hi : (0 < / buy)%Q) by (apply Qinv_lt_0_compat; exact Hb).
  assert (E1 : (d / buy - y / buy == (d - y) * / buy)%Q) by (field; lra).
  rewrite E1. unfold Qdiv. rewrite !Qabs_Qmult. rewrite (Qabs_pos (/ buy)) by lra.
  assert (Qabs (d - y) * / buy
          <= Qabs y * (1 # 2000000000000000000000000000) * / buy)%Q
    by (apply Qmult_le_compat_r; lra).
  lra.
Qed.

(** Outside the band around the margin the computed spread decides as
    the closed form does. *)
Lemma detector_tolerance sell buy (m : Z) :
  (0 < buy)%Q -> 1 <= m <= 10 ^ 300 ->
  ((inject_Z m * (1 + tolerance) <= closed_form_spread_bps sell buy)%Q ->
   float_ge_int (detector_spread_bps sell buy) m = true)
  /\ ((closed_form_spread_bps sell buy <= inject_Z m * (1 - tolerance))%Q ->
      float_ge_int (detector_spread_bps sell buy) m = false).
Proof.
  intros Hb [Hm1 Hm2].
  unfold detector_spread_bps, closed_form_spread_bps, tolerance.
  set (y := (sell - buy)%Q). set (d := ctx_round y).
  pose proof (quotient_bounds y d buy Hb (ctx_round_bounds y)) as Hz.
  set (z := (d / buy)%Q) in *. set (X := (y / buy)%Q) in *.
  pose proof (ctx_round_bounds z) as Hc. set (c := ctx_round z) in *.
  assert (HM1 : (1 <= inject_Z m)%Q) by (rewrite (Zle_Qle 1 m) in Hm1; exact Hm1).
  assert (HM2 : (inject_Z m <= inject_Z (10 ^ 300))%Q) by (rewrite <- Zle_Qle; exact Hm2).
  assert (HT : (inject_Z (10 ^ 305) == 100000 * inject_Z (10 ^ 300))%Q)
    by (vm_compute; reflexivity).
  assert (HT1 : (1 <= inject_Z (10 ^ 300))%Q) by (vm_compute; discriminate).
  set (M := inject_Z m) in *. set (T := inject_Z (10 ^ 300)) in *.
  set (B := inject_Z (10 ^ 305)) in *.
  apply Qabs_Qle_condition in Hz. apply Qabs_Qle_condition in Hc.
  cbn [float_of_Decimal]. rewrite float_of_int_10000, float_mul_10000.
  destruct (float_round_bounds c) as [(f & Hf & Hfb) | [Hf HfB]]; rewrite Hf.
  - apply Qabs_Qle_condition in Hfb.
    destruct (float_round_bounds (f * 10000)) as [(g & Hg & Hgb) | [Hg HgB]]; rewrite Hg;
      unfold float_ge_int.
    + apply Qabs_Qle_condition in Hgb.
      split; intros HS.
      * apply Qle_bool_iff. fold M.
        split_abs X; split_abs z; split_abs c; split_abs (f * 10000)%Q; lra.
      * apply Qle_bool_false. fold M.
        split_abs X; split_abs z; split_abs c; split_abs (f * 10000)%Q; lra.
    + fold B in HgB. split; intros HS.
      * rewrite Qneg_bool_false; [reflexivity|].
        split_abs X; split_abs z; split_abs c; split_abs (f * 10000)%Q; lra.
      * rewrite Qneg_bool_true; [reflexivity|].
        split_abs X; split_abs z; split_abs c; split_abs (f * 10000)%Q; lra.
  - fold B in HfB. unfold float_ge_int. split; intros HS.
    + rewrite Qneg_bool_false; [reflexivity|].
      split_abs X; split_abs z; split_abs c; lra.
    + rewrite Qneg_bool_true; [reflexivity|].
      split_abs X; split_abs z; split_abs c; lra.
Qed.


(** C7 (as the code has it).  With finite oracle prices, positive where
    they are divided by, each detector evaluates the closed form in
    Decimal arithmetic (28 significant digits, every operation rounded
    half-even), converts the quotient to a binary64 float and multiplies
    by 10000 in floats; it reports the direction profitable exactly when
    that computed value is at least the direction's margin.  When none of
    these operations rounds, the computed value is the closed form and the
    report is the exact comparison.  For a margin between 1 and 10^300 the
    report is [True] whenever the closed-form spread is at least the
    margin times [1 + 2^-50] and [False] whenever it is at most the margin
    times [1 - 2^-50]. *)
Theorem detector_spec cfg env w spot_buy spot_sell perp_buy perp_sell :
  limit_taker_price cfg env (spot_connector cfg) true w = (Ok (Dfinite spot_buy), w) ->
  limit_taker_price cfg env (spot_connector cfg) false w = (Ok (Dfinite spot_sell), w) ->
  limit_taker_price cfg env (perp_connector cfg) true w = (Ok (Dfinite perp_buy), w) ->
  limit_taker_price cfg env (perp_connector cfg) false w = (Ok (Dfinite perp_sell), w) ->
  (0 < spot_buy)%Q -> (0 < perp_buy)%Q ->
  (should_buy_spot_short_perp cfg env w
   = (Ok (float_ge_int (detector_spread_bps perp_sell spot_buy)
            (buy_spot_short_perp_profit_margin_bps cfg)), w)
   /\ (exact_spread perp_sell spot_buy ->
       (should_buy_spot_short_perp cfg env w = (Ok true, w)
        <-> (inject_Z (buy_spot_short_perp_profit_margin_bps cfg)
             <= closed_form_spread_bps perp_sell spot_buy)%Q))
   /\ (1 <= buy_spot_short_perp_profit_margin_bps cfg <= 10 ^ 300 ->
       ((inject_Z (buy_spot_short_perp_profit_margin_bps cfg) * (1 + tolerance)
         <= closed_form_spread_bps perp_sell spot_buy)%Q ->
        should_buy_spot_short_perp cfg env w = (Ok true, w))
       /\ ((closed_form_spread_bps perp_sell spot_buy
            <= inject_Z (buy_spot_short_perp_profit_margin_bps cfg) * (1 - tolerance))%Q ->
           should_buy_spot_short_perp cfg env w = (Ok false, w))))
  /\
  (should_sell_spot_long_perp cfg env w
   = (Ok (float_ge_int (detector_spread_bps spot_sell perp_buy)
            (sell_spot_long_perp_profit_margin_bps cfg)), w)
   /\ (exact_spread spot_sell perp_buy ->
       (should_sell_spot_long_perp cfg env w = (Ok true, w)
        <-> (inject_Z (sell_spot_long_perp_profit_margin_bps cfg)
             <= closed_form_spread_bps spot_sell perp_buy)%Q))
   /\ (1 <= sell_spot_long_perp_profit_margin_bps cfg <= 10 ^ 300 ->
       ((inject_Z (sell_spot_long_perp_profit_margin_bps cfg) * (1 + tolerance)
         <= closed_form_spread_bps spot_sell perp_buy)%Q ->
        should_sell_spot_long_perp cfg env w = (Ok true, w))
       /\ ((closed_form_spread_bps spot_sell perp_buy
            <= inject_Z (sell_spot_long_perp_profit_margin_bps cfg) * (1 - tolerance))%Q ->
           should_sell_spot_long_perp cfg env w = (Ok false, w)))).
Proof.
  intros Hsb Hss Hpb Hps Psb Ppb.
  assert (Hbuy : should_buy_spot_short_perp cfg env w
                 = (Ok (float_ge_int (detector_spread_bps perp_sell spot_buy)
                          (buy_spot_short_perp_profit_margin_bps cfg)), w)).
  { unfold should_buy_spot_short_perp.
    rewrite (bind_ok _ _ _ _ _ Hsb), (bind_ok _ _ _ _ _ Hps).
    apply detector_returns. exact Psb. }
  assert (Hsell : should_sell_spot_long_perp cfg env w
                  = (Ok (float_ge_int (detector_spread_bps spot_sell perp_buy)
                           (sell_spot_long_perp_profit_margin_bps cfg)), w)).
  { unfold should_sell_spot_long_perp.
    rewrite (bind_ok _ _ _ _ _ Hss), (bind_ok _ _ _ _ _ Hpb).
    apply detector_returns. exact Ppb. }
  split.
  - split; [exact Hbuy|]. split.
    + intros Hex. rewrite Hbuy. rewrite <- (exact_spread_decision _ _ _ Hex).
      split; [intros H; injection H as H; exact H | intros ->; reflexivity].
    + intros Hm. rewrite Hbuy.
      destruct (detector_tolerance perp_sell spot_buy _ Psb Hm) as [Hyes Hno].
      split; intros HS; [rewrite (Hyes HS) | rewrite (Hno HS)]; reflexivity.
  - split; [exact Hsell|]. split.
    + intros Hex. rewrite Hsell. rewrite <- (exact_spread_decision _ _ _ Hex).
      split; [intros H; injection H as H; exact H | intros ->; reflexivity].
    + intros Hm. rewrite Hsell.
      destruct (detector_tolerance spot_sell perp_buy _ Ppb Hm) as [Hyes Hno].
      split; intros HS; [rewrite (Hyes HS) | rewrite (Hno HS)]; reflexivity.
Qed.

(** C7, an instance (Scenario A): the spot asks 1.0000 and the perpetual
    bids 1.0025, a closed-form spread of 25 bps against the shipped margin
    of 20 bps. *)
Lemma detector_spec_witness :
  (inject_Z 20 * (1 + tolerance) <= closed_form_spread_bps (10025 # 10000) 1)%Q
  /\ should_buy_spot_short_perp shipped (Scenario.buy_side_market 10)
       (Scenario.strategy true Closed [] 0)
     = (Ok true, Scenario.strategy true Closed [] 0).
Proof.
  assert (HS : (inject_Z 20 * (1 + tolerance)
                <= closed_form_spread_bps (10025 # 10000) 1)%Q)
    by (vm_compute; discriminate).
  split; [exact HS|].
  refine (proj1 (proj2 (proj2 (proj1
            (detector_spec shipped (Scenario.buy_side_market 10)
               (Scenario.strategy true Closed [] 0) 1 (9 # 10) (11 # 10) (10025 # 10000)
               eq_refl eq_refl eq_refl eq_refl eq_refl eq_refl))) _) HS).
  split; vm_compute; discriminate.
Defined.

(** C7, refuted as stated.  With a margin of 24 bps, a spot ask of 1 and a
    perpetual bid of 1.0024 the closed form gives exactly 24 bps, which is
    at least the margin, and the detector reports not profitable: its
    float product is 23.999999999999996.  With the shipped margin of 20 bps
    and a perpetual bid of 1.00199999999999999999 the closed form is below
    20 bps and the detector reports profitable: its float product is 20. *)
Lemma rounded_spread_misjudges_margin :
  (closed_form_spread_bps 1.0024 1 == 24)%Q
  /\ should_buy_spot_short_perp (Scenario.with_margins 24 20)
       (Scenario.open_quotes 10 1 1.0024) (Scenario.strategy true Closed [] 0)
     = (Ok false, Scenario.strategy true Closed [] 0)
  /\ (closed_form_spread_bps 1.00199999999999999999 1 < 20)%Q
  /\ should_buy_spot_short_perp shipped
       (Scenario.open_quotes 10 1 1.00199999999999999999)
       (Scenario.strategy true Closed [] 0)
     = (Ok true, Scenario.strategy true Closed [] 0).
Proof. split; [|split; [|split]]; vm_compute; reflexivity. Qed.

(* ================================================================== *)
(** * The capital check of BuySpotShortPerp *)
(* ================================================================== *)

Lemma float_of_int_1 : float_of_int 1 = Ffinite 1.
Proof. vm_compute. reflexivity. Qed.

Lemma slippage_factor_bounds bps ratio k :
  0 <= bps ->
  int_truediv bps 10000 = Ok ratio ->
  float_add (float_of_int 1) ratio = Ffinite k ->
  ((1 + inject_Z bps / 10000) * (1 - (3 # 9007199254740992)) <= k
   <= (1 + inject_Z bps / 10000) * (1 + (3 # 9007199254740992)))%Q.
Proof.
  intros Hbps Hr Hk. unfold int_truediv in Hr. simpl (10000 =? 0) in Hr. cbv iota in Hr.
  change (inject_Z 10000) with 10000%Q in Hr.
  set (r := (inject_Z bps / 10000)%Q) in *.
  assert (Hr0 : (0 <= r)%Q).
  { unfold r. apply Qle_shift_div_l; [reflexivity|]. rewrite Qmult_0_l.
    rewrite (Zle_Qle 0 bps) in Hbps. exact Hbps. }
  destruct (float_round_bounds r) as [(x & Hx & Hxb) | [Hx _]]; rewrite Hx in Hr;
    [| discriminate Hr].
  injection Hr as <-. rewrite float_of_int_1 in Hk. cbn [float_add] in Hk.
  destruct (float_round_bounds (1 + x)) as [(k' & Hk' & Hkb) | [Hk' _]]; rewrite Hk' in Hk;
    [| discriminate Hk].
  injection Hk as <-.
  apply Qabs_Qle_condition in Hxb. apply Qabs_Qle_condition in Hkb.
  rewrite (Qabs_pos r) in Hxb by exact Hr0.
  split_abs (1 + x)%Q; lra.
Qed.

Lemma ctx_round_pos_bounds x :
  (0 <= x)%Q ->
  (x * (1 - (1 # 2000000000000000000000000000)) <= ctx_round x
   <= x * (1 + (1 # 2000000000000000000000000000)))%Q.
Proof.
  intros Hx. pose proof (ctx_round_bounds x) as H.
  apply Qabs_Qle_condition in H. rewrite (Qabs_pos x) in H by exact Hx. lra.
Qed.

Lemma spot_requirement_tolerance price size bps ratio k balance :
  (0 < price)%Q -> (0 < size)%Q -> 0 <= bps ->
  int_truediv bps 10000 = Ok ratio ->
  float_add (float_of_int 1) ratio = Ffinite k ->
  ((price * (1 + inject_Z bps / 10000) * size * (1 + tolerance) <= balance)%Q ->
   Qle_bool (ctx_round (ctx_round (price * k) * size)) balance = true)
  /\ ((balance <= price * (1 + inject_Z bps / 10000) * size * (1 - tolerance))%Q ->
      Qle_bool (ctx_round (ctx_round (price * k) * size)) balance = false).
Proof.
  intros Hp Hn Hbps Hr Hk. unfold tolerance.
  pose proof (slippage_factor_bounds bps ratio k Hbps Hr Hk) as [Hk1 Hk2].
  set (r := (inject_Z bps / 10000)%Q) in *.
  assert (Hr0 : (0 <= r)%Q).
  { unfold r. apply Qle_shift_div_l; [reflexivity|]. rewrite Qmult_0_l.
    rewrite (Zle_Qle 0 bps) in Hbps. exact Hbps. }
  assert (Hkpos : (0 < k)%Q) by lra.
  assert (Ht : (0 < price * size)%Q) by (apply Qmult_lt_0_compat; assumption).
  assert (Ha : (0 <= price * k)%Q) by (apply Qmult_le_0_compat; lra).
  pose proof (ctx_round_pos_bounds (price * k) Ha) as [Ha1 Ha2].
  set (a' := ctx_round (price * k)) in *.
  assert (Hb1 : (price * k * (1 - (1 # 2000000000000000000000000000)) * size
                 <= a' * size)%Q) by (apply Qmult_le_compat_r; lra).
  assert (Hb2 : (a' * size
                 <= price * k * (1 + (1 # 2000000000000000000000000000)) * size)%Q)
    by (apply Qmult_le_compat_r; lra).
  assert (Hq1 : ((1 + r) * (1 - (3 # 9007199254740992)) * (price * size)
                 <= k * (price * size))%Q) by (apply Qmult_le_compat_r; lra).
  assert (Hq2 : (k * (price * size)
                 <= (1 + r) * (1 + (3 # 9007199254740992)) * (price * size))%Q)
    by (apply Qmult_le_compat_r; lra).
  assert (Hb0 : (0 <= a' * size)%Q).
  { apply Qmult_le_0_compat; [|lra].
    assert (0 <= price * k * (1 - (1 # 2000000000000000000000000000)))%Q
      by (apply Qmult_le_0_compat; lra).
    lra. }
  pose proof (ctx_round_pos_bounds (a' * size) Hb0) as [Hc1 Hc2].
  set (b := (a' * size)%Q) in *. set (b' := ctx_round b) in *.
  set (q := (k * (price * size))%Q) in *.
  set (R := (price * (1 + r) * size)%Q).
  assert (ER : (R == (1 + r) * (price * size))%Q) by (unfold R; ring).
  assert (Eq1 : (price * k * (1 - (1 # 2000000000000000000000000000)) * size
                 == q * (1 - (1 # 2000000000000000000000000000)))%Q) by (unfold q; ring).
  assert (Eq2 : (price * k * (1 + (1 # 2000000000000000000000000000)) * size
                 == q * (1 + (1 # 2000000000000000000000000000)))%Q) by (unfold q; ring).
  assert (Eq3 : ((1 + r) * (1 - (3 # 9007199254740992)) * (price * size)
                 == R * (1 - (3 # 9007199254740992)))%Q) by (unfold R; ring).
  assert (Eq4 : ((1 + r) * (1 + (3 # 9007199254740992)) * (price * size)
                 == R * (1 + (3 # 9007199254740992)))%Q) by (unfold R; ring).
  rewrite Eq1 in Hb1. rewrite Eq2 in Hb2. rewrite Eq3 in Hq1. rewrite Eq4 in Hq2.
  assert (HR : (0 < R)%Q).
  { rewrite ER. apply Qmult_lt_0_compat; lra. }
  split; intros HS.
  - apply Qle_bool_iff. lra.
  - apply Qle_bool_false. lra.
Qed.

Lemma perp_requirement_tolerance price size balance :
  (0 < price)%Q -> (0 < size)%Q ->
  ((price * size * (1 + tolerance) <= balance)%Q ->
   Qle_bool (ctx_round (price * size)) balance = true)
  /\ ((balance <= price * size * (1 - tolerance))%Q ->
      Qle_bool (ctx_round (price * size)) balance = false).
Proof.
  intros Hp Hn. unfold tolerance.
  assert (Ht : (0 < price * size)%Q) by (apply Qmult_lt_0_compat; assumption).
  pose proof (ctx_round_pos_bounds (price * size) ltac:(lra)) as [H1 H2].
  set (t := (price * size)%Q) in *.
  split; intros HS.
  - apply Qle_bool_iff. lra.
  - apply Qle_bool_false. lra.
Qed.

(** C8 (as the code has it).  With finite reads, the check returns [True]
    exactly when the spot quote balance, as the float that [get_balance]
    returns, is at least the spot buy price times [k] times the order
    size, and the perpetual quote balance, again as a float, is at least
    the perpetual sell price, without buffer, times the order size.  Here
    [k] is the float [1 + slippage_buffer_bps / 10000] and every product
    is a Decimal product, rounded to 28 significant digits.  For positive
    prices and size and a buffer that is not negative, the check returns
    [True] when both float balances are at least their closed-form
    requirements times [1 + 2^-50], and [False] when one of them is at
    most its closed-form requirement times [1 - 2^-50]. *)
Theorem can_buy_spot_short_perp_spec cfg env w
    spot_quote perp_quote spot_buy perp_sell size ratio k :
  get_balance cfg env (spot_connector cfg) false w = (Ok (Ffinite spot_quote), w) ->
  get_balance cfg env (perp_connector cfg) false w = (Ok (Ffinite perp_quote), w) ->
  limit_taker_price cfg env (spot_connector cfg) true w = (Ok (Dfinite spot_buy), w) ->
  limit_taker_price cfg env (perp_connector cfg) false w = (Ok (Dfinite perp_sell), w) ->
  base_order_amount cfg = Dfinite size ->
  int_truediv (slippage_buffer_bps cfg) 10000 = Ok ratio ->
  float_add (float_of_int 1) ratio = Ffinite k ->
  exists feasible,
    can_buy_spot_short_perp cfg env w = (Ok feasible, w)
    /\ (feasible = true
        <-> (ctx_round (ctx_round (spot_buy * k) * size) <= spot_quote)%Q
            /\ (ctx_round (perp_sell * size) <= perp_quote)%Q)
    /\ ((0 < spot_buy)%Q -> (0 < perp_sell)%Q -> (0 < size)%Q ->
        0 <= slippage_buffer_bps cfg ->
        ((spot_buy * (1 + inject_Z (slippage_buffer_bps cfg) / 10000) * size
            * (1 + tolerance) <= spot_quote
          /\ perp_sell * size * (1 + tolerance) <= perp_quote)%Q ->
         feasible = true)
        /\ ((spot_quote
             <= spot_buy * (1 + inject_Z (slippage_buffer_bps cfg) / 10000) * size
                * (1 - tolerance)
             \/ perp_quote <= perp_sell * size * (1 - tolerance))%Q ->
            feasible = false)).
Proof.
  intros Hbs Hbp Hps Hpp Hsize Hratio Hk.
  assert (Hslip : limit_taker_price_with_slippage cfg env (spot_connector cfg) true w
                  = (Ok (Dfinite (ctx_round (spot_buy * k))), w)).
  { unfold limit_taker_price_with_slippage.
    rewrite (bind_ok _ _ _ _ _ Hps). rewrite Hratio.
    unfold bind, lift. rewrite Hk. reflexivity. }
  exists (Qle_bool (ctx_round (ctx_round (spot_buy * k) * size)) spot_quote
          && Qle_bool (ctx_round (perp_sell * size)) perp_quote).
  split; [| split].
  - unfold can_buy_spot_short_perp.
    rewrite (bind_ok _ _ _ _ _ Hbs), (bind_ok _ _ _ _ _ Hslip). rewrite Hsize.
    unfold bind at 1. unfold lift at 1. simpl Decimal_mul. cbv iota beta.
    unfold bind at 1. unfold lift at 1. simpl Decimal_ge. cbv iota beta.
    rewrite (bind_ok _ _ _ _ _ Hbp), (bind_ok _ _ _ _ _ Hpp).
    reflexivity.
  - rewrite andb_true_iff, !Qle_bool_iff. reflexivity.
  - intros Psb Pps Psize Pbps.
    destruct (spot_requirement_tolerance spot_buy size _ ratio k spot_quote
                Psb Psize Pbps Hratio Hk) as [Hs1 Hs0].
    destruct (perp_requirement_tolerance perp_sell size perp_quote Pps Psize)
      as [Hp1 Hp0].
    split.
    + intros [H1 H2]. rewrite (Hs1 H1), (Hp1 H2). reflexivity.
    + intros [H | H].
      * rewrite (Hs0 H). reflexivity.
      * rewrite (Hp0 H). apply andb_false_r.
Qed.

(** C8, an instance (Scenario A): prices 1.0000 and 1.0025, order size 100,
    1000 USDT on each venue. *)
Lemma can_buy_spot_short_perp_spec_witness :
  (1 * (1 + inject_Z 5 / 10000) * 100 * (1 + tolerance) <= 1000)%Q
  /\ ((10025 # 10000) * 100 * (1 + tolerance) <= 1000)%Q
  /\ can_buy_spot_short_perp shipped (Scenario.buy_side_market 10)
       (Scenario.strategy true Closed [] 0)
     = (Ok true, Scenario.strategy true Closed [] 0).
Proof.
  assert (H1 : (1 * (1 + inject_Z 5 / 10000) * 100 * (1 + tolerance) <= 1000)%Q)
    by (vm_compute; discriminate).
  assert (H2 : ((10025 # 10000) * 100 * (1 + tolerance) <= 1000)%Q)
    by (vm_compute; discriminate).
  split; [exact H1|]. split; [exact H2|].
  destruct (can_buy_spot_short_perp_spec shipped (Scenario.buy_side_market 10)
              (Scenario.strategy true Closed [] 0)
              1000 1000 1 (10025 # 10000) 100
              (Ffinite (Qred 0.0005000000000000000104083408558608425664715468883514404296875))
              (Qred 1.0004999999999999449329379785922355949878692626953125)
              eq_refl eq_refl eq_refl eq_refl eq_refl eq_refl eq_refl)
    as (feasible & Hrun & _ & Htol).
  rewrite Hrun.
  rewrite (proj1 (Htol eq_refl eq_refl eq_refl ltac:(vm_compute; discriminate))
             (conj H1 H2)).
  reflexivity.
Defined.

(** C8, refuted as stated, with the shipped buffer of 5 bps and order size
    100.  First: the spot asks 1 and holds 1000 USDT, the perpetual bids
    1.0005 and holds 100.05 USDT; both balances meet the stated
    requirements (100.05 and 100.05), and the check returns [False],
    because the perpetual balance is compared as the float nearest to
    100.05, which lies below it.  Second: the spot asks
    1.00012493753123439 and holds 100.0625 USDT, a value that is a float;
    the stated requirement is above 100.0625, and the check returns
    [True], because the multiplier in use is the float 1.0005, which lies
    below 1 + 5/10000. *)
Lemma capital_check_departs_from_closed_form :
  ((1 * (1 + 5 / 10000) * 100 <= 1000)%Q
   /\ (1.0005 * 100 <= 100.05)%Q
   /\ can_buy_spot_short_perp shipped (Scenario.funded_quotes 10 1 1000 1.0005 100.05)
        (Scenario.strategy true Closed [] 0)
      = (Ok false, Scenario.strategy true Closed [] 0))
  /\
  (float_of_Decimal (Dfinite 100.0625) = Ffinite (Qred 100.0625)
   /\ ~ (1.00012493753123439 * (1 + 5 / 10000) * 100 <= 100.0625)%Q
   /\ (1 * 100 <= 1000)%Q
   /\ can_buy_spot_short_perp shipped
        (Scenario.funded_quotes 10 1.00012493753123439 100.0625 1 1000)
        (Scenario.strategy true Closed [] 0)
      = (Ok true, Scenario.strategy true Closed [] 0)).
Proof.
  split.
  - split; [vm_compute; discriminate|].
    split; [vm_compute; discriminate|]. vm_compute. reflexivity.
  - split; [vm_compute; reflexivity|].
    split; [intros H; vm_compute in H; apply H; reflexivity|].
    split; [vm_compute; discriminate|]. vm_compute. reflexivity.
Qed.

(* ================================================================== *)
(** * The position action of the perpetual leg *)
(* ================================================================== *)

Lemma handle_keeps_attributes cfg ev w :
  is_perp_in_long (self (handle cfg ev w)) = is_perp_in_long (self w)
  /\ is_perp_in_short (self (handle cfg ev w)) = is_perp_in_short (self w).
Proof.
  destruct ev as [env | id | id | |]; simpl handle; try (simpl; auto; fail).
  apply on_tick_keeps_attributes.
Qed.

Lemma run_keeps_attributes cfg evs : forall w,
  is_perp_in_long (self (run cfg evs w)) = is_perp_in_long (self w)
  /\ is_perp_in_short (self (run cfg evs w)) = is_perp_in_short (self w).
Proof.
  induction evs as [| ev evs IH]; intros w; simpl.
  - auto.
  - destruct (IH (handle cfg ev w)) as [Hl Hs].
    destruct (handle_keeps_attributes cfg ev w) as [Hl' Hs'].
    rewrite Hl, Hs, Hl', Hs'. auto.
Qed.

(** Without the two position attributes a delivery adds no order, or the
    spot buy alone. *)
Lemma handle_without_attributes cfg ev w :
  is_perp_in_long (self w) = None ->
  is_perp_in_short (self w) = None ->
  gateway (handle cfg ev w) = gateway w
  \/ exists p, gateway (handle cfg ev w) = gateway w ++ [spot_buy_leg cfg p].
Proof.
  intros Hl Hs. destruct ev as [env | id | id | |]; simpl handle; try (left; reflexivity).
  destruct (update_in_flight_state_shape env w) as (_ & _ & Hgw & _).
  destruct (on_tick_shape cfg env w)
    as [Same | [Upd | [(_ & [N | N] & _) | (_ & _ & p & Hsub)]]].
  - left. rewrite Same. reflexivity.
  - left. rewrite Upd. exact Hgw.
  - contradiction.
  - contradiction.
  - right. exists p. rewrite Hsub. simpl. rewrite Hgw. reflexivity.
Qed.

(** C9 (what the code does).  The position action of the perpetual leg
    is read off [is_perp_in_long], respectively [is_perp_in_short], and
    not off the lifecycle state; but no code creates these attributes,
    and no delivery does.  On the object as built BuySpotShortPerp, its
    prices read, submits the spot buy and then raises AttributeError, and
    SellSpotLongPerp raises it before any order: whatever is delivered,
    every order that reaches the gateway is a spot buy without a position
    action, and no perpetual leg is ever submitted.  Only on an object on
    which the attributes were assigned from outside do the pairs go out,
    the perpetual leg closing when its attribute is true and opening
    otherwise, in every lifecycle state. *)
Theorem perp_action_reads_missing_attributes cfg :
  (forall evs w,
     is_perp_in_long (self (run cfg evs w)) = is_perp_in_long (self w)
     /\ is_perp_in_short (self (run cfg evs w)) = is_perp_in_short (self w))
  /\ (forall env w p1 p2,
        limit_taker_price_with_slippage cfg env (spot_connector cfg) true w = (Ok p1, w) ->
        limit_taker_price_with_slippage cfg env (perp_connector cfg) false w = (Ok p2, w) ->
        match is_perp_in_long (self w) with
        | None =>
            buy_spot_short_perp cfg env w
            = (Raise (PyNum.AttributeError "is_perp_in_long"),
               stranded (spot_buy_leg cfg p1) w)
        | Some long =>
            gateway (snd (buy_spot_short_perp cfg env w))
            = gateway w ++ buy_spot_short_perp_legs cfg long p1 p2
        end)
  /\ (forall env w p1 p2,
        limit_taker_price_with_slippage cfg env (perp_connector cfg) true w = (Ok p1, w) ->
        limit_taker_price_with_slippage cfg env (spot_connector cfg) false w = (Ok p2, w) ->
        match is_perp_in_short (self w) with
        | None =>
            sell_spot_long_perp cfg env w
            = (Raise (PyNum.AttributeError "is_perp_in_short"), w)
        | Some short =>
            gateway (snd (sell_spot_long_perp cfg env w))
            = gateway w ++ sell_spot_long_perp_legs cfg short p1 p2
        end)
  /\ (forall evs w,
        is_perp_in_long (self w) = None ->
        is_perp_in_short (self w) = None ->
        exists added,
          gateway (run cfg evs w) = gateway w ++ added
          /\ Forall (fun o => exists p, o = spot_buy_leg cfg p) added).
Proof.
  split; [intros evs w; apply run_keeps_attributes|].
  split; [| split].
  - intros env w p1 p2 H1 H2.
    destruct (buy_spot_short_perp_cases cfg env w) as [[e He] | (q1 & q2 & G1 & G2 & Hb)].
    + unfold buy_spot_short_perp in He.
      rewrite (bind_ok _ _ _ _ _ H1), (bind_ok _ _ _ _ _ H2) in He.
      unfold bind, submit in He. simpl in He.
      destruct (is_perp_in_long (self w)); simpl in He; [discriminate He|].
      exfalso. inversion He as [[He1 He2]].
      apply (f_equal (@gateway)) in He2. simpl in He2.
      apply (f_equal (@List.length Order)) in He2.
      rewrite !length_app in He2. simpl in He2. lia.
    + rewrite H1 in G1. rewrite H2 in G2. injection G1 as <-. injection G2 as <-.
      destruct (is_perp_in_long (self w)); [rewrite Hb; reflexivity | exact Hb].
  - intros env w p1 p2 H1 H2.
    destruct (is_perp_in_short (self w)) as [short |] eqn:Hshort.
    + destruct (sell_spot_long_perp_cases cfg env w)
        as [[e He] | (q1 & q2 & short' & G1 & G2 & Hs' & Hb)].
      * unfold sell_spot_long_perp in He.
        rewrite (bind_ok _ _ _ _ _ H1), (bind_ok _ _ _ _ _ H2) in He.
        rewrite (bind_ok _ _ _ _ _ (get_self_run w)) in He. rewrite Hshort in He.
        discriminate He.
      * rewrite H1 in G1. rewrite H2 in G2. injection G1 as <-. injection G2 as <-.
        rewrite Hshort in Hs'. injection Hs' as <-. rewrite Hb. reflexivity.
    + apply (sell_spot_long_perp_unset cfg env w p1 p2 H1 H2 Hshort).
  - intros evs. induction evs as [| ev evs IH]; intros w Hl Hs; simpl.
    + exists []. rewrite app_nil_r. auto.
    + destruct (handle_keeps_attributes cfg ev w) as [Hl' Hs'].
      destruct (IH (handle cfg ev w)) as (added & Ha & Hf);
        [rewrite Hl'; exact Hl | rewrite Hs'; exact Hs |].
      destruct (handle_without_attributes cfg ev w Hl Hs) as [Hg | [p Hg]].
      * exists added. rewrite Ha, Hg. auto.
      * exists (spot_buy_leg cfg p :: added). rewrite Ha, Hg, <- app_assoc.
        split; [reflexivity|]. constructor; [exists p; reflexivity | exact Hf].
Qed.

(** C9, an instance: the object as built, both prices read. *)
Lemma perp_action_reads_missing_attributes_witness :
  exists p1,
    buy_spot_short_perp shipped (Scenario.buy_side_market 10)
      (Scenario.as_built true Closed [] 0)
    = (Raise (PyNum.AttributeError "is_perp_in_long"),
       stranded (spot_buy_leg shipped p1) (Scenario.as_built true Closed [] 0)).
Proof.
  eassert (H1 : limit_taker_price_with_slippage shipped (Scenario.buy_side_market 10)
                  (spot_connector shipped) true (Scenario.as_built true Closed [] 0)
                = (Ok _, Scenario.as_built true Closed [] 0)).
  { vm_compute. reflexivity. }
  eassert (H2 : limit_taker_price_with_slippage shipped (Scenario.buy_side_market 10)
                  (perp_connector shipped) false (Scenario.as_built true Closed [] 0)
                = (Ok _, Scenario.as_built true Closed [] 0)).
  { vm_compute. reflexivity. }
  eexists.
  exact (proj1 (proj2 (perp_action_reads_missing_attributes shipped))
           (Scenario.buy_side_market 10) (Scenario.as_built true Closed [] 0) _ _ H1 H2).
Defined.

(** C9, the failing runs.  The object as built with the precheck passed.
    State [Closed], BuySpotShortPerp profitable and feasible: the tick
    raises AttributeError, the state is still [Closed] and the gateway
    holds one order, the spot buy with no position action; the perpetual
    leg that was to open the position is missing.  State [Opened],
    SellSpotLongPerp profitable and feasible: the tick raises
    AttributeError, the state is still [Opened] and the gateway is empty;
    the perpetual leg that was to close the position is missing. *)
Lemma as_built_submits_no_perpetual_leg :
  (fst (on_tick shipped (Scenario.buy_side_market 10) (Scenario.as_built true Closed [] 0))
   = Raise (PyNum.AttributeError "is_perp_in_long")
   /\ strategy_state
        (self (snd (on_tick shipped (Scenario.buy_side_market 10)
                      (Scenario.as_built true Closed [] 0))))
      = Closed
   /\ map (fun o => (trade_type o, connector_name o, position_action o))
        (gateway (snd (on_tick shipped (Scenario.buy_side_market 10)
                         (Scenario.as_built true Closed [] 0))))
      = [(BUY, "kucoin", None)])
  /\
  (on_tick shipped (Scenario.sell_side_market 10) (Scenario.as_built true Opened [] 0)
   = (Raise (PyNum.AttributeError "is_perp_in_short"), Scenario.as_built true Opened [] 0)).
Proof.
  split; [split; [|split]|]; vm_compute; reflexivity.
Qed.

(* ================================================================== *)
(** * Further properties: the tick *)
(* ================================================================== *)

(** A tick past the precheck: the in-flight update, then either a return
    (state in flight, or [Closed] before the reopening timestamp) or the
    trading block, all on the updated world. *)
Lemma on_tick_passed cfg env w :
  is_position_mode_ready (self w) = true ->
  on_tick cfg env w
  = if is_in_flight (strategy_state (self (snd (update_in_flight_state env w))))
       || (StrategyState_eqb
             (strategy_state (self (snd (update_in_flight_state env w)))) Closed
           && (current_timestamp env
               <? next_arbitrage_opening_ts (self (snd (update_in_flight_state env w)))))
    then (Ok tt, snd (update_in_flight_state env w))
    else find_opportunity_and_trade cfg env (snd (update_in_flight_state env w)).
Proof.
  intros G.
  destruct (update_in_flight_state_shape env w) as (Hrun & _ & _ & _).
  set (w1 := snd (update_in_flight_state env w)) in *.
  unfold on_tick.
  rewrite (bind_ok _ _ _ _ _ (get_self_run w)). cbv beta. rewrite G. cbn [negb].
  rewrite (bind_ok _ _ _ _ _ Hrun).
  rewrite (bind_ok _ _ _ _ _ (get_self_run w1)). cbv beta.
  destruct (strategy_state (self w1)); simpl; try reflexivity.
  destruct (current_timestamp env <? next_arbitrage_opening_ts (self w1)); reflexivity.
Qed.

(** X1.  A tick that finds the state in flight with a record of other than
    two completions, or the state [Closed] before the reopening timestamp,
    returns normally and changes nothing, under every market: no price or
    balance is read, so a venue that cannot be read does not matter. *)
Theorem waiting_tick_is_idle cfg env w :
  (is_in_flight (strategy_state (self w)) = true
   /\ List.length (completed_order_ids (self w)) <> 2%nat)
  \/ (strategy_state (self w) = Closed
      /\ current_timestamp env < next_arbitrage_opening_ts (self w)) ->
  on_tick cfg env w = (Ok tt, w).
Proof.
  intros H.
  destruct (is_position_mode_ready (self w)) eqn:G;
    [| apply on_tick_precheck_fails; exact G].
  rewrite (on_tick_passed cfg env w G).
  destruct H as [[Hf Hl] | [Hs Ht]].
  - rewrite (update_in_flight_state_pending env w Hl). simpl snd. rewrite Hf. reflexivity.
  - rewrite update_in_flight_state_static by (rewrite Hs; reflexivity).
    simpl snd. rewrite Hs. simpl.
    destruct (Z.ltb_spec (current_timestamp env) (next_arbitrage_opening_ts (self w)));
      [reflexivity | lia].
Qed.

(** X1, an instance: [Opening] with one completion, 90 seconds on, while
    the spot venue cannot be read. *)
Lemma waiting_tick_is_idle_witness :
  on_tick shipped (Scenario.spot_down_market 90) (Scenario.strategy true Opening ["spot-1"] 0)
  = (Ok tt, Scenario.strategy true Opening ["spot-1"] 0).
Proof.
  apply (waiting_tick_is_idle shipped (Scenario.spot_down_market 90)
           (Scenario.strategy true Opening ["spot-1"] 0)).
  left. split; [reflexivity | simpl; lia].
Defined.

(** An exception in the trading block leaves the strategy object as it
    found it, and the gateway too, unless it is the AttributeError that
    follows the lone spot buy. *)
Lemma trade_raise_shape cfg env w e :
  fst (find_opportunity_and_trade cfg env w) = Raise e ->
  snd (find_opportunity_and_trade cfg env w) = w
  \/ (e = PyNum.AttributeError "is_perp_in_long"
      /\ is_perp_in_long (self w) = None
      /\ exists p,
          snd (find_opportunity_and_trade cfg env w) = stranded (spot_buy_leg cfg p) w).
Proof.
  intros H.
  destruct (trade_shape cfg env w)
    as [Same | [(_ & legs & _ & Hb) | (Hnone & p & Hb)]].
  - left. exact Same.
  - rewrite Hb in H. discriminate H.
  - right. rewrite Hb in H. simpl in H. injection H as <-.
    split; [reflexivity|]. split; [exact Hnone|]. exists p. rewrite Hb. reflexivity.
Qed.

(** X2.  A tick that ends in an exception has assigned nothing after the
    in-flight update and has submitted at most one order.  It has
    submitted one only when [is_perp_in_long] does not exist: the order is
    then the spot buy of BuySpotShortPerp, left without its perpetual leg,
    and the exception is the AttributeError of that read.  With
    [is_perp_in_long] assigned, a raising tick has submitted nothing. *)
Theorem raising_tick_strands_at_most_one_leg cfg env w e :
  fst (on_tick cfg env w) = Raise e ->
  self (snd (on_tick cfg env w)) = self (snd (update_in_flight_state env w))
  /\ (gateway (snd (on_tick cfg env w)) = gateway w
      \/ (e = PyNum.AttributeError "is_perp_in_long"
          /\ is_perp_in_long (self w) = None
          /\ exists p,
              gateway (snd (on_tick cfg env w)) = gateway w ++ [spot_buy_leg cfg p]))
  /\ (is_perp_in_long (self w) <> None ->
      gateway (snd (on_tick cfg env w)) = gateway w).
Proof.
  intros H.
  destruct (update_in_flight_state_shape env w) as (_ & _ & Hgw & _).
  destruct (update_in_flight_state_keeps_attributes env w) as [Hlong _].
  destruct (is_position_mode_ready (self w)) eqn:G.
  2:{ rewrite (on_tick_precheck_fails cfg env w G) in H. discriminate H. }
  rewrite (on_tick_passed cfg env w G) in *.
  set (w1 := snd (update_in_flight_state env w)) in *.
  destruct (is_in_flight (strategy_state (self w1))
            || (StrategyState_eqb (strategy_state (self w1)) Closed
                && (current_timestamp env <? next_arbitrage_opening_ts (self w1)))).
  - discriminate H.
  - destruct (trade_raise_shape cfg env w1 e H) as [Same | (He & Hnone & p & Hs)].
    + rewrite Same. split; [reflexivity|]. split; [left; exact Hgw | intros _; exact Hgw].
    + rewrite Hs. simpl. rewrite Hgw. rewrite Hlong in Hnone.
      split; [reflexivity|]. split.
      * right. split; [exact He|]. split; [exact Hnone|]. exists p. reflexivity.
      * intros N. contradiction.
Qed.

(** X2, an instance: the object as built; the tick moves [Opening] to
    [Opened], BuySpotShortPerp triggers, and the spot buy is left alone at
    the gateway. *)
Lemma raising_tick_strands_at_most_one_leg_witness :
  strategy_state
    (self (snd (on_tick shipped (Scenario.buy_side_market 90)
                  (Scenario.as_built true Opening ["spot-1"; "perp-1"] 0))))
  = Opened
  /\ map (fun o => (trade_type o, connector_name o, position_action o))
       (gateway (snd (on_tick shipped (Scenario.buy_side_market 90)
                        (Scenario.as_built true Opening ["spot-1"; "perp-1"] 0))))
     = [(BUY, "kucoin", None)].
Proof.
  assert (H : fst (on_tick shipped (Scenario.buy_side_market 90)
                     (Scenario.as_built true Opening ["spot-1"; "perp-1"] 0))
              = Raise (PyNum.AttributeError "is_perp_in_long"))
    by (vm_compute; reflexivity).
  destruct (raising_tick_strands_at_most_one_leg _ _ _ _ H) as (Hw & _ & _).
  split; [rewrite Hw; reflexivity | vm_compute; reflexivity].
Defined.

(** X3.  A tick that finds [Opening] with two completions does not stop at
    [Opened]: after the update it runs the trading block in the same tick,
    so the hedge can be unwound at once.  A tick that finds [Closing] with
    two completions runs the trading block at once when the previous
    reopening timestamp is not positive, and otherwise returns in state
    [Closed]. *)
Theorem completing_tick_goes_on cfg env w :
  is_position_mode_ready (self w) = true ->
  List.length (completed_order_ids (self w)) = 2%nat ->
  (strategy_state (self w) = Opening ->
   on_tick cfg env w
   = find_opportunity_and_trade cfg env (snd (update_in_flight_state env w)))
  /\ (strategy_state (self w) = Closing ->
      (next_arbitrage_opening_ts (self w) <= 0 ->
       on_tick cfg env w
       = find_opportunity_and_trade cfg env (snd (update_in_flight_state env w)))
      /\ (0 < next_arbitrage_opening_ts (self w) ->
          on_tick cfg env w = (Ok tt, snd (update_in_flight_state env w)))).
Proof.
  intros G Hl. split; intros Hs.
  - rewrite (on_tick_passed cfg env w G).
    rewrite update_in_flight_state_done by (try rewrite Hs; easy).
    rewrite Hs. reflexivity.
  - rewrite (on_tick_passed cfg env w G).
    rewrite update_in_flight_state_done by (try rewrite Hs; easy).
    rewrite Hs. simpl.
    split; intros Ht.
    + destruct (Z.ltb_spec (current_timestamp env)
                  (current_timestamp env + next_arbitrage_opening_ts (self w)));
        [lia | reflexivity].
    + destruct (Z.ltb_spec (current_timestamp env)
                  (current_timestamp env + next_arbitrage_opening_ts (self w)));
        [reflexivity | lia].
Qed.

(** X3, an instance: [Opening] with both legs completed on a market where
    SellSpotLongPerp pays ends the tick in [Closing] with two orders out. *)
Lemma completing_tick_goes_on_witness :
  strategy_state
    (self (snd (on_tick shipped (Scenario.sell_side_market 90)
                  (Scenario.strategy true Opening ["spot-1"; "perp-1"] 0))))
  = Closing
  /\ List.length
       (gateway (snd (on_tick shipped (Scenario.sell_side_market 90)
                        (Scenario.strategy true Opening ["spot-1"; "perp-1"] 0))))
     = 2%nat.
Proof.
  rewrite (proj1 (completing_tick_goes_on shipped (Scenario.sell_side_market 90)
                    (Scenario.strategy true Opening ["spot-1"; "perp-1"] 0)
                    eq_refl eq_refl) eq_refl).
  split; vm_compute; reflexivity.
Defined.


(* ================================================================== *)
(** * Further properties: what a delivery can change *)
(* ================================================================== *)

Lemma update_in_flight_state_keeps_stamps env w :
  last_submit_order_ts (self (snd (update_in_flight_state env w)))
  = last_submit_order_ts (self w)
  /\ in_flight_state_start_ts (self (snd (update_in_flight_state env w)))
     = in_flight_state_start_ts (self w).
Proof.
  destruct (Nat.eq_dec (List.length (completed_order_ids (self w))) 2) as [E | N].
  - destruct (is_in_flight (strategy_state (self w))) eqn:F.
    + rewrite (update_in_flight_state_done env w F E). simpl.
      destruct (strategy_state (self w)); simpl; auto.
    + rewrite update_in_flight_state_static; [auto|].
      unfold is_in_flight in F. destruct (is_static (strategy_state (self w)));
        [reflexivity | discriminate].
  - rewrite (update_in_flight_state_pending env w N). auto.
Qed.

(** What one delivery does to the lifecycle state, the gateway and the two
    submission timestamps: nothing that touches them; or the in-flight
    update alone; or a pair of legs, stamped; or the lone spot buy, which
    is not stamped and changes no state. *)
Lemma handle_shape cfg ev w :
  (handle cfg ev w = w
   \/ (strategy_state (self (handle cfg ev w)) = strategy_state (self w)
       /\ gateway (handle cfg ev w) = gateway w
       /\ last_submit_order_ts (self (handle cfg ev w)) = last_submit_order_ts (self w)
       /\ in_flight_state_start_ts (self (handle cfg ev w))
          = in_flight_state_start_ts (self w)))
  \/ (exists env, ev = Tick env
      /\ is_in_flight (strategy_state (self w)) = true
      /\ strategy_state (self (handle cfg ev w)) = cycle_next (strategy_state (self w))
      /\ gateway (handle cfg ev w) = gateway w
      /\ last_submit_order_ts (self (handle cfg ev w)) = last_submit_order_ts (self w)
      /\ in_flight_state_start_ts (self (handle cfg ev w))
         = in_flight_state_start_ts (self w))
  \/ (exists env legs, ev = Tick env
      /\ List.length legs = 2%nat
      /\ gateway (handle cfg ev w) = gateway w ++ legs
      /\ last_submit_order_ts (self (handle cfg ev w)) = Some (current_timestamp env)
      /\ in_flight_state_start_ts (self (handle cfg ev w)) = current_timestamp env
      /\ ((is_static (strategy_state (self w)) = true
           /\ strategy_state (self (handle cfg ev w)) = cycle_next (strategy_state (self w)))
          \/ (is_in_flight (strategy_state (self w)) = true
              /\ strategy_state (self (handle cfg ev w))
                 = cycle_next (cycle_next (strategy_state (self w))))))
  \/ (exists env p, ev = Tick env
      /\ is_perp_in_long (self w) = None
      /\ gateway (handle cfg ev w) = gateway w ++ [spot_buy_leg cfg p]
      /\ last_submit_order_ts (self (handle cfg ev w)) = last_submit_order_ts (self w)
      /\ in_flight_state_start_ts (self (handle cfg ev w))
         = in_flight_state_start_ts (self w)
      /\ (strategy_state (self (handle cfg ev w)) = strategy_state (self w)
          \/ (is_in_flight (strategy_state (self w)) = true
              /\ strategy_state (self (handle cfg ev w))
                 = cycle_next (strategy_state (self w))))).
Proof.
  destruct ev as [env | id | id | |]; simpl handle.
  - destruct (update_in_flight_state_shape env w) as (_ & _ & Hgw & Hupd).
    destruct (update_in_flight_state_keeps_stamps env w) as [Hl Hi].
    destruct (on_tick_shape cfg env w)
      as [Same | [Upd | [(Hstatic & _ & legs & Hlen & Hsub) | (_ & Hnone & p & Hsub)]]].
    + left; left. exact Same.
    + rewrite Upd. destruct Hupd as [E | (Hf & _ & Hst & _)].
      * left; left. exact E.
      * right; left. exists env. split; [reflexivity|]. split; [exact Hf|].
        rewrite Hst. split; [| auto].
        destruct (strategy_state (self w)); simpl in *; try discriminate; reflexivity.
    + right; right; left. exists env, legs. split; [reflexivity|]. split; [exact Hlen|].
      rewrite Hsub. unfold submitted. simpl. rewrite Hgw.
      split; [reflexivity|]. split; [reflexivity|]. split; [reflexivity|].
      destruct Hupd as [E | (Hf & _ & Hst & _)].
      * left. rewrite E in *. split; [exact Hstatic|].
        destruct (strategy_state (self w)); simpl in *; try discriminate; reflexivity.
      * right. split; [exact Hf|]. rewrite Hst.
        destruct (strategy_state (self w)); simpl in *; try discriminate; reflexivity.
    + right; right; right. exists env, p. split; [reflexivity|]. split; [exact Hnone|].
      rewrite Hsub. unfold stranded. simpl. rewrite Hgw.
      split; [reflexivity|]. split; [exact Hl|]. split; [exact Hi|].
      destruct Hupd as [E | (Hf & _ & Hst & _)].
      * left. rewrite E. reflexivity.
      * right. split; [exact Hf|]. rewrite Hst.
        destruct (strategy_state (self w)); simpl in *; try discriminate; reflexivity.
  - left; right. simpl. auto.
  - left; right. simpl. auto.
  - left; right. simpl. auto.
  - left; left. destruct w; reflexivity.
Qed.

(** X4.  A delivery never moves the lifecycle backwards: the state stays,
    or advances one step along [Closed], [Opening], [Opened], [Closing],
    [Closed], or (only from an in-flight state, in a single tick) two
    steps.  Only a tick changes it: completions and position-mode events
    leave the state and the gateway alone. *)
Theorem lifecycle_moves_forward cfg ev w :
  (strategy_state (self (handle cfg ev w)) = strategy_state (self w)
   \/ strategy_state (self (handle cfg ev w)) = cycle_next (strategy_state (self w))
   \/ (is_in_flight (strategy_state (self w)) = true
       /\ strategy_state (self (handle cfg ev w))
          = cycle_next (cycle_next (strategy_state (self w)))))
  /\ ((forall env, ev <> Tick env) ->
      strategy_state (self (handle cfg ev w)) = strategy_state (self w)
      /\ gateway (handle cfg ev w) = gateway w).
Proof.
  split.
  - destruct (handle_shape cfg ev w)
      as [[E | (Hs & _)] | [(env & _ & Hf & Hs & _)
         | [(env & legs & _ & _ & _ & _ & _ & Hs) | (env & p & _ & _ & _ & _ & _ & Hs)]]].
    + left. rewrite E. reflexivity.
    + left. exact Hs.
    + right; left. exact Hs.
    + destruct Hs as [[_ Hs] | [Hf Hs]]; [right; left; exact Hs | right; right; auto].
    + destruct Hs as [Hs | [_ Hs]]; [left; exact Hs | right; left; exact Hs].
  - intros Hne. destruct ev as [env | id | id | |]; simpl; auto.
    exfalso. apply (Hne env). reflexivity.
Qed.

(** X4, an instance: a completion leaves [Opening] as it is. *)
Lemma lifecycle_moves_forward_witness :
  strategy_state
    (self (handle shipped (BuyOrderCompleted "spot-1")
             (Scenario.strategy true Opening [] 0)))
  = Opening.
Proof.
  refine (proj1 (proj2 (lifecycle_moves_forward shipped (BuyOrderCompleted "spot-1")
                          (Scenario.strategy true Opening [] 0)) _)).
  intros env H. discriminate H.
Defined.

Lemma handle_gateway cfg ev w :
  exists legs,
    gateway (handle cfg ev w) = gateway w ++ legs
    /\ (legs = [] \/ List.length legs = 2%nat
        \/ (is_perp_in_long (self w) = None /\ List.length legs = 1%nat)).
Proof.
  destruct (handle_shape cfg ev w)
    as [[E | (_ & Hg & _)] | [(env & _ & _ & _ & Hg & _)
       | [(env & legs & _ & Hl & Hg & _) | (env & p & _ & Hnone & Hg & _)]]].
  - exists []. rewrite E, app_nil_r. auto.
  - exists []. rewrite Hg, app_nil_r. auto.
  - exists []. rewrite Hg, app_nil_r. auto.
  - exists legs. auto.
  - exists [spot_buy_leg cfg p]. auto.
Qed.

(** X5.  Over any sequence of deliveries the gateway only grows: the
    orders submitted before stay, in their order.  When [is_perp_in_long]
    has been assigned, the orders added come in pairs; without it a spot
    buy can go out alone. *)
Theorem gateway_grows_by_pairs cfg evs : forall w,
  exists added,
    gateway (run cfg evs w) = gateway w ++ added
    /\ (is_perp_in_long (self w) <> None -> Nat.even (List.length added) = true).
Proof.
  induction evs as [| ev evs IH]; intros w; simpl.
  - exists []. rewrite app_nil_r. auto.
  - destruct (handle_gateway cfg ev w) as (legs & Hg & Hl).
    destruct (handle_keeps_attributes cfg ev w) as [Hlong _].
    destruct (IH (handle cfg ev w)) as (added & Ha & He).
    exists (legs ++ added). rewrite Ha, Hg, app_assoc. split; [reflexivity|].
    intros N. rewrite Hlong in He.
    rewrite length_app, Nat.even_add, (He N).
    destruct Hl as [-> | [-> | [Hnone _]]]; [reflexivity | reflexivity | contradiction].
Qed.

(** X5, an instance: a full first cycle on an object with the attributes
    assigned adds four orders. *)
Lemma gateway_grows_by_pairs_witness :
  List.length
    (gateway (run shipped Scenario.first_cycle (Scenario.strategy true Closed [] 0)))
  = 4%nat
  /\ exists added,
       gateway (run shipped Scenario.first_cycle (Scenario.strategy true Closed [] 0))
       = gateway (Scenario.strategy true Closed [] 0) ++ added
       /\ Nat.even (List.length added) = true.
Proof.
  split; [vm_compute; reflexivity|].
  destruct (gateway_grows_by_pairs shipped Scenario.first_cycle
              (Scenario.strategy true Closed [] 0)) as (added & Ha & He).
  exists added. split; [exact Ha|]. apply He. discriminate.
Defined.

Lemma handle_stamped cfg ev w : stamped w -> stamped (handle cfg ev w).
Proof.
  intros H. unfold stamped in *.
  destruct (handle_shape cfg ev w)
    as [[E | (_ & Hg & Hl & Hi)]
       | [(env & _ & _ & _ & Hg & Hl & Hi)
         | [(env & legs & _ & Hlen & Hg & Hl & Hi & _)
           | (env & p & _ & _ & Hg & Hl & Hi & _)]]].
  - rewrite E. exact H.
  - rewrite Hl, Hi, Hg. exact H.
  - rewrite Hl, Hi, Hg. exact H.
  - rewrite Hl, Hi, Hg. split; [reflexivity|].
    intros Hnil. apply (f_equal (@List.length Order)) in Hnil.
    rewrite length_app, Hlen in Hnil. simpl in Hnil. lia.
  - rewrite Hl, Hi, Hg. destruct (last_submit_order_ts (self w)); [| exact I].
    destruct H as [Hts _]. split; [exact Hts|].
    intros Hnil. apply (f_equal (@List.length Order)) in Hnil.
    rewrite length_app in Hnil. simpl in Hnil. lia.
Qed.

Lemma run_stamped cfg evs : forall w, stamped w -> stamped (run cfg evs w).
Proof.
  induction evs as [| ev evs IH]; intros w H; simpl.
  - exact H.
  - apply IH. apply handle_stamped. exact H.
Qed.

(** With [is_perp_in_long] assigned no order goes out unstamped. *)
Lemma handle_unstamped cfg ev w :
  is_perp_in_long (self w) <> None ->
  (last_submit_order_ts (self w) = None -> gateway w = []) ->
  last_submit_order_ts (self (handle cfg ev w)) = None -> gateway (handle cfg ev w) = [].
Proof.
  intros N H.
  destruct (handle_shape cfg ev w)
    as [[E | (_ & Hg & Hl & _)]
       | [(env & _ & _ & _ & Hg & Hl & _)
         | [(env & legs & _ & _ & _ & Hl & _)
           | (env & p & _ & Hnone & _)]]].
  - rewrite E. exact H.
  - rewrite Hl, Hg. exact H.
  - rewrite Hl, Hg. exact H.
  - rewrite Hl. discriminate.
  - contradiction.
Qed.

Lemma run_unstamped cfg evs : forall w,
  is_perp_in_long (self w) <> None ->
  (last_submit_order_ts (self w) = None -> gateway w = []) ->
  last_submit_order_ts (self (run cfg evs w)) = None -> gateway (run cfg evs w) = [].
Proof.
  induction evs as [| ev evs IH]; intros w N H; simpl.
  - exact H.
  - apply IH.
    + destruct (handle_keeps_attributes cfg ev w) as [Hlong _]. rewrite Hlong. exact N.
    + apply handle_unstamped; assumption.
Qed.

(** X6.  The two submission timestamps are kept together: along any
    sequence of deliveries, once [last_submit_order_ts] exists an order
    has been submitted and [in_flight_state_start_ts] holds the same time
    as it.  When [is_perp_in_long] has been assigned the converse holds
    as well: [last_submit_order_ts] exists exactly when an order has been
    submitted.  (Without the attribute a spot buy can be at the gateway
    with no [last_submit_order_ts].) *)
Theorem submission_timestamps_agree cfg evs w :
  stamped w ->
  stamped (run cfg evs w)
  /\ (forall ts,
        last_submit_order_ts (self (run cfg evs w)) = Some ts ->
        in_flight_state_start_ts (self (run cfg evs w)) = ts
        /\ gateway (run cfg evs w) <> [])
  /\ (is_perp_in_long (self w) <> None ->
      (last_submit_order_ts (self w) = None -> gateway w = []) ->
      (last_submit_order_ts (self (run cfg evs w)) = None
       <-> gateway (run cfg evs w) = [])).
Proof.
  intros H. pose proof (run_stamped cfg evs w H) as S. split; [exact S|].
  pose proof (run_unstamped cfg evs w) as U.
  unfold stamped in S.
  destruct (last_submit_order_ts (self (run cfg evs w))) as [t |].
  - destruct S as [Hi Hne]. split.
    + intros ts E. inversion E. subst ts. auto.
    + intros _ _. split; [discriminate | intros Hg; contradiction].
  - split; [discriminate|]. intros N H0. split; [intros _; apply U; auto | reflexivity].
Qed.

(** X6, an instance: after a full first cycle both hold the time of the
    unwind, 30. *)
Lemma submission_timestamps_agree_witness :
  last_submit_order_ts
    (self (run shipped Scenario.first_cycle (Scenario.strategy true Closed [] 0)))
  = Some 30
  /\ stamped (run shipped Scenario.first_cycle (Scenario.strategy true Closed [] 0)).
Proof.
  split; [vm_compute; reflexivity|].
  assert (H : stamped (Scenario.strategy true Closed [] 0)) by exact I.
  exact (proj1 (submission_timestamps_agree shipped Scenario.first_cycle
                  (Scenario.strategy true Closed [] 0) H)).
Defined.

(* ================================================================== *)
(** * Further properties: reads *)
(* ================================================================== *)


(** X7.  A connector name that is not a key of [connectors] makes every
    read through it raise KeyError and leaves the strategy untouched;
    [get_balance] tests its assertion first, so the perpetual name with
    [is_base] fails the assertion even then.  When the spot connector is
    missing, a tick that reaches the evaluation raises KeyError. *)
Theorem missing_connector_raises cfg env w name :
  connectors env name = None ->
  (forall is_buy, limit_taker_price cfg env name is_buy w = (Raise KeyError, w))
  /\ (forall is_buy,
        limit_taker_price_with_slippage cfg env name is_buy w = (Raise KeyError, w))
  /\ (forall is_base,
        get_balance cfg env name is_base w
        = (Raise (if String.eqb name (perp_connector cfg) && is_base
                  then AssertionError else KeyError), w))
  /\ (name = spot_connector cfg -> evaluating env w ->
      on_tick cfg env w = (Raise KeyError, w)).
Proof.
  intros Hnone.
  assert (Hl : forall is_buy, limit_taker_price cfg env name is_buy w = (Raise KeyError, w)).
  { intros is_buy. unfold limit_taker_price, connector. rewrite Hnone. reflexivity. }
  split; [exact Hl|]. split; [| split].
  - intros is_buy. unfold limit_taker_price_with_slippage.
    rewrite (bind_raise _ _ _ _ _ (Hl is_buy)). reflexivity.
  - intros is_base. unfold get_balance, connector. rewrite Hnone.
    destruct (String.eqb name (perp_connector cfg)); destruct is_base; simpl;
      destruct (split_hb_trading_pair env (trading_pair cfg)); reflexivity.
  - intros -> Hev. rewrite (on_tick_evaluating cfg env w Hev).
    unfold find_opportunity_and_trade, should_buy_spot_short_perp.
    rewrite (bind_raise _ _ _ _ _ (bind_raise _ _ _ _ _ (Hl true))). reflexivity.
Qed.

(** X7, an instance: a connector named "binance" is not configured. *)
Lemma missing_connector_raises_witness :
  get_balance shipped (Scenario.buy_side_market 10) "binance" false
    (Scenario.strategy true Closed [] 0)
  = (Raise KeyError, Scenario.strategy true Closed [] 0).
Proof.
  exact (proj1 (proj2 (proj2
           (missing_connector_raises shipped (Scenario.buy_side_market 10)
              (Scenario.strategy true Closed [] 0) "binance" eq_refl))) false).
Defined.

Lemma sframe_bind {A B} (c : Status A) (k : A -> Status B) :
  (forall w, snd (c w) = w) -> (forall a w, snd (k a w) = w) ->
  forall w, snd (sbind c k w) = w.
Proof.
  intros Hc Hk w. unfold sbind. specialize (Hc w).
  destruct (c w) as [[a | e] w1]; simpl in Hc; subst w1; [apply Hk | reflexivity].
Qed.

Lemma sframe_call {A} (c : M A) : frame c -> forall w, snd (call c w) = w.
Proof.
  intros Hc w. unfold call. specialize (Hc w).
  destruct (c w) as [[a | e] w1]; simpl in *; subst w1; reflexivity.
Qed.

Ltac sframes :=
  repeat first
    [ apply sframe_bind; [ | intros ? ]
    | apply sframe_call; frames
    | intros ?; reflexivity
    | match goal with
      | |- forall w, snd ((let (_, _) := ?p in _) w) = w => destruct p
      | |- forall w, snd (match ?x with _ => _ end w) = w => destruct x
      end ].

Lemma frame_get_self : frame get_self.
Proof. intros w. reflexivity. Qed.

Lemma format_status_frame cfg env ready : forall w,
  snd (format_status cfg env ready w) = w.
Proof.
  unfold format_status. destruct ready; simpl negb; cbv iota; [| intros w; reflexivity].
  apply sframe_bind.
  { unfold _append_buy_spot_short_perp_status. sframes. }
  intros l1. apply sframe_bind.
  { unfold _append_sell_spot_long_perp_status. sframes. }
  intros l2. apply sframe_bind.
  { unfold _append_balances_status. sframes. }
  intros l3. apply sframe_bind.
  { unfold _append_bot_states. apply sframe_bind.
    - apply sframe_call. apply frame_get_self.
    - intros s. destruct (last_submit_order_ts s); intros w; reflexivity. }
  intros l4 w. reflexivity.
Qed.

(** X8.  Looking never touches: the two detectors, the two capital checks,
    the price and balance reads and the status report leave the strategy
    object and the gateway exactly as they were, whether they return or
    raise. *)
Theorem evaluation_reads_only cfg env w :
  snd (should_buy_spot_short_perp cfg env w) = w
  /\ snd (can_buy_spot_short_perp cfg env w) = w
  /\ snd (should_sell_spot_long_perp cfg env w) = w
  /\ snd (can_sell_spot_long_perp cfg env w) = w
  /\ (forall name flag,
        snd (limit_taker_price cfg env name flag w) = w
        /\ snd (limit_taker_price_with_slippage cfg env name flag w) = w
        /\ snd (get_balance cfg env name flag w) = w)
  /\ (forall ready, snd (format_status cfg env ready w) = w).
Proof.
  split; [apply frame_should_buy_spot_short_perp|].
  split; [apply frame_can_buy_spot_short_perp|].
  split; [apply frame_should_sell_spot_long_perp|].
  split; [apply frame_can_sell_spot_long_perp|].
  split.
  - intros name flag.
    split; [apply frame_limit_taker_price|].
    split; [apply frame_limit_taker_price_with_slippage | apply frame_get_balance].
  - intros ready. apply format_status_frame.
Qed.

(** A detector on prices one of which is NaN. *)
Lemma detector_nan (margin : Z) a b w :
  a = DNaN \/ b = DNaN ->
  (diff <- lift (Decimal_sub a b) ;;
   quot <- lift (Decimal_div diff b) ;;
   ret (float_ge_int (float_mul (float_of_Decimal quot) (float_of_int 10000)) margin)) w
  = (Ok false, w).
Proof.
  intros [-> | ->].
  - unfold bind, lift, ret. simpl. destruct b; reflexivity.
  - unfold bind, lift, ret. destruct a; simpl; reflexivity.
Qed.

(** X9.  A price of NaN, which is what an empty order book yields, is not
    an error for the detectors: when one of the two prices of a direction
    is NaN and the other read returns, the detector returns [False]
    without raising.  A tick that reaches the evaluation with NaN on a
    leg of each direction therefore changes nothing. *)
Theorem nan_price_is_not_profitable cfg env w spot_buy spot_sell perp_buy perp_sell :
  limit_taker_price cfg env (spot_connector cfg) true w = (Ok spot_buy, w) ->
  limit_taker_price cfg env (spot_connector cfg) false w = (Ok spot_sell, w) ->
  limit_taker_price cfg env (perp_connector cfg) true w = (Ok perp_buy, w) ->
  limit_taker_price cfg env (perp_connector cfg) false w = (Ok perp_sell, w) ->
  (spot_buy = DNaN \/ perp_sell = DNaN ->
   should_buy_spot_short_perp cfg env w = (Ok false, w))
  /\ (spot_sell = DNaN \/ perp_buy = DNaN ->
      should_sell_spot_long_perp cfg env w = (Ok false, w))
  /\ (spot_buy = DNaN \/ perp_sell = DNaN ->
      spot_sell = DNaN \/ perp_buy = DNaN ->
      evaluating env w ->
      on_tick cfg env w = (Ok tt, w)).
Proof.
  intros Hsb Hss Hpb Hps.
  assert (Hbuy : spot_buy = DNaN \/ perp_sell = DNaN ->
                 should_buy_spot_short_perp cfg env w = (Ok false, w)).
  { intros H. unfold should_buy_spot_short_perp.
    rewrite (bind_ok _ _ _ _ _ Hsb), (bind_ok _ _ _ _ _ Hps).
    apply detector_nan. tauto. }
  assert (Hsell : spot_sell = DNaN \/ perp_buy = DNaN ->
                  should_sell_spot_long_perp cfg env w = (Ok false, w)).
  { intros H. unfold should_sell_spot_long_perp.
    rewrite (bind_ok _ _ _ _ _ Hss), (bind_ok _ _ _ _ _ Hpb).
    apply detector_nan. tauto. }
  split; [exact Hbuy|]. split; [exact Hsell|].
  intros H1 H2 Hev. rewrite (on_tick_evaluating cfg env w Hev).
  apply trade_none; left; auto.
Qed.

(** X9, an instance: both order books are empty. *)
Lemma nan_price_is_not_profitable_witness :
  on_tick shipped (empty_book_market 10) (Scenario.strategy true Closed [] 0)
  = (Ok tt, Scenario.strategy true Closed [] 0).
Proof.
  refine (proj2 (proj2
            (nan_price_is_not_profitable shipped (empty_book_market 10)
               (Scenario.strategy true Closed [] 0) DNaN DNaN DNaN DNaN
               eq_refl eq_refl eq_refl eq_refl)) _ _ _).
  - left; reflexivity.
  - left; reflexivity.
  - split; [reflexivity | right; split; [reflexivity | simpl; lia]].
Defined.


(* ================================================================== *)
(** * Further properties: limit prices and the second capital check *)
(* ================================================================== *)

Lemma buffer_ratio_rounds bps :
  0 <= bps <= 10000 ->
  exists x,
    int_truediv bps 10000 = Ok (Ffinite x)
    /\ (0 <= inject_Z bps / 10000 <= 1)%Q
    /\ (Qabs (x - inject_Z bps / 10000)
        <= (inject_Z bps / 10000) * (1 # 9007199254740992)
           + (1 # 1000000000000000000000000000000))%Q.
Proof.
  intros [H0 H1].
  assert (Hr0 : (0 <= inject_Z bps / 10000)%Q).
  { apply Qle_shift_div_l; [reflexivity|]. rewrite Qmult_0_l.
    rewrite (Zle_Qle 0 bps) in H0. exact H0. }
  assert (Hr1 : (inject_Z bps / 10000 <= 1)%Q).
  { apply Qle_shift_div_r; [reflexivity|]. rewrite Qmult_1_l.
    rewrite (Zle_Qle bps 10000) in H1. exact H1. }
  unfold int_truediv. simpl (10000 =? 0). cbv iota.
  change (inject_Z 10000) with 10000%Q.
  set (r := (inject_Z bps / 10000)%Q) in *.
  assert (Hbig : (2 <= inject_Z (10 ^ 305))%Q) by (vm_compute; discriminate).
  destruct (float_round_bounds r) as [(x & Hx & Hxb) | [_ Hb]].
  - exists x. rewrite Hx. rewrite (Qabs_pos r) in Hxb by exact Hr0. auto.
  - rewrite (Qabs_pos r) in Hb by exact Hr0. lra.
Qed.

(** The slippage factor in use, for a buffer between 0 and 10000 bps: a
    finite float within [3 * 2^-53] of [1 + bps/10000], respectively of
    [1 - bps/10000]. *)
Lemma slippage_factor_near bps (is_buy : bool) :
  0 <= bps <= 10000 ->
  exists ratio k,
    int_truediv bps 10000 = Ok ratio
    /\ (if is_buy then float_add (float_of_int 1) ratio
        else float_sub (float_of_int 1) ratio) = Ffinite k
    /\ (Qabs (k - (if is_buy then 1 + inject_Z bps / 10000
                   else 1 - inject_Z bps / 10000))
        <= (3 # 4503599627370496))%Q.
Proof.
  intros Hbps.
  destruct (buffer_ratio_rounds bps Hbps) as (x & Hx & [Hr0 Hr1] & Hxb).
  set (r := (inject_Z bps / 10000)%Q) in *.
  apply Qabs_Qle_condition in Hxb.
  assert (Hbig : (100 <= inject_Z (10 ^ 305))%Q) by (vm_compute; discriminate).
  exists (Ffinite x). destruct is_buy.
  - rewrite float_of_int_1. cbn [float_add].
    destruct (float_round_bounds (1 + x)) as [(k & Hk & Hkb) | [_ Hb]].
    + exists k. split; [exact Hx|]. split; [exact Hk|].
      apply Qabs_Qle_condition in Hkb. apply Qabs_Qle_condition.
      split_abs (1 + x)%Q; lra.
    + exfalso. split_abs (1 + x)%Q; lra.
  - unfold float_sub. rewrite float_of_int_1. cbn [float_neg float_add].
    assert (E : (Qred (- x) == - x)%Q) by apply Qred_correct.
    destruct (float_round_bounds (1 + Qred (- x))) as [(k & Hk & Hkb) | [_ Hb]].
    + exists k. split; [exact Hx|]. split; [exact Hk|].
      rewrite E in Hkb.
      apply Qabs_Qle_condition in Hkb. apply Qabs_Qle_condition.
      split_abs (1 + - x)%Q; lra.
    + exfalso. rewrite E in Hb. split_abs (1 + - x)%Q; lra.
Qed.

(** The limit price of a taker order, for a positive observed price and a
    buffer between 0 and 10000 bps. *)
Lemma slippage_price_near cfg env w name is_buy price :
  limit_taker_price cfg env name is_buy w = (Ok (Dfinite price), w) ->
  (0 < price)%Q ->
  0 <= slippage_buffer_bps cfg <= 10000 ->
  exists limit,
    limit_taker_price_with_slippage cfg env name is_buy w = (Ok (Dfinite limit), w)
    /\ (Qabs (limit - buffered_price cfg is_buy price) <= price * tolerance)%Q.
Proof.
  intros Hread Hp Hbps.
  destruct (slippage_factor_near (slippage_buffer_bps cfg) is_buy Hbps)
    as (ratio & k & Hratio & Hk & Hkb).
  destruct (buffer_ratio_rounds _ Hbps) as (_ & _ & [Hr0 Hr1] & _).
  exists (ctx_round (price * k)). split.
  - unfold limit_taker_price_with_slippage.
    rewrite (bind_ok _ _ _ _ _ Hread). rewrite Hratio. unfold bind, lift.
    destruct is_buy; rewrite Hk; reflexivity.
  - unfold buffered_price, tolerance.
    set (r := (inject_Z (slippage_buffer_bps cfg) / 10000)%Q) in *.
    apply Qabs_Qle_condition in Hkb. destruct Hkb as [Hk1 Hk2].
    pose proof (ctx_round_bounds (price * k)) as Hc.
    apply Qabs_Qle_condition in Hc.
    assert (Hpr0 : (0 <= price * r)%Q) by (apply Qmult_le_0_compat; lra).
    assert (Hpr1 : (price * r <= price * 1)%Q).
    { rewrite !(Qmult_comm price). apply Qmult_le_compat_r; lra. }
    apply Qabs_Qle_condition.
    destruct is_buy.
    + assert (Hq1 : ((1 + r - (3 # 4503599627370496)) * price <= k * price)%Q)
        by (apply Qmult_le_compat_r; lra).
      assert (Hq2 : (k * price <= (1 + r + (3 # 4503599627370496)) * price)%Q)
        by (apply Qmult_le_compat_r; lra).
      set (q := (price * k)%Q) in *.
      assert (Eq : (k * price == q)%Q) by (unfold q; ring).
      rewrite Eq in Hq1, Hq2.
      split_abs q; lra.
    + assert (Hq1 : ((1 - r - (3 # 4503599627370496)) * price <= k * price)%Q)
        by (apply Qmult_le_compat_r; lra).
      assert (Hq2 : (k * price <= (1 - r + (3 # 4503599627370496)) * price)%Q)
        by (apply Qmult_le_compat_r; lra).
      set (q := (price * k)%Q) in *.
      assert (Eq : (k * price == q)%Q) by (unfold q; ring).
      rewrite Eq in Hq1, Hq2.
      split_abs q; lra.
Qed.


(** X10.  For a positive observed price and a slippage buffer between 0 and
    10000 bps, the limit price of a taker order is the observed price
    times [1 + buffer/10000] for a buy and times [1 - buffer/10000] for a
    sell, up to an error of at most the observed price times [2^-50].  A
    price read that raises makes the limit price raise the same
    exception. *)
Theorem slippage_price_accuracy cfg env w name is_buy :
  (forall price,
     limit_taker_price cfg env name is_buy w = (Ok (Dfinite price), w) ->
     (0 < price)%Q ->
     0 <= slippage_buffer_bps cfg <= 10000 ->
     exists limit,
       limit_taker_price_with_slippage cfg env name is_buy w = (Ok (Dfinite limit), w)
       /\ (Qabs (limit - buffered_price cfg is_buy price) <= price * tolerance)%Q)
  /\ (forall e,
        limit_taker_price cfg env name is_buy w = (Raise e, w) ->
        limit_taker_price_with_slippage cfg env name is_buy w = (Raise e, w)).
Proof.
  split.
  - intros price. apply slippage_price_near.
  - intros e H. unfold limit_taker_price_with_slippage.
    rewrite (bind_raise _ _ _ _ _ H). reflexivity.
Qed.

(** X10, an instance: the spot ask of 1 with the shipped buffer of 5 bps. *)
Lemma slippage_price_accuracy_witness :
  exists limit,
    limit_taker_price_with_slippage shipped (Scenario.buy_side_market 10) "kucoin" true
      (Scenario.strategy true Closed [] 0)
    = (Ok (Dfinite limit), Scenario.strategy true Closed [] 0)
    /\ (Qabs (limit - buffered_price shipped true 1) <= 1 * tolerance)%Q.
Proof.
  apply (proj1 (slippage_price_accuracy shipped (Scenario.buy_side_market 10)
                  (Scenario.strategy true Closed [] 0) "kucoin" true) 1%Q).
  - reflexivity.
  - reflexivity.
  - split; vm_compute; discriminate.
Defined.

(** X11.  With a buffer of at least 1 bps (and at most 10000) the rounding
    never eats the buffer: the limit price of a buy lies strictly above
    the observed positive price and the limit price of a sell strictly
    below it, so a pair's orders are marketable against the quotes they
    were computed from. *)
Theorem slippage_moves_against_taker cfg env w name is_buy price :
  limit_taker_price cfg env name is_buy w = (Ok (Dfinite price), w) ->
  (0 < price)%Q ->
  1 <= slippage_buffer_bps cfg <= 10000 ->
  exists limit,
    limit_taker_price_with_slippage cfg env name is_buy w = (Ok (Dfinite limit), w)
    /\ (if is_buy then price < limit else limit < price)%Q.
Proof.
  intros Hread Hp [Hb1 Hb2].
  destruct (slippage_price_near cfg env w name is_buy price Hread Hp ltac:(lia))
    as (limit & Hl & Hnear).
  exists limit. split; [exact Hl|].
  unfold buffered_price, tolerance in Hnear.
  assert (Hr : ((1 # 10000) <= inject_Z (slippage_buffer_bps cfg) / 10000)%Q).
  { apply Qle_shift_div_l; [reflexivity|].
    rewrite (Zle_Qle 1 (slippage_buffer_bps cfg)) in Hb1.
    change ((1 # 10000) * 10000)%Q with (10000 # 10000)%Q.
    assert ((10000 # 10000) == inject_Z 1)%Q by reflexivity. lra. }
  set (r := (inject_Z (slippage_buffer_bps cfg) / 10000)%Q) in *.
  assert (Hpr : (price * (1 # 10000) <= price * r)%Q).
  { rewrite !(Qmult_comm price). apply Qmult_le_compat_r; lra. }
  apply Qabs_Qle_condition in Hnear.
  destruct is_buy; lra.
Qed.

(** X11, an instance: the perpetual bid of 1.0025, sold 5 bps lower. *)
Lemma slippage_moves_against_taker_witness :
  exists limit,
    limit_taker_price_with_slippage shipped (Scenario.buy_side_market 10)
      "kucoin_perpetual" false (Scenario.strategy true Closed [] 0)
    = (Ok (Dfinite limit), Scenario.strategy true Closed [] 0)
    /\ (limit < 10025 # 10000)%Q.
Proof.
  assert (Hread : limit_taker_price shipped (Scenario.buy_side_market 10)
                    "kucoin_perpetual" false (Scenario.strategy true Closed [] 0)
                  = (Ok (Dfinite (10025 # 10000)), Scenario.strategy true Closed [] 0))
    by (vm_compute; reflexivity).
  assert (Hpos : (0 < 10025 # 10000)%Q) by reflexivity.
  assert (Hbps : 1 <= slippage_buffer_bps shipped <= 10000)
    by (split; vm_compute; discriminate).
  destruct (slippage_moves_against_taker _ _ _ _ _ _ Hread Hpos Hbps)
    as (limit & Hrun & Hlt).
  exists limit. split; [exact Hrun | exact Hlt].
Defined.

(** X12.  The capital check of SellSpotLongPerp, with finite reads: it
    returns [True] exactly when the spot base balance, as a float, is at
    least the order size and the perpetual quote balance, as a float, is
    at least the Decimal product of the perpetual buy price and the order
    size.  The slippage buffer plays no part in it.  For a positive price
    and size it returns [True] when the base balance covers the size and
    the quote balance is at least the closed-form requirement times
    [1 + 2^-50], and [False] when the base balance is short or the quote
    balance is at most the requirement times [1 - 2^-50]. *)
Theorem can_sell_spot_long_perp_spec cfg env w spot_base perp_quote perp_buy size :
  get_balance cfg env (spot_connector cfg) true w = (Ok (Ffinite spot_base), w) ->
  get_balance cfg env (perp_connector cfg) false w = (Ok (Ffinite perp_quote), w) ->
  limit_taker_price cfg env (perp_connector cfg) true w = (Ok (Dfinite perp_buy), w) ->
  base_order_amount cfg = Dfinite size ->
  exists feasible,
    can_sell_spot_long_perp cfg env w = (Ok feasible, w)
    /\ (feasible = true
        <-> (size <= spot_base)%Q /\ (ctx_round (perp_buy * size) <= perp_quote)%Q)
    /\ ((0 < perp_buy)%Q -> (0 < size)%Q ->
        ((size <= spot_base /\ perp_buy * size * (1 + tolerance) <= perp_quote)%Q ->
         feasible = true)
        /\ ((spot_base < size \/ perp_quote <= perp_buy * size * (1 - tolerance))%Q ->
            feasible = false)).
Proof.
  intros Hbs Hbp Hpb Hsize.
  exists (Qle_bool size spot_base && Qle_bool (ctx_round (perp_buy * size)) perp_quote).
  split; [| split].
  - unfold can_sell_spot_long_perp.
    rewrite (bind_ok _ _ _ _ _ Hbs). rewrite Hsize.
    unfold bind at 1. unfold lift at 1. simpl Decimal_ge. cbv iota beta.
    rewrite (bind_ok _ _ _ _ _ Hbp), (bind_ok _ _ _ _ _ Hpb).
    reflexivity.
  - rewrite andb_true_iff, !Qle_bool_iff. reflexivity.
  - intros Pp Pn.
    destruct (perp_requirement_tolerance perp_buy size perp_quote Pp Pn) as [Hp1 Hp0].
    split.
    + intros [H1 H2]. rewrite (Hp1 H2).
      apply (proj2 (Qle_bool_iff size spot_base)) in H1. rewrite H1. reflexivity.
    + intros [H | H].
      * rewrite (Qle_bool_false _ _ H). reflexivity.
      * rewrite (Hp0 H). apply andb_false_r.
Qed.

(** X12, an instance: 1000 LINA on the spot venue, 1000 USDT on the
    perpetual one, a perpetual ask of 1, size 100. *)
Lemma can_sell_spot_long_perp_spec_witness :
  can_sell_spot_long_perp shipped (Scenario.sell_side_market 10)
    (Scenario.strategy true Opened [] 0)
  = (Ok true, Scenario.strategy true Opened [] 0).
Proof.
  set (env := Scenario.sell_side_market 10).
  set (w := Scenario.strategy true Opened [] 0).
  assert (Hbs : get_balance shipped env (spot_connector shipped) true w
                = (Ok (Ffinite 1000), w)) by (vm_compute; reflexivity).
  assert (Hbp : get_balance shipped env (perp_connector shipped) false w
                = (Ok (Ffinite 1000), w)) by (vm_compute; reflexivity).
  assert (Hpb : limit_taker_price shipped env (perp_connector shipped) true w
                = (Ok (Dfinite 1), w)) by (vm_compute; reflexivity).
  assert (Hsize : base_order_amount shipped = Dfinite 100) by (vm_compute; reflexivity).
  destruct (can_sell_spot_long_perp_spec shipped env w 1000 1000 1 100
              Hbs Hbp Hpb Hsize)
    as (feasible & Hrun & _ & Htol).
  rewrite Hrun. f_equal. f_equal.
  apply (Htol eq_refl eq_refl).
  split; vm_compute; discriminate.
Defined.

(* ================================================================== *)
(** * Further properties: legs that never complete *)
(* ================================================================== *)

(** A tick in an in-flight state whose record does not hold exactly two
    completions returns at once. *)
Lemma pending_tick_returns cfg env w :
  is_in_flight (strategy_state (self w)) = true ->
  List.length (completed_order_ids (self w)) <> 2%nat ->
  on_tick cfg env w = (Ok tt, w).
Proof.
  intros Hf Hl.
  destruct (is_position_mode_ready (self w)) eqn:G;
    [| apply on_tick_precheck_fails; exact G].
  pose proof (update_in_flight_state_pending env w Hl) as Hrun.
  unfold on_tick.
  rewrite (bind_ok _ _ _ _ _ (get_self_run w)). cbv beta. rewrite G. cbn [negb].
  rewrite (bind_ok _ _ _ _ _ Hrun).
  rewrite (bind_ok _ _ _ _ _ (get_self_run w)). cbv beta.
  destruct (strategy_state (self w)); simpl in *; try discriminate; reflexivity.
Qed.

(** The stalled condition: in flight, with fewer than two legs on record
    or outstanding, in the state and with the gateway of [s0]. *)
Lemma sys_step_stalled cfg s0 s s' :
  is_in_flight (strategy_state (self (world s0))) = true ->
  strategy_state (self (world s)) = strategy_state (self (world s0))
  /\ gateway (world s) = gateway (world s0)
  /\ (List.length (completed_order_ids (self (world s)))
      + List.length (outstanding s) < 2)%nat ->
  sys_step cfg s s' ->
  strategy_state (self (world s')) = strategy_state (self (world s0))
  /\ gateway (world s') = gateway (world s0)
  /\ (List.length (completed_order_ids (self (world s')))
      + List.length (outstanding s') < 2)%nat.
Proof.
  intros Hf (Hs & Hg & Hl) Hstep.
  destruct Hstep as [env ids s Hlen | id s Hin | id s Hin | id s Hin | s | s].
  - assert (Hret : on_tick cfg env (world s) = (Ok tt, world s)).
    { apply pending_tick_returns; [rewrite Hs; exact Hf | lia]. }
    rewrite Hret in *. simpl snd in *.
    assert (ids = []) by (apply length_zero_nil; lia). subst ids.
    cbn [world outstanding]. rewrite app_nil_r. auto.
  - pose proof (remove_one_length id _ Hin) as Hr.
    cbn [world outstanding]. simpl. rewrite length_app. simpl.
    split; [exact Hs|]. split; [exact Hg | lia].
  - pose proof (remove_one_length id _ Hin) as Hr.
    cbn [world outstanding]. simpl. rewrite length_app. simpl.
    split; [exact Hs|]. split; [exact Hg | lia].
  - pose proof (remove_one_length id _ Hin) as Hr.
    cbn [world outstanding].
    split; [exact Hs|]. split; [exact Hg | lia].
  - cbn [world outstanding]. simpl. auto.
  - cbn [world outstanding]. simpl. auto.
Qed.

(** X13.  The class has no handler for a failed or cancelled order.  Once
    the state is in flight and the legs on record and outstanding are
    fewer than two (a leg has failed), the strategy never leaves that
    state and never submits another order, whatever ticks, completions of
    the outstanding leg and position-mode events follow. *)
Theorem missing_leg_stalls cfg s0 s :
  is_in_flight (strategy_state (self (world s0))) = true ->
  (List.length (completed_order_ids (self (world s0)))
   + List.length (outstanding s0) < 2)%nat ->
  sys_reach cfg s0 s ->
  strategy_state (self (world s)) = strategy_state (self (world s0))
  /\ gateway (world s) = gateway (world s0)
  /\ forall env, on_tick cfg env (world s) = (Ok tt, world s).
Proof.
  intros Hf Hl Hreach.
  assert (Inv : strategy_state (self (world s)) = strategy_state (self (world s0))
                /\ gateway (world s) = gateway (world s0)
                /\ (List.length (completed_order_ids (self (world s)))
                    + List.length (outstanding s) < 2)%nat).
  { induction Hreach as [| s s' _ IH Hstep].
    - auto.
    - exact (sys_step_stalled cfg s0 s s' Hf IH Hstep). }
  destruct Inv as (Hs & Hg & Hn).
  split; [exact Hs|]. split; [exact Hg|].
  intros env. apply pending_tick_returns; [rewrite Hs; exact Hf | lia].
Qed.

(** X13, an instance: [Opening], the spot leg completed, the perpetual leg
    failed; a tick on a market where SellSpotLongPerp pays changes
    nothing. *)
Lemma missing_leg_stalls_witness :
  strategy_state
    (self (snd (on_tick shipped (Scenario.sell_side_market 100)
                  (Scenario.strategy true Opening ["spot-1"] 0))))
  = Opening.
Proof.
  refine (proj1 (missing_leg_stalls shipped
                   (mkSystem (Scenario.strategy true Opening ["spot-1"] 0) [])
                   (mkSystem (snd (on_tick shipped (Scenario.sell_side_market 100)
                                     (Scenario.strategy true Opening ["spot-1"] 0)))
                             ([] ++ []))
                   _ _ _)).
  - reflexivity.
  - simpl. lia.
  - eapply reach_step; [apply reach_start|].
    apply (step_tick shipped (Scenario.sell_side_market 100) []
             (mkSystem (Scenario.strategy true Opening ["spot-1"] 0) [])).
    vm_compute. reflexivity.
Defined.

(** X14.  On an object with [is_perp_in_long] assigned, so that no leg
    goes out alone, under a gateway that notifies only submitted legs,
    each at most once, and from a start with nothing in flight: whenever
    the strategy is in a static state, no leg is outstanding and the
    record is empty (a hedge counts as opened, or as closed, only after
    both of its legs were reported complete); in an in-flight state the
    legs on record and outstanding are two at most. *)
Theorem static_state_has_no_open_leg cfg s0 s :
  idle s0 ->
  is_perp_in_long (self (world s0)) <> None ->
  sys_reach cfg s0 s ->
  (is_static (strategy_state (self (world s))) = true ->
   outstanding s = [] /\ completed_order_ids (self (world s)) = [])
  /\ (is_in_flight (strategy_state (self (world s))) = true ->
      (List.length (completed_order_ids (self (world s)))
       + List.length (outstanding s) <= 2)%nat).
Proof.
  intros Hidle Hlong Hreach.
  pose proof (sys_reach_accounted cfg s0 s Hidle Hlong Hreach) as Inv.
  unfold legs_accounted in Inv.
  destruct (strategy_state (self (world s))); simpl; split; intros H;
    try discriminate H; tauto.
Qed.

(** X14, an instance: the pair goes out, both legs are notified complete,
    and the next tick finds the hedge opened with nothing outstanding. *)
Lemma static_state_has_no_open_leg_witness :
  exists s,
    sys_reach shipped (mkSystem (Scenario.strategy true Closed [] 0) []) s
    /\ strategy_state (self (world s)) = Opened
    /\ outstanding s = []
    /\ completed_order_ids (self (world s)) = [].
Proof.
  set (s0 := mkSystem (Scenario.strategy true Closed [] 0) []).
  set (s1 := mkSystem (snd (on_tick shipped (Scenario.buy_side_market 10) (world s0)))
                      (outstanding s0 ++ ["spot-1"; "perp-1"])).
  set (s2 := mkSystem (snd (did_complete_buy_order "spot-1" (world s1)))
                      (remove_one "spot-1" (outstanding s1))).
  set (s3 := mkSystem (snd (did_complete_sell_order "perp-1" (world s2)))
                      (remove_one "perp-1" (outstanding s2))).
  set (s4 := mkSystem (snd (on_tick shipped (Scenario.quiet_market 20) (world s3)))
                      (outstanding s3 ++ [])).
  assert (R1 : sys_step shipped s0 s1).
  { apply (step_tick shipped (Scenario.buy_side_market 10) ["spot-1"; "perp-1"] s0).
    vm_compute. reflexivity. }
  assert (R2 : sys_step shipped s1 s2).
  { apply (step_buy_completed shipped "spot-1" s1). left. reflexivity. }
  assert (R3 : sys_step shipped s2 s3).
  { apply (step_sell_completed shipped "perp-1" s2). left. reflexivity. }
  assert (R4 : sys_step shipped s3 s4).
  { apply (step_tick shipped (Scenario.quiet_market 20) [] s3).
    vm_compute. reflexivity. }
  assert (Hreach : sys_reach shipped s0 s4).
  { exact (reach_step _ _ _ _
             (reach_step _ _ _ _
                (reach_step _ _ _ _
                   (reach_step _ _ _ _ (reach_start _ _) R1) R2) R3) R4). }
  assert (Hidle : idle s0) by (split; [reflexivity | split; reflexivity]).
  assert (Hlong : is_perp_in_long (self (world s0)) <> None) by discriminate.
  exists s4. split; [exact Hreach|]. split; [vm_compute; reflexivity|].
  apply (proj1 (static_state_has_no_open_leg shipped s0 s4 Hidle Hlong Hreach)).
  vm_compute. reflexivity.
Defined.

(* ================================================================== *)
(** * Further properties: the status report *)
(* ================================================================== *)

Lemma sbind_inl {A B} (c : Status A) (k : A -> Status B) w a w' :
  c w = (inl a, w') -> sbind c k w = k a w'.
Proof. intros H. unfold sbind. rewrite H. reflexivity. Qed.

Lemma sbind_inr {A B} (c : Status A) (k : A -> Status B) w e w' :
  c w = (inr e, w') -> sbind c k w = (inr e, w').
Proof. intros H. unfold sbind. rewrite H. reflexivity. Qed.










(** Run a method that changes nothing at [w], and split on how it ends. *)
Ltac read_at c w F p e E :=
  let Hf := fresh "Hf" in
  let w1 := fresh "w" in
  pose proof (F w) as Hf;
  destruct (c w) as [[p | e] w1] eqn:E; simpl in Hf; subst w1; cbv beta iota.

Ltac like_detector :=
  solve [ split;
          [ intros ? H; first [discriminate H | inversion H; subst; eauto]
          | intros ? H; first [discriminate H | eauto] ] ].

(** The first section of the report performs the reads and the Decimal
    operations of the first detector, in the same order. *)
Lemma buy_status_like_detector cfg env lines w :
  (forall e, should_buy_spot_short_perp cfg env w = (Raise e, w) ->
             _append_buy_spot_short_perp_status cfg env lines w = (inr (MethodError e), w))
  /\ (forall b, should_buy_spot_short_perp cfg env w = (Ok b, w) ->
                exists l, _append_buy_spot_short_perp_status cfg env lines w = (inl l, w)).
Proof.
  unfold should_buy_spot_short_perp, _append_buy_spot_short_perp_status.
  unfold bind, sbind, call, lift, ret, sret.
  read_at (limit_taker_price cfg env (spot_connector cfg) true) w
          (frame_limit_taker_price cfg env (spot_connector cfg) true) p1 e1 E1;
    [| like_detector].
  read_at (limit_taker_price cfg env (perp_connector cfg) false) w
          (frame_limit_taker_price cfg env (perp_connector cfg) false) p2 e2 E2;
    [| like_detector].
  destruct (Decimal_sub p2 p1) as [d | e3]; [| like_detector].
  destruct (Decimal_div d p1) as [q | e4]; like_detector.
Qed.

(** The second section performs those of the second detector, with the
    two price reads in the opposite order. *)
Lemma sell_status_like_detector cfg env lines w :
  (forall e, should_sell_spot_long_perp cfg env w = (Raise e, w) ->
             exists e', _append_sell_spot_long_perp_status cfg env lines w
                        = (inr (MethodError e'), w))
  /\ (forall b, should_sell_spot_long_perp cfg env w = (Ok b, w) ->
                exists l, _append_sell_spot_long_perp_status cfg env lines w = (inl l, w)).
Proof.
  unfold should_sell_spot_long_perp, _append_sell_spot_long_perp_status.
  unfold bind, sbind, call, lift, ret, sret.
  read_at (limit_taker_price cfg env (spot_connector cfg) false) w
          (frame_limit_taker_price cfg env (spot_connector cfg) false) p1 e1 E1;
    read_at (limit_taker_price cfg env (perp_connector cfg) true) w
            (frame_limit_taker_price cfg env (perp_connector cfg) true) p2 e2 E2;
    rewrite ?E1; cbv beta iota; try like_detector.
  destruct (Decimal_sub p1 p2) as [d | e3]; [| like_detector].
  destruct (Decimal_div d p2) as [q | e4]; like_detector.
Qed.

(** X16.  The status report repeats the reads and the Decimal operations
    of the two detectors, so it fails where they fail: when the first
    detector raises, the report with ready connectors ends in the same
    exception; when the first returns and the second raises, the report
    ends in an exception of a method as well (the same one unless both
    price reads of that direction raise, for the report reads the
    perpetual price first and the detector the spot price).  A report
    that returns shows that both detectors return. *)
Theorem status_report_fails_with_detectors cfg env w :
  (forall e,
     should_buy_spot_short_perp cfg env w = (Raise e, w) ->
     format_status cfg env true w = (inr (MethodError e), w))
  /\ (forall b e,
        should_buy_spot_short_perp cfg env w = (Ok b, w) ->
        should_sell_spot_long_perp cfg env w = (Raise e, w) ->
        exists e', format_status cfg env true w = (inr (MethodError e'), w))
  /\ (forall lines,
        format_status cfg env true w = (inl lines, w) ->
        exists b1 b2,
          should_buy_spot_short_perp cfg env w = (Ok b1, w)
          /\ should_sell_spot_long_perp cfg env w = (Ok b2, w)).
Proof.
  destruct (buy_status_like_detector cfg env [] w) as [Hbr Hbo].
  assert (Hfirst : forall e,
            should_buy_spot_short_perp cfg env w = (Raise e, w) ->
            format_status cfg env true w = (inr (MethodError e), w)).
  { intros e H. unfold format_status. cbn [negb]. cbv iota.
    rewrite (sbind_inr _ _ _ _ _ (Hbr e H)). reflexivity. }
  assert (Hsecond : forall b e,
            should_buy_spot_short_perp cfg env w = (Ok b, w) ->
            should_sell_spot_long_perp cfg env w = (Raise e, w) ->
            exists e', format_status cfg env true w = (inr (MethodError e'), w)).
  { intros b e H1 H2. unfold format_status. cbn [negb]. cbv iota.
    destruct (Hbo b H1) as (l1 & E1). rewrite (sbind_inl _ _ _ _ _ E1). cbv zeta.
    destruct (proj1 (sell_status_like_detector cfg env (l1 ++ [[Text ""]; [Text ""]]) w) e H2)
      as (e' & E2).
    rewrite (sbind_inr _ _ _ _ _ E2). eauto. }
  split; [exact Hfirst|]. split; [exact Hsecond|].
  intros lines Hret.
  pose proof (frame_run _ w (frame_should_buy_spot_short_perp cfg env)) as R1.
  pose proof (frame_run _ w (frame_should_sell_spot_long_perp cfg env)) as R2.
  destruct (fst (should_buy_spot_short_perp cfg env w)) as [b1 | e1].
  2:{ rewrite (Hfirst e1 R1) in Hret. discriminate Hret. }
  destruct (fst (should_sell_spot_long_perp cfg env w)) as [b2 | e2].
  2:{ destruct (Hsecond b1 e2 R1 R2) as (e' & E). rewrite E in Hret. discriminate Hret. }
  eauto.
Qed.

(** X16, an instance: a spot ask of zero makes the first detector, and
    with it the report, end in DivisionByZero. *)
Lemma status_report_fails_with_detectors_witness :
  format_status shipped (Scenario.zero_spot_market 10) true
    (Scenario.strategy true Closed [] 0)
  = (inr (MethodError DivisionByZero), Scenario.strategy true Closed [] 0).
Proof.
  assert (H : should_buy_spot_short_perp shipped (Scenario.zero_spot_market 10)
                (Scenario.strategy true Closed [] 0)
              = (Raise DivisionByZero, Scenario.strategy true Closed [] 0))
    by (vm_compute; reflexivity).
  exact (proj1 (status_report_fails_with_detectors shipped (Scenario.zero_spot_market 10)
                  (Scenario.strategy true Closed [] 0)) DivisionByZero H).
Defined.
